(** * yjs-frontend: room access control and realtime session lifecycle

    A shallow embedding of [src/supabase.sql]: the PostgreSQL schema with
    its [join_room_by_key] function, and the React component [App] with
    its helpers [getSearchParam], [updateRoomInUrl], [generateRoomKey] and
    [pickColor].

    JavaScript strings are sequences of UTF-16 code units, modelled as
    [list N].  JavaScript numbers that the program keeps inside the int32
    range are modelled as [Z] with the wrap-around written out. *)

From Stdlib Require Import String Ascii.
From Stdlib Require Import List NArith ZArith Bool Arith Lia.
Import ListNotations.

Set Implicit Arguments.

(** ** JavaScript strings *)

Module JS.

Definition jsstring := list N.

(** An ASCII literal as a JavaScript string. *)
Definition js (s : string) : jsstring :=
  map N_of_ascii (list_ascii_of_string s).

Fixpoint eqb (a b : jsstring) : bool :=
  match a, b with
  | [], [] => true
  | x :: a', y :: b' => (x =? y)%N && eqb a' b'
  | _, _ => false
  end.

(** Truthiness of a string: the empty string is the only falsy one. *)
Definition truthy (s : jsstring) : bool :=
  match s with [] => false | _ :: _ => true end.

(** [a || b] on strings. *)
Definition or_else (a b : jsstring) : jsstring :=
  if truthy a then a else b.

(** *** String.prototype.trim

    The code units removed are ECMAScript's WhiteSpace and LineTerminator:
    TAB, LF, VT, FF, CR, SP, NBSP, U+1680, U+2000..U+200A, U+2028, U+2029,
    U+202F, U+205F, U+3000 and U+FEFF. *)
Definition is_white_space (c : N) : bool :=
  ((9 <=? c) && (c <=? 13)
   || (c =? 32) || (c =? 160) || (c =? 5760)
   || ((8192 <=? c) && (c <=? 8202))
   || (c =? 8232) || (c =? 8233) || (c =? 8239) || (c =? 8287)
   || (c =? 12288) || (c =? 65279))%N.

Fixpoint trimStart (s : jsstring) : jsstring :=
  match s with
  | [] => []
  | c :: rest => if is_white_space c then trimStart rest else s
  end.

Definition trimEnd (s : jsstring) : jsstring := rev (trimStart (rev s)).

Definition trim (s : jsstring) : jsstring := trimEnd (trimStart s).

(** *** String.prototype.toUpperCase

    ECMAScript converts the string to code points, maps every code point
    through the Unicode default (locale-insensitive) uppercase mapping and
    converts back to UTF-16.  On ASCII the mapping sends [a..z] to [A..Z]
    and fixes every other code point.  The mapping of the code points from
    128 up is data of the Unicode Character Database, which is no part of
    the repository: it is the parameter [ucd_upper]. *)

Definition is_lead_surrogate (c : N) : bool := ((55296 <=? c) && (c <=? 56319))%N.
Definition is_trail_surrogate (c : N) : bool := ((56320 <=? c) && (c <=? 57343))%N.

Definition surrogate_pair (lead trail : N) : N :=
  ((lead - 55296) * 1024 + (trail - 56320) + 65536)%N.

Fixpoint StringToCodePoints (s : jsstring) : list N :=
  match s with
  | [] => []
  | c :: rest =>
      match rest with
      | d :: rest' =>
          if is_lead_surrogate c && is_trail_surrogate d
          then surrogate_pair c d :: StringToCodePoints rest'
          else c :: StringToCodePoints rest
      | [] => [c]
      end
  end.

Definition UTF16EncodeCodePoint (cp : N) : jsstring :=
  if (cp <? 65536)%N then [cp]
  else [((cp - 65536) / 1024 + 55296)%N; ((cp - 65536) mod 1024 + 56320)%N].

Definition CodePointsToString (cps : list N) : jsstring :=
  flat_map UTF16EncodeCodePoint cps.

Definition ascii_upper (c : N) : N :=
  if ((97 <=? c) && (c <=? 122))%N then (c - 32)%N else c.

Section Unicode.

Variable ucd_upper : N -> list N.

Definition toUppercase (cp : N) : list N :=
  if (cp <? 128)%N then [ascii_upper cp] else ucd_upper cp.

Definition toUpperCase (s : jsstring) : jsstring :=
  CodePointsToString (flat_map toUppercase (StringToCodePoints s)).

End Unicode.

(** *** Number.prototype.toString(radix) on a non-negative integer

    Digits are [0..9] then [a..z]; [fuel] bounds the number of digits. *)
Definition digit (d : N) : N :=
  if (d <? 10)%N then (48 + d)%N else (97 + (d - 10))%N.

Fixpoint toString_digits (radix : N) (fuel : nat) (n : N) (acc : jsstring)
  : jsstring :=
  match fuel with
  | O => acc
  | S fuel' =>
      let acc' := digit (n mod radix) :: acc in
      if (n / radix =? 0)%N then acc'
      else toString_digits radix fuel' (n / radix) acc'
  end.

Definition toString (radix : N) (n : N) : jsstring :=
  toString_digits radix (S (N.size_nat n)) n [].

(** *** ToInt32, the result of [x | 0], and the int32 left shift *)
Definition ToInt32 (z : Z) : Z :=
  ((z + 2147483648) mod 4294967296 - 2147483648)%Z.

Definition shl (a : Z) (k : Z) : Z :=
  ToInt32 (Z.shiftl (ToInt32 a) (Z.land k 31)).

End JS.

Import JS.

(** ** Helpers of [App] *)

Definition userColors : list jsstring :=
  [js "#2b6cb0"; js "#2f855a"; js "#b83280"; js "#c05621"; js "#6b46c1"].

(** The loop of [pickColor]: [value.charCodeAt(i)] for [i] from [0] to
    [value.length - 1], with [hash] the running int32. *)
Fixpoint pickColor_loop (value : jsstring) (hash : Z) : Z :=
  match value with
  | [] => hash
  | c :: rest =>
      let hash1 := (shl hash 5 - hash + Z.of_N c)%Z in
      pickColor_loop rest (ToInt32 hash1)
  end.

Definition pickColor_hash (value : jsstring) : Z := pickColor_loop value 0%Z.

(** [userColors[Math.abs(hash) % userColors.length]]; an index outside the
    array would read [undefined], here [None]. *)
Definition pickColor (value : jsstring) : option jsstring :=
  nth_error userColors
    (Z.to_nat (Z.abs (pickColor_hash value) mod Z.of_nat (length userColors))).

(** The random bytes [generateRoomKey] draws: [window.crypto.getRandomValues]
    when it is there, [Math.floor(Math.random() * 256)] otherwise. *)
Record Entropy := {
  crypto_available : bool;
  getRandomValues : nat -> N;
  math_random_256 : nat -> N
}.

(** A store into a [Uint8Array] keeps the value modulo 256. *)
Definition ToUint8 (v : N) : N := (v mod 256)%N.

Definition random_bytes (e : Entropy) : list N :=
  map (fun i => ToUint8 (if crypto_available e
                         then getRandomValues e i
                         else math_random_256 e i))
      (seq 0 6).

Section Keys.

Variable ucd_upper : N -> list N.

Definition generateRoomKey (e : Entropy) : jsstring :=
  toUpperCase ucd_upper
    (concat (map (fun value => toString 36 (value mod 36)) (random_bytes e))).

(** [keyValue.trim().toUpperCase()] in [joinRoomByKey]. *)
Definition normalizeKey (keyValue : jsstring) : jsstring :=
  toUpperCase ucd_upper (trim keyValue).

End Keys.


(** ** The database of [supabase.sql] *)

Module Db.

Definition Uuid := N.

(** A row of [public.rooms]. *)
Record Room := {
  id : Uuid;
  key : jsstring;
  owner_id : Uuid;
  room_created_at : N
}.

(** A row of [public.room_members]. *)
Record RoomMember := {
  room_id : Uuid;
  user_id : Uuid;
  role : jsstring;
  member_created_at : N
}.

(** Tables are kept as lists of rows, in insertion order, so that a table
    with two rows of one key can be written down: that no such table
    arises is a theorem, not a property of the representation. *)
Record Database := {
  rooms : list Room;
  room_members : list RoomMember
}.

Definition empty : Database := {| rooms := []; room_members := [] |}.

(** What the server supplies to the column defaults of one statement:
    [gen_random_uuid()] and [now()]. *)
Record ServerEnv := {
  gen_random_uuid : Uuid;
  now : N
}.

Inductive Error :=
| UniqueViolation (constraint : string)
| ForeignKeyViolation (table constraint : string)
| RowLevelSecurity (table : string)
| RowLevelSecurityOnConflict (table : string)
| RoomNotFound.

(** An identifier between double quotes (code unit 34), as PostgreSQL
    prints the name of a table or of a constraint. *)
Definition quoted (name : string) : jsstring :=
  [34%N] ++ js name ++ [34%N].

(** [error.message] as the client reads it: the texts PostgreSQL gives
    to a violated unique constraint, a violated foreign key, a row that
    the [with check] of the policies refuses and, for
    [RowLevelSecurityOnConflict], an existing row that the policies do
    not let [on conflict do update] touch; [RoomNotFound] is
    [raise exception 'room-not-found']. *)
Definition message (e : Error) : jsstring :=
  match e with
  | UniqueViolation c =>
      js "duplicate key value violates unique constraint " ++ quoted c
  | ForeignKeyViolation t c =>
      js "insert or update on table " ++ quoted t
      ++ js " violates foreign key constraint " ++ quoted c
  | RowLevelSecurity t =>
      js "new row violates row-level security policy for table " ++ quoted t
  | RowLevelSecurityOnConflict t =>
      js "new row violates row-level security policy (USING expression) for table "
      ++ quoted t
  | RoomNotFound => js "room-not-found"
  end.

Definition has_room_id (r : Uuid) (db : Database) : bool :=
  existsb (fun x => (id x =? r)%N) (rooms db).

Definition has_room_key (k : jsstring) (db : Database) : bool :=
  existsb (fun x => JS.eqb (key x) k) (rooms db).

Definition is_member (r u : Uuid) (db : Database) : bool :=
  existsb (fun m => (room_id m =? r)%N && (user_id m =? u)%N) (room_members db).

(** *** Row level security policies *)

(** "Rooms: insert own": [with check (auth.uid() = owner_id)]. *)
Definition policy_rooms_insert (auth_uid : Uuid) (row : Room) : bool :=
  (auth_uid =? owner_id row)%N.

(** "Rooms: select member". *)
Definition policy_rooms_select (auth_uid : Uuid) (db : Database) (row : Room)
  : bool :=
  (auth_uid =? owner_id row)%N || is_member (id row) auth_uid db.

(** "Room members: select own". *)
Definition policy_room_members_select (auth_uid : Uuid) (row : RoomMember)
  : bool :=
  (auth_uid =? user_id row)%N.

(** "Room members: insert self". *)
Definition policy_room_members_insert (auth_uid : Uuid) (row : RoomMember)
  : bool :=
  (auth_uid =? user_id row)%N.

(** No policy is declared [for update] on [room_members], and row level
    security is enabled on the table: an update by a client is refused. *)
Definition policy_room_members_update (auth_uid : Uuid) (row : RoomMember)
  : bool :=
  false.

(** *** Statements the client sends *)

(** [from('rooms').insert({ key, owner_id }).select('id, key').single()]:
    the row gets its [id] and [created_at] from the defaults; the insert
    policy, the primary key and [key text unique] are checked; the new
    row is returned when the select policy lets the caller read it.
    ([owner_id] refers to [auth.users], a table of the identity provider;
    the caller is signed in, so the user exists.) *)
Definition insert_room (auth_uid : Uuid) (k : jsstring) (owner : Uuid)
    (env : ServerEnv) (db : Database) : Error + (Room * Database) :=
  let row := {| id := gen_random_uuid env; key := k; owner_id := owner;
                room_created_at := now env |} in
  if negb (policy_rooms_insert auth_uid row) then inl (RowLevelSecurity "rooms")
  else if has_room_id (id row) db then inl (UniqueViolation "rooms_pkey")
  else if has_room_key k db then inl (UniqueViolation "rooms_key_key")
  else
    let db' := {| rooms := rooms db ++ [row];
                  room_members := room_members db |} in
    if policy_rooms_select auth_uid db' row then inr (row, db')
    else inl (RowLevelSecurity "rooms").

(** [from('room_members').upsert({ room_id, user_id },
    { onConflict: 'room_id,user_id' })], that is
    [insert ... on conflict (room_id, user_id) do update set
    room_id = excluded.room_id, user_id = excluded.user_id].
    When no row has the pair, the insert policy and the foreign key are
    checked and the row is inserted with the defaults of [role] and
    [created_at].  When one has, the update would write the values the
    row already has; the update policy decides whether the statement
    succeeds.  In both cases of a conflict the table is as it was. *)
Definition upsert_room_member (auth_uid : Uuid) (r u : Uuid)
    (env : ServerEnv) (db : Database) : Error + Database :=
  let row := {| room_id := r; user_id := u; role := js "editor";
                member_created_at := now env |} in
  if is_member r u db then
    if policy_room_members_update auth_uid row then inr db
    else inl (RowLevelSecurityOnConflict "room_members")
  else if negb (policy_room_members_insert auth_uid row)
  then inl (RowLevelSecurity "room_members")
  else if negb (has_room_id r db)
  then inl (ForeignKeyViolation "room_members" "room_members_room_id_fkey")
  else inr {| rooms := rooms db;
              room_members := room_members db ++ [row] |}.

(** *** [public.join_room_by_key(p_key text)]

    [security definer]: the statements inside run with the rights of the
    function's owner, the policies above do not apply to them. *)

(** [select id into v_room_id from public.rooms where key = p_key]. *)
Definition select_room_id_by_key (p_key : jsstring) (db : Database)
  : option Uuid :=
  option_map id (find (fun x => JS.eqb (key x) p_key) (rooms db)).

(** [insert into public.room_members (room_id, user_id) values (..)
    on conflict do nothing]. *)
Definition insert_member_on_conflict_do_nothing (r u : Uuid)
    (env : ServerEnv) (db : Database) : Database :=
  if is_member r u db then db
  else {| rooms := rooms db;
          room_members := room_members db ++
            [{| room_id := r; user_id := u; role := js "editor";
                member_created_at := now env |}] |}.

Definition join_room_by_key (p_key : jsstring) (auth_uid : Uuid)
    (env : ServerEnv) (db : Database) : Error + (Uuid * Database) :=
  match select_room_id_by_key p_key db with
  | None => inl RoomNotFound
  | Some v_room_id =>
      inr (v_room_id,
           insert_member_on_conflict_do_nothing v_room_id auth_uid env db)
  end.

(** *** Constraints of the schema, as predicates on a database *)

Definition member_pk (m : RoomMember) : Uuid * Uuid := (room_id m, user_id m).

(** [primary key (room_id, user_id)]. *)
Definition members_unique (db : Database) : Prop :=
  NoDup (map member_pk (room_members db)).

(** [id uuid primary key] and [key text unique]. *)
Definition rooms_unique (db : Database) : Prop :=
  NoDup (map id (rooms db)) /\ NoDup (map key (rooms db)).

(** [room_id uuid not null references public.rooms(id)]. *)
Definition members_reference_rooms (db : Database) : Prop :=
  forall m, In m (room_members db) -> In (room_id m) (map id (rooms db)).

Definition consistent (db : Database) : Prop :=
  rooms_unique db /\ members_unique db /\ members_reference_rooms db.

(** The rows of [room_members] with a given pair. *)
Definition member_rows (r u : Uuid) (db : Database) : list RoomMember :=
  filter (fun m => (room_id m =? r)%N && (user_id m =? u)%N) (room_members db).

End Db.

(** ** The address bar: [URL], [URLSearchParams] and [window.history] *)

Module Url.

(** An address in parsed form: everything before the query, the list of
    name-value pairs of the query as [URLSearchParams] holds it, and the
    fragment. *)
Record URL := {
  origin_and_path : jsstring;
  searchParams : list (jsstring * jsstring);
  fragment : jsstring
}.

(** [URLSearchParams.prototype.get]: the value of the first pair with the
    name, [null] when there is none. *)
Fixpoint get (name : jsstring) (ps : list (jsstring * jsstring))
  : option jsstring :=
  match ps with
  | [] => None
  | (n, v) :: rest => if JS.eqb n name then Some v else get name rest
  end.

(** [URLSearchParams.prototype.delete]: removes every pair with the name. *)
Definition delete (name : jsstring) (ps : list (jsstring * jsstring))
  : list (jsstring * jsstring) :=
  filter (fun p => negb (JS.eqb (fst p) name)) ps.

(** [URLSearchParams.prototype.set]: the first pair with the name gets the
    value and the other pairs with the name are removed; when there is
    none, the pair is appended. *)
Fixpoint set (name value : jsstring) (ps : list (jsstring * jsstring))
  : list (jsstring * jsstring) :=
  match ps with
  | [] => [(name, value)]
  | (n, v) :: rest =>
      if JS.eqb n name then (n, value) :: delete name rest
      else (n, v) :: set name value rest
  end.

Definition with_searchParams (f : list (jsstring * jsstring) ->
                                  list (jsstring * jsstring)) (u : URL) : URL :=
  {| origin_and_path := origin_and_path u;
     searchParams := f (searchParams u);
     fragment := fragment u |}.

(** The session history of the tab: the entries behind the current one,
    the current one ([window.location]) and the entries ahead. *)
Record History := {
  back : list URL;
  current : URL;
  forward : list URL
}.

(** [window.history.replaceState({}, '', url)]. *)
Definition replaceState (url : URL) (h : History) : History :=
  {| back := back h; current := url; forward := forward h |}.

(** [new URLSearchParams(window.location.search).get(key) || ''] *)
Definition getSearchParam (k : jsstring) (h : History) : jsstring :=
  match get k (searchParams (current h)) with
  | Some v => or_else v []
  | None => []
  end.

Definition getRoomFromUrl (h : History) : jsstring :=
  or_else (getSearchParam (js "room") h) (getSearchParam (js "doc") h).

Definition getInviteFromUrl (h : History) : jsstring :=
  getSearchParam (js "invite") h.

Definition updateRoomInUrl (roomId : jsstring) (h : History) : History :=
  let url := current h in
  let url1 :=
    if truthy roomId
    then with_searchParams (set (js "room") roomId) url
    else with_searchParams (delete (js "room")) url in
  let url2 := with_searchParams (delete (js "doc")) url1 in
  let url3 := with_searchParams (delete (js "invite")) url2 in
  replaceState url3 h.

(** [URLSearchParams.prototype.getAll]: the values of the pairs with the
    name, in order. *)
Definition getAll (name : jsstring) (ps : list (jsstring * jsstring))
  : list jsstring :=
  map snd (filter (fun p => JS.eqb (fst p) name) ps).

(** The pairs of a query whose name is none of [room], [doc], [invite]. *)
Definition other_params (ps : list (jsstring * jsstring))
  : list (jsstring * jsstring) :=
  delete (js "invite") (delete (js "doc") (delete (js "room") ps)).

End Url.

(** ** The component [App] *)

Module App.

Import Db Url.

(** The text of a [uuid] as PostgREST returns it: 32 hexadecimal digits in
    groups of 8, 4, 4, 4 and 12. *)
Fixpoint hex_fixed (width : nat) (n : N) : jsstring :=
  match width with
  | O => []
  | S w => hex_fixed w (n / 16) ++ [digit (n mod 16)]
  end.

Definition uuid_text (u : Uuid) : jsstring :=
  hex_fixed 8 (u / 16 ^ 24) ++ [45%N] ++ hex_fixed 4 (u / 16 ^ 20) ++ [45%N] ++
  hex_fixed 4 (u / 16 ^ 16) ++ [45%N] ++ hex_fixed 4 (u / 16 ^ 12) ++ [45%N] ++
  hex_fixed 12 u.

(** The session object of the identity provider, as far as [App] reads
    it: [session.user.id], [session.user.email], [session.access_token]. *)
Record AuthSession := {
  session_user_id : Uuid;
  session_user_email : jsstring;
  session_access_token : jsstring
}.

(** [{ name, color }], the descriptor published on the awareness channel. *)
Record UserDesc := {
  name : jsstring;
  color : option jsstring
}.

(** The [useState] cells of [App].  [sessionStamp] tells session objects
    apart: [useMemo] and [useEffect] compare them by identity. *)
Record State := {
  status : jsstring;
  users : list UserDesc;
  session : option AuthSession;
  sessionStamp : nat;
  email : jsstring;
  password : jsstring;
  authError : jsstring;
  authLoading : bool;
  roomId : jsstring;
  roomKeyInput : jsstring;
  inviteInput : jsstring;
  roomError : jsstring;
  roomLoading : bool;
  inviteKey : jsstring
}.

(** The state of one client of an awareness channel. *)
Record AwarenessState := {
  aw_user : option UserDesc
}.

(** A [WebsocketProvider] with its awareness instance.  A listener is named
    by the number of the effect run that created the closure. *)
Record WebsocketProvider := {
  roomname : jsstring;
  params_token : jsstring;
  clientID : N;
  status_observers : list nat;
  change_observers : list nat;
  states : list (N * AwarenessState);
  destroyed : bool
}.

(** The cells React keeps for [useMemo] and [useEffect]: the memoised
    values with the dependencies they were computed from, the dependencies
    of the last run of each effect, and the cleanup the session effect
    returned ([None] is [() => {}]; [Some (p, n)] detaches the listeners
    of run [n] from provider [p] and destroys it).  Providers are named by
    their index in the store of the providers constructed so far. *)
Record Hooks := {
  user : UserDesc;
  userDeps : option nat;
  provider : option nat;
  providerDeps : option (jsstring * jsstring);
  effectDeps : option (option nat * option nat);
  cleanup : option (nat * nat);
  inviteDeps : option (jsstring * nat);
  effectRuns : nat
}.

(** A request sent to the backend: to the tables and functions of the
    database, or to the identity service ([supabase.auth]). *)
Inductive Request :=
| InsertRoom (k : jsstring) (owner : Uuid)
| UpsertRoomMember (r u : Uuid)
| RpcJoinRoomByKey (p_key : jsstring)
| AuthSignInWithPassword (email password : jsstring)
| AuthSignUp (email password : jsstring)
| AuthSignOut.

Record World := {
  react : State;
  hooks : Hooks;
  history : History;
  providers : list WebsocketProvider;
  supabase : bool;
  db : Database;
  requests : list Request
}.

(** What the environment supplies during one step: the random bytes of
    [generateRoomKey], [Math.floor(Math.random() * 900)], the client id of
    a new document, the server's defaults for each request, and the
    answer of the identity service to the call of [supabase.auth] the
    step awaits: [None] when the call succeeds, [Some message] when it
    returns an [error] with that message. *)
Record Inputs := {
  entropy : Entropy;
  math_random_900 : N;
  new_clientID : N;
  server : nat -> ServerEnv;
  auth_error : option jsstring
}.

(** *** Setters *)

Definition with_react (f : State -> State) (w : World) : World :=
  {| react := f (react w); hooks := hooks w; history := history w;
     providers := providers w; supabase := supabase w; db := db w;
     requests := requests w |}.

Definition with_hooks (f : Hooks -> Hooks) (w : World) : World :=
  {| react := react w; hooks := f (hooks w); history := history w;
     providers := providers w; supabase := supabase w; db := db w;
     requests := requests w |}.

Definition with_history (f : History -> History) (w : World) : World :=
  {| react := react w; hooks := hooks w; history := f (history w);
     providers := providers w; supabase := supabase w; db := db w;
     requests := requests w |}.

Definition with_providers (f : list WebsocketProvider -> list WebsocketProvider)
    (w : World) : World :=
  {| react := react w; hooks := hooks w; history := history w;
     providers := f (providers w); supabase := supabase w; db := db w;
     requests := requests w |}.

Definition with_db (d : Database) (w : World) : World :=
  {| react := react w; hooks := hooks w; history := history w;
     providers := providers w; supabase := supabase w; db := d;
     requests := requests w |}.

Definition send (r : Request) (w : World) : World :=
  {| react := react w; hooks := hooks w; history := history w;
     providers := providers w; supabase := supabase w; db := db w;
     requests := requests w ++ [r] |}.

Definition setStatus (v : jsstring) : World -> World :=
  with_react (fun s =>
    {| status := v; users := users s; session := session s;
       sessionStamp := sessionStamp s; email := email s;
       password := password s; authError := authError s;
       authLoading := authLoading s; roomId := roomId s;
       roomKeyInput := roomKeyInput s; inviteInput := inviteInput s;
       roomError := roomError s; roomLoading := roomLoading s;
       inviteKey := inviteKey s |}).

Definition setUsers (v : list UserDesc) : World -> World :=
  with_react (fun s =>
    {| status := status s; users := v; session := session s;
       sessionStamp := sessionStamp s; email := email s;
       password := password s; authError := authError s;
       authLoading := authLoading s; roomId := roomId s;
       roomKeyInput := roomKeyInput s; inviteInput := inviteInput s;
       roomError := roomError s; roomLoading := roomLoading s;
       inviteKey := inviteKey s |}).

(** [setSession]: a session object is one not seen before; [null] after
    [null] is the value the cell has, and React leaves the state as it
    is. *)
Definition setSession (v : option AuthSession) : World -> World :=
  with_react (fun s =>
    {| status := status s; users := users s; session := v;
       sessionStamp := match v, session s with
                       | None, None => sessionStamp s
                       | _, _ => S (sessionStamp s)
                       end;
       email := email s;
       password := password s; authError := authError s;
       authLoading := authLoading s; roomId := roomId s;
       roomKeyInput := roomKeyInput s; inviteInput := inviteInput s;
       roomError := roomError s; roomLoading := roomLoading s;
       inviteKey := inviteKey s |}).

Definition setEmail (v : jsstring) : World -> World :=
  with_react (fun s =>
    {| status := status s; users := users s; session := session s;
       sessionStamp := sessionStamp s; email := v;
       password := password s; authError := authError s;
       authLoading := authLoading s; roomId := roomId s;
       roomKeyInput := roomKeyInput s; inviteInput := inviteInput s;
       roomError := roomError s; roomLoading := roomLoading s;
       inviteKey := inviteKey s |}).

Definition setPassword (v : jsstring) : World -> World :=
  with_react (fun s =>
    {| status := status s; users := users s; session := session s;
       sessionStamp := sessionStamp s; email := email s;
       password := v; authError := authError s;
       authLoading := authLoading s; roomId := roomId s;
       roomKeyInput := roomKeyInput s; inviteInput := inviteInput s;
       roomError := roomError s; roomLoading := roomLoading s;
       inviteKey := inviteKey s |}).

Definition setAuthError (v : jsstring) : World -> World :=
  with_react (fun s =>
    {| status := status s; users := users s; session := session s;
       sessionStamp := sessionStamp s; email := email s;
       password := password s; authError := v;
       authLoading := authLoading s; roomId := roomId s;
       roomKeyInput := roomKeyInput s; inviteInput := inviteInput s;
       roomError := roomError s; roomLoading := roomLoading s;
       inviteKey := inviteKey s |}).

Definition setAuthLoading (v : bool) : World -> World :=
  with_react (fun s =>
    {| status := status s; users := users s; session := session s;
       sessionStamp := sessionStamp s; email := email s;
       password := password s; authError := authError s;
       authLoading := v; roomId := roomId s;
       roomKeyInput := roomKeyInput s; inviteInput := inviteInput s;
       roomError := roomError s; roomLoading := roomLoading s;
       inviteKey := inviteKey s |}).

Definition setRoomId (v : jsstring) : World -> World :=
  with_react (fun s =>
    {| status := status s; users := users s; session := session s;
       sessionStamp := sessionStamp s; email := email s;
       password := password s; authError := authError s;
       authLoading := authLoading s; roomId := v;
       roomKeyInput := roomKeyInput s; inviteInput := inviteInput s;
       roomError := roomError s; roomLoading := roomLoading s;
       inviteKey := inviteKey s |}).

Definition setRoomKeyInput (v : jsstring) : World -> World :=
  with_react (fun s =>
    {| status := status s; users := users s; session := session s;
       sessionStamp := sessionStamp s; email := email s;
       password := password s; authError := authError s;
       authLoading := authLoading s; roomId := roomId s;
       roomKeyInput := v; inviteInput := inviteInput s;
       roomError := roomError s; roomLoading := roomLoading s;
       inviteKey := inviteKey s |}).

Definition setInviteInput (v : jsstring) : World -> World :=
  with_react (fun s =>
    {| status := status s; users := users s; session := session s;
       sessionStamp := sessionStamp s; email := email s;
       password := password s; authError := authError s;
       authLoading := authLoading s; roomId := roomId s;
       roomKeyInput := roomKeyInput s; inviteInput := v;
       roomError := roomError s; roomLoading := roomLoading s;
       inviteKey := inviteKey s |}).

Definition setRoomError (v : jsstring) : World -> World :=
  with_react (fun s =>
    {| status := status s; users := users s; session := session s;
       sessionStamp := sessionStamp s; email := email s;
       password := password s; authError := authError s;
       authLoading := authLoading s; roomId := roomId s;
       roomKeyInput := roomKeyInput s; inviteInput := inviteInput s;
       roomError := v; roomLoading := roomLoading s;
       inviteKey := inviteKey s |}).

Definition setRoomLoading (v : bool) : World -> World :=
  with_react (fun s =>
    {| status := status s; users := users s; session := session s;
       sessionStamp := sessionStamp s; email := email s;
       password := password s; authError := authError s;
       authLoading := authLoading s; roomId := roomId s;
       roomKeyInput := roomKeyInput s; inviteInput := inviteInput s;
       roomError := roomError s; roomLoading := v;
       inviteKey := inviteKey s |}).

Definition setInviteKey (v : jsstring) : World -> World :=
  with_react (fun s =>
    {| status := status s; users := users s; session := session s;
       sessionStamp := sessionStamp s; email := email s;
       password := password s; authError := authError s;
       authLoading := authLoading s; roomId := roomId s;
       roomKeyInput := roomKeyInput s; inviteInput := inviteInput s;
       roomError := roomError s; roomLoading := roomLoading s;
       inviteKey := v |}).

(** [session?.access_token || ''] *)
Definition token (w : World) : jsstring :=
  match session (react w) with
  | Some s => or_else (session_access_token s) []
  | None => []
  end.

(** *** Room handlers *)

Section Handlers.

Variable ucd_upper : N -> list N.

(** [new URL(text)]: the parser of the URL standard, [None] when it
    throws.  It is no part of the repository and is a parameter. *)
Variable parse_url : jsstring -> option URL.

Definition handleCreateRoom (i : Inputs) (w : World) : World :=
  match supabase w, session (react w) with
  | true, Some s =>
      let uid := session_user_id s in
      let w1 := setRoomLoading true (setRoomError [] w) in
      let newKey := generateRoomKey ucd_upper (entropy i) in
      let w2 := send (InsertRoom newKey uid) w1 in
      match insert_room uid newKey uid (server i 0) (db w2) with
      | inl e =>
          setRoomLoading false
            (setRoomError (or_else (message e) (js "Failed to create room")) w2)
      | inr (room, db1) =>
          let w3 := send (UpsertRoomMember (id room) uid) (with_db db1 w2) in
          match upsert_room_member uid (id room) uid (server i 1) db1 with
          | inl e => setRoomLoading false (setRoomError (message e) w3)
          | inr db2 =>
              setRoomLoading false
                (with_history (updateRoomInUrl (uuid_text (id room)))
                   (setInviteKey []
                      (setRoomId (uuid_text (id room)) (with_db db2 w3))))
          end
      end
  | _, _ => w
  end.

(** [joinRoomByKey]; [n] numbers the request among those of the step. *)
Definition joinRoomByKey (keyValue : jsstring) (i : Inputs) (n : nat)
    (w : World) : World :=
  match supabase w, session (react w) with
  | true, Some s =>
      let trimmedKey := normalizeKey ucd_upper keyValue in
      if negb (truthy trimmedKey)
      then setRoomError (js "Enter a room key") w
      else
        let w1 := setRoomLoading true (setRoomError [] w) in
        let w2 := send (RpcJoinRoomByKey trimmedKey) w1 in
        match join_room_by_key trimmedKey (session_user_id s)
                (server i n) (db w2) with
        | inl e =>
            setRoomLoading false
              (setRoomError (or_else (message e) (js "Room not found")) w2)
        | inr (roomIdFromRpc, db1) =>
            let r := uuid_text roomIdFromRpc in
            if negb (truthy r)
            then setRoomLoading false
                   (setRoomError (js "Room not found") (with_db db1 w2))
            else
              setRoomLoading false
                (with_history (updateRoomInUrl r)
                   (setInviteKey []
                      (setInviteInput []
                         (setRoomKeyInput []
                            (setRoomId r (with_db db1 w2))))))
        end
  | _, _ => w
  end.

Definition handleJoinByKey (i : Inputs) (w : World) : World :=
  joinRoomByKey (roomKeyInput (react w)) i 0 w.

(** The key [handleJoinByInvite] passes on, for a trimmed input that is
    not empty. *)
Definition invite_keyValue (trimmed : jsstring) : jsstring :=
  match parse_url trimmed with
  | Some url =>
      match get (js "invite") (searchParams url) with
      | Some v => or_else v trimmed
      | None => trimmed
      end
  | None => trimmed
  end.

Definition handleJoinByInvite (i : Inputs) (w : World) : World :=
  let trimmed := trim (inviteInput (react w)) in
  if negb (truthy trimmed)
  then setRoomError (js "Enter an invite link or key") w
  else joinRoomByKey (invite_keyValue trimmed) i 0 w.

(** [handleSignIn]: [error] is what [signInWithPassword] returns.  The
    session, when the call succeeds, arrives through the listener of
    [onAuthStateChange], an event of its own. *)
Definition handleSignIn (i : Inputs) (w : World) : World :=
  if negb (supabase w)
  then setAuthError (js "Supabase is not configured") w
  else
    let w1 := setAuthLoading true (setAuthError [] w) in
    let w2 :=
      send (AuthSignInWithPassword (email (react w)) (password (react w))) w1 in
    let w3 := setAuthLoading false w2 in
    match auth_error i with
    | Some m => setAuthError m w3
    | None => w3
    end.

(** [handleSignUp], the same with [supabase.auth.signUp]. *)
Definition handleSignUp (i : Inputs) (w : World) : World :=
  if negb (supabase w)
  then setAuthError (js "Supabase is not configured") w
  else
    let w1 := setAuthLoading true (setAuthError [] w) in
    let w2 := send (AuthSignUp (email (react w)) (password (react w))) w1 in
    let w3 := setAuthLoading false w2 in
    match auth_error i with
    | Some m => setAuthError m w3
    | None => w3
    end.

(** [handleSignOut]: [supabase.auth.signOut()] is awaited and what it
    returns is not looked at.  When the call succeeds the client has
    dropped the session and the listener of [onAuthStateChange] has
    called [setSession(null)]; when it returns an error the session
    stays.  The cells of the room are emptied in both cases. *)
Definition handleSignOut (i : Inputs) (w : World) : World :=
  if negb (supabase w) then w
  else
    let w1 := send AuthSignOut w in
    let w2 := match auth_error i with
              | None => setSession None w1
              | Some _ => w1
              end in
    with_history (updateRoomInUrl [])
      (setInviteKey []
         (setRoomError []
            (setInviteInput []
               (setRoomKeyInput []
                  (setRoomId [] w2))))).

(** *** Hooks *)

Definition set_user (u : UserDesc) (deps : option nat) : World -> World :=
  with_hooks (fun h =>
    {| user := u; userDeps := deps; provider := provider h;
       providerDeps := providerDeps h; effectDeps := effectDeps h;
       cleanup := cleanup h; inviteDeps := inviteDeps h;
       effectRuns := effectRuns h |}).

Definition set_provider (p : option nat) (deps : option (jsstring * jsstring))
  : World -> World :=
  with_hooks (fun h =>
    {| user := user h; userDeps := userDeps h; provider := p;
       providerDeps := deps; effectDeps := effectDeps h;
       cleanup := cleanup h; inviteDeps := inviteDeps h;
       effectRuns := effectRuns h |}).

Definition set_effectDeps (deps : option (option nat * option nat))
  : World -> World :=
  with_hooks (fun h =>
    {| user := user h; userDeps := userDeps h; provider := provider h;
       providerDeps := providerDeps h; effectDeps := deps;
       cleanup := cleanup h; inviteDeps := inviteDeps h;
       effectRuns := effectRuns h |}).

Definition set_cleanup (c : option (nat * nat)) (runs : nat)
  : World -> World :=
  with_hooks (fun h =>
    {| user := user h; userDeps := userDeps h; provider := provider h;
       providerDeps := providerDeps h; effectDeps := effectDeps h;
       cleanup := c; inviteDeps := inviteDeps h;
       effectRuns := runs |}).

Definition set_inviteDeps (deps : option (jsstring * nat)) : World -> World :=
  with_hooks (fun h =>
    {| user := user h; userDeps := userDeps h; provider := provider h;
       providerDeps := providerDeps h; effectDeps := effectDeps h;
       cleanup := cleanup h; inviteDeps := deps;
       effectRuns := effectRuns h |}).

Definition opt_nat_eqb (a b : option nat) : bool :=
  match a, b with
  | None, None => true
  | Some x, Some y => Nat.eqb x y
  | _, _ => false
  end.

(** The [user] memo, dependencies [[session]]. *)
Definition compute_user (i : Inputs) (w : World) : UserDesc :=
  let fallbackId := (math_random_900 i mod 900 + 100)%N in
  let email := match session (react w) with
               | Some s => session_user_email s
               | None => []
               end in
  let label := or_else email (js "User " ++ toString 10 fallbackId) in
  {| name := label; color := pickColor label |}.

Definition render_user (i : Inputs) (w : World) : World :=
  let deps := Some (sessionStamp (react w)) in
  if opt_nat_eqb (userDeps (hooks w)) deps then w
  else set_user (compute_user i w) deps w.

(** The [provider] memo.  Its dependencies are [doc], [roomId], [wsUrl]
    and [token]; [wsUrl] is a constant and [doc] is a memo of [roomId],
    so the value is computed again when [roomId] or [token] changed. *)
Definition new_WebsocketProvider (room tok : jsstring) (cid : N)
  : WebsocketProvider :=
  {| roomname := room; params_token := tok; clientID := cid;
     status_observers := []; change_observers := [];
     states := [(cid, {| aw_user := None |})]; destroyed := false |}.

Definition provider_deps_eqb (a : option (jsstring * jsstring))
    (b : jsstring * jsstring) : bool :=
  match a with
  | Some (r, t) => JS.eqb r (fst b) && JS.eqb t (snd b)
  | None => false
  end.

Definition render_provider (i : Inputs) (w : World) : World :=
  let deps := (roomId (react w), token w) in
  if provider_deps_eqb (providerDeps (hooks w)) deps then w
  else if negb (truthy (token w)) || negb (truthy (roomId (react w)))
  then set_provider None (Some deps) w
  else
    set_provider (Some (length (providers w))) (Some deps)
      (with_providers
         (fun ps => ps ++ [new_WebsocketProvider (roomId (react w)) (token w)
                             (new_clientID i)]) w).

(** *** Providers as event emitters *)

Fixpoint update_nth (n : nat) (f : WebsocketProvider -> WebsocketProvider)
    (ps : list WebsocketProvider) : list WebsocketProvider :=
  match ps, n with
  | [], _ => []
  | p :: rest, O => f p :: rest
  | p :: rest, S n' => p :: update_nth n' f rest
  end.

Definition remove_nat (n : nat) (l : list nat) : list nat :=
  filter (fun m => negb (Nat.eqb m n)) l.

Definition add_nat (n : nat) (l : list nat) : list nat :=
  if existsb (Nat.eqb n) l then l else l ++ [n].

Definition map_status_observers (f : list nat -> list nat)
    (p : WebsocketProvider) : WebsocketProvider :=
  {| roomname := roomname p; params_token := params_token p;
     clientID := clientID p; status_observers := f (status_observers p);
     change_observers := change_observers p; states := states p;
     destroyed := destroyed p |}.

Definition map_change_observers (f : list nat -> list nat)
    (p : WebsocketProvider) : WebsocketProvider :=
  {| roomname := roomname p; params_token := params_token p;
     clientID := clientID p; status_observers := status_observers p;
     change_observers := f (change_observers p); states := states p;
     destroyed := destroyed p |}.

Definition map_states (f : list (N * AwarenessState) -> list (N * AwarenessState))
    (p : WebsocketProvider) : WebsocketProvider :=
  {| roomname := roomname p; params_token := params_token p;
     clientID := clientID p; status_observers := status_observers p;
     change_observers := change_observers p; states := f (states p);
     destroyed := destroyed p |}.

(** [provider.on('status', f)] and [provider.off('status', f)]. *)
Definition on_status (n pid : nat) : World -> World :=
  with_providers (update_nth pid (map_status_observers (add_nat n))).

Definition off_status (n pid : nat) : World -> World :=
  with_providers (update_nth pid (map_status_observers (remove_nat n))).

(** [provider.awareness.on('change', f)] and [.off('change', f)]. *)
Definition on_change (n pid : nat) : World -> World :=
  with_providers (update_nth pid (map_change_observers (add_nat n))).

Definition off_change (n pid : nat) : World -> World :=
  with_providers (update_nth pid (map_change_observers (remove_nat n))).

(** [provider.destroy()]: the connection is closed and the observers of
    the provider are dropped.  The awareness object is not destroyed with
    the provider: its listeners and its states stay, and what the closing
    connection later does to the states arrives as an [AwarenessChange]
    event.

    The awareness object goes with the document.  [doc] is a memo of
    [[roomId]], and the effect on [[doc]] returns [() => doc.destroy()]:
    when the room changes, that cleanup runs after the cleanup of the
    session effect, which is declared before it and has by then detached
    the listeners of the old provider and destroyed it.  Destroying the
    document removes the local state from the awareness objects built on
    it and drops their listeners, of which none is left.  The store
    below does not record this: the [states] of a destroyed provider
    stay as they were, until an [AwarenessChange] of that provider
    replaces them.  The page reads the states of a provider only in a
    listener registered on it. *)
Definition destroy (pid : nat) : World -> World :=
  with_providers (update_nth pid (fun p =>
    {| roomname := roomname p; params_token := params_token p;
       clientID := clientID p; status_observers := [];
       change_observers := change_observers p; states := states p;
       destroyed := true |})).

(** [(event) => setStatus(event.status)] *)
Definition handleStatus (event_status : jsstring) : World -> World :=
  setStatus event_status.

(** [states.map((state) => state.user).filter(Boolean)] *)
Definition users_of_states (sts : list (N * AwarenessState)) : list UserDesc :=
  flat_map (fun st => match aw_user (snd st) with
                      | Some u => [u]
                      | None => []
                      end) sts.

(** The closure [handleAwareness] of a run on provider [pid]. *)
Definition handleAwareness (pid : nat) (w : World) : World :=
  match nth_error (providers w) pid with
  | Some p => setUsers (users_of_states (states p)) w
  | None => w
  end.

(** The provider emits ['status']: every observer is called. *)
Definition emit_status (pid : nat) (event_status : jsstring) (w : World)
  : World :=
  match nth_error (providers w) pid with
  | Some p =>
      fold_left (fun w' _ => handleStatus event_status w')
        (status_observers p) w
  | None => w
  end.

(** The awareness instance emits ['change']. *)
Definition emit_change (pid : nat) (w : World) : World :=
  match nth_error (providers w) pid with
  | Some p =>
      fold_left (fun w' _ => handleAwareness pid w') (change_observers p) w
  | None => w
  end.

(** [provider.awareness.setLocalStateField('user', user)]: the state of
    the local client, when it has one, gets the field, and ['change'] is
    emitted. *)
Definition setLocalStateField_user (pid : nat) (u : UserDesc) (w : World)
  : World :=
  emit_change pid
    (with_providers
       (update_nth pid (fun p =>
          map_states
            (map (fun st => if (fst st =? clientID p)%N
                            then (fst st, {| aw_user := Some u |})
                            else st)) p)) w).

(** *** The session effect, dependencies [[provider, user]] *)

Definition run_cleanup (w : World) : World :=
  match cleanup (hooks w) with
  | None => w
  | Some (pid, n) =>
      set_cleanup None (effectRuns (hooks w))
        (destroy pid (off_status n pid (off_change n pid w)))
  end.

Definition session_effect (w : World) : World :=
  match provider (hooks w) with
  | None =>
      set_cleanup None (effectRuns (hooks w))
        (setUsers [] (setStatus (js "disconnected") w))
  | Some pid =>
      let n := effectRuns (hooks w) in
      let w1 := setStatus (js "connecting") w in
      let w2 := on_status n pid w1 in
      let w3 := setLocalStateField_user pid (user (hooks w)) w2 in
      let w4 := on_change n pid w3 in
      let w5 := handleAwareness pid w4 in
      set_cleanup (Some (pid, n)) (S n) w5
  end.

Definition effect_deps_eqb (a : option (option nat * option nat))
    (b : option nat * option nat) : bool :=
  match a with
  | Some (p, u) => opt_nat_eqb p (fst b) && opt_nat_eqb u (snd b)
  | None => false
  end.

Definition run_session_effect (w : World) : World :=
  let deps := (provider (hooks w), userDeps (hooks w)) in
  if effect_deps_eqb (effectDeps (hooks w)) deps then w
  else set_effectDeps (Some deps) (session_effect (run_cleanup w)).

(** *** The invite effect, dependencies [[inviteKey, session]] *)

Definition invite_deps_eqb (a : option (jsstring * nat)) (b : jsstring * nat)
  : bool :=
  match a with
  | Some (k, s) => JS.eqb k (fst b) && Nat.eqb s (snd b)
  | None => false
  end.

Definition invite_effect (i : Inputs) (w : World) : World :=
  if negb (truthy (inviteKey (react w)))
  then w
  else match session (react w) with
       | None => w
       | Some _ => joinRoomByKey (inviteKey (react w)) i 2 w
       end.

Definition run_invite_effect (i : Inputs) (w : World) : World :=
  let deps := (inviteKey (react w), sessionStamp (react w)) in
  if invite_deps_eqb (inviteDeps (hooks w)) deps then w
  else invite_effect i (set_inviteDeps (Some deps) w).

(** One render with the effects it schedules. *)
Definition commit (i : Inputs) (w : World) : World :=
  run_invite_effect i
    (run_session_effect (render_provider i (render_user i w))).

(** The state updates of the invite effect ask for one more render. *)
Definition settle (i : Inputs) (w : World) : World :=
  commit i (commit i w).

(** *** Events

    What happens to the mounted page: the auth listener fires, the user
    types into a field, submits a form or clicks a button, a provider
    reports a status or a change of awareness.  The page stays mounted:
    the unsubscription of the auth listener, which runs only at unmount,
    is outside these events. *)

Inductive Event :=
| AuthStateChange (s : option AuthSession)
| ChangeEmail (v : jsstring)
| ChangePassword (v : jsstring)
| SubmitSignIn
| ClickCreateAccount
| ChangeRoomKeyInput (v : jsstring)
| ChangeInviteInput (v : jsstring)
| ClickCreateRoom
| SubmitJoinByKey
| SubmitJoinByInvite
| ClickSignOut
| TransportStatus (pid : nat) (event_status : jsstring)
| AwarenessChange (pid : nat) (sts : list (N * AwarenessState)).

(** The listeners of [supabase.auth] exist when the client is configured. *)
Definition handle (i : Inputs) (e : Event) (w : World) : World :=
  match e with
  | AuthStateChange s => if supabase w then setSession s w else w
  | ChangeEmail v => setEmail v w
  | ChangePassword v => setPassword v w
  | SubmitSignIn => handleSignIn i w
  | ClickCreateAccount => handleSignUp i w
  | ChangeRoomKeyInput v => setRoomKeyInput v w
  | ChangeInviteInput v => setInviteInput v w
  | ClickCreateRoom => handleCreateRoom i w
  | SubmitJoinByKey => handleJoinByKey i w
  | SubmitJoinByInvite => handleJoinByInvite i w
  | ClickSignOut => handleSignOut i w
  | TransportStatus pid s => emit_status pid s w
  | AwarenessChange pid sts =>
      emit_change pid
        (with_providers (update_nth pid (map_states (fun _ => sts))) w)
  end.

Definition step (w : World) (ie : Inputs * Event) : World :=
  settle (fst ie) (handle (fst ie) (snd ie) w).

(** The page right after it is loaded at the address [h]. *)
Definition initial (h : History) (configured : bool) (d : Database) : World :=
  {| react :=
       {| status := js "connecting"; users := []; session := None;
          sessionStamp := 0; email := []; password := []; authError := [];
          authLoading := false; roomId := getRoomFromUrl h;
          roomKeyInput := []; inviteInput := []; roomError := [];
          roomLoading := false; inviteKey := getInviteFromUrl h |};
     hooks :=
       {| user := {| name := []; color := None |}; userDeps := None;
          provider := None; providerDeps := None; effectDeps := None;
          cleanup := None; inviteDeps := None; effectRuns := 0 |};
     history := h;
     providers := [];
     supabase := configured;
     db := d;
     requests := [] |}.

Definition mount (i : Inputs) (h : History) (configured : bool)
    (d : Database) : World :=
  settle i (initial h configured d).

Definition run (w : World) (trace : list (Inputs * Event)) : World :=
  fold_left step trace w.

(** What the page shows of a session: the status and the participants. *)
Definition observable (w : World) : jsstring * list UserDesc :=
  (status (react w), users (react w)).

End Handlers.

(** Between [w] and [w'] either the selected room and the address are
    both as they were, or the address has been rewritten for the room
    selected in [w']. *)
Definition room_change_rewrites (w w' : World) : Prop :=
  (roomId (react w') = roomId (react w) /\ history w' = history w)
  \/ history w' = updateRoomInUrl (roomId (react w')) (history w).

End App.

(** ** Operations of several principals on one database *)

Module Directory.

Import Db Url App.

Definition blank_page : History :=
  {| back := [];
     current := {| origin_and_path := js "http://localhost:5173/";
                   searchParams := []; fragment := [] |};
     forward := [] |}.

(** A configured client at the address [h] in which [s] is signed in,
    talking to the database [d]. *)
Definition signed_in_at (h : History) (s : AuthSession) (d : Database) : World :=
  setSession (Some s) (initial h true d).

Definition signed_in : AuthSession -> Database -> World :=
  signed_in_at blank_page.

(** The operations of the room directory: [createRoom] is
    [handleCreateRoom], [joinByKey] is [joinRoomByKey] and [joinByInvite]
    is [handleJoinByInvite].  An operation is a handler run to its end
    with every request answered by the database; the errors it can see
    are those of the database.  Sequences of statements in which a
    request got no answer are [MorePredicates.execute_all]. *)
Inductive Operation :=
| CreateRoom (s : AuthSession) (i : Inputs)
| JoinByKey (s : AuthSession) (keyValue : jsstring) (i : Inputs)
| JoinByInvite (s : AuthSession) (text : jsstring) (i : Inputs).

Section Perform.

Variable ucd_upper : N -> list N.
Variable parse_url : jsstring -> option URL.

Definition perform (d : Database) (op : Operation) : Database :=
  match op with
  | CreateRoom s i => db (handleCreateRoom ucd_upper i (signed_in s d))
  | JoinByKey s keyValue i =>
      db (joinRoomByKey ucd_upper keyValue i 0 (signed_in s d))
  | JoinByInvite s text i =>
      db (handleJoinByInvite ucd_upper parse_url i
            (setInviteInput text (signed_in s d)))
  end.

Definition perform_all (d : Database) (ops : list Operation) : Database :=
  fold_left perform ops d.


End Perform.

(** The key of [joinByInvite] as the specification words it: the text is
    parsed as a URL and the [invite] value is taken; when parsing fails or
    the parameter is absent, the text itself is the key. *)
Definition spec_invite_key (parse_url : jsstring -> option URL)
    (text : jsstring) : jsstring :=
  match parse_url text with
  | Some url =>
      match get (js "invite") (searchParams url) with
      | Some v => v
      | None => text
      end
  | None => text
  end.

(** A string of whitespace, as [trim] removes it. *)
Definition whitespace (ws : jsstring) : Prop :=
  Forall (fun c => is_white_space c = true) ws.

(** [v] is [k] in some letter case: position by position the code unit
    of [k], or its lower-case letter when that is an upper-case letter. *)
Definition letter_case_variant (k v : jsstring) : Prop :=
  Forall2 (fun c x => x = c \/ ((65 <= c <= 90)%N /\ x = (c + 32)%N)) k v.

(** The alphabet of a room key: [0..9] and [A..Z]. *)
Definition upper_base36 (c : N) : Prop :=
  (48 <= c <= 57)%N \/ (65 <= c <= 90)%N.

End Directory.

(** ** The colour function as the specification words it *)

Module Reference.

(** A signed 32-bit integer that wraps on overflow. *)
Definition wrap32 (z : Z) : Z :=
  let m := (z mod 4294967296)%Z in
  if (m <? 2147483648)%Z then m else (m - 4294967296)%Z.

(** [hash = hash * 31 + charCode], wrapping on overflow. *)
Fixpoint rolling_hash (name : jsstring) (hash : Z) : Z :=
  match name with
  | [] => hash
  | c :: rest => rolling_hash rest (wrap32 (hash * 31 + Z.of_N c))
  end.

(** The absolute value of the hash modulo the palette of 5 colours. *)
Definition color (name : jsstring) : option jsstring :=
  nth_error userColors (Z.to_nat (Z.abs (rolling_hash name 0) mod 5)).

End Reference.

(** ** Concrete instances, for the examples *)

Module Examples.

Import Db Url App Directory.

(** An uppercase table that fixes every code point from 128 up. *)
Definition ascii_only_upper (cp : N) : list N := [cp].

Definition invite_link : jsstring :=
  js "https://editor.example/?invite=XYZ987".

Definition empty_invite_link : jsstring :=
  js "https://editor.example/?invite=".

(** A parser that knows the two links above and throws on anything else. *)
Definition parse_links (text : jsstring) : option URL :=
  if JS.eqb text invite_link
  then Some {| origin_and_path := js "https://editor.example/";
               searchParams := [(js "invite", js "XYZ987")];
               fragment := [] |}
  else if JS.eqb text empty_invite_link
  then Some {| origin_and_path := js "https://editor.example/";
               searchParams := [(js "invite", [])];
               fragment := [] |}
  else None.

Definition alice : AuthSession :=
  {| session_user_id := 1%N; session_user_email := js "alice@example.com";
     session_access_token := js "token-of-alice" |}.

Definition bob : AuthSession :=
  {| session_user_id := 2%N; session_user_email := js "bob@example.com";
     session_access_token := js "token-of-bob" |}.

(** Random bytes 8, 20, 2, 10, 1, 15: the key [8K2A1F]. *)
Definition dice : Entropy :=
  {| crypto_available := true;
     getRandomValues := fun n => nth n [8; 20; 2; 10; 1; 15]%N 0%N;
     math_random_256 := fun _ => 0%N |}.

Definition inputs (room : Uuid) : Inputs :=
  {| entropy := dice; math_random_900 := 23%N; new_clientID := 7%N;
     server := fun n => {| gen_random_uuid := room; now := N.of_nat n |};
     auth_error := None |}.

(** The page loaded at [/?invite=XYZ987&theme=dark#top]. *)
Definition invited_page : History :=
  {| back := [];
     current := {| origin_and_path := js "http://localhost:5173/";
                   searchParams := [(js "invite", js "XYZ987");
                                    (js "theme", js "dark")];
                   fragment := js "top" |};
     forward := [] |}.

(** The page loaded at [/?room=r1], a room selected earlier. *)
Definition room_page : History :=
  {| back := [];
     current := {| origin_and_path := js "http://localhost:5173/";
                   searchParams := [(js "room", js "r1")];
                   fragment := [] |};
     forward := [] |}.

(** Bob signs in on that page: a session for room [r1] is live. *)
Definition live_trace : list (Inputs * Event) :=
  [(inputs 0%N, AuthStateChange (Some bob))].

(** Then Bob signs out. *)
Definition signed_out_trace : list (Inputs * Event) :=
  [(inputs 0%N, AuthStateChange (Some bob)); (inputs 0%N, ClickSignOut)].

(** The page loaded at [/?invite=8k2a1f&theme=dark#top]. *)
Definition valid_invite_page : History :=
  {| back := [];
     current := {| origin_and_path := js "http://localhost:5173/";
                   searchParams := [(js "invite", js "8k2a1f");
                                    (js "theme", js "dark")];
                   fragment := js "top" |};
     forward := [] |}.

(** The database after Alice created a room with the dice above. *)
Definition alice_room_db : Database :=
  db (handleCreateRoom ascii_only_upper (inputs 77%N) (signed_in alice Db.empty)).

End Examples.

(** ** Predicates used in the statements and proofs *)

Module Predicates.

Import Db Url App.

Definition no_leading_space (l : jsstring) : Prop :=
  match l with [] => True | c :: _ => is_white_space c = false end.

Definition is_ascii (s : jsstring) : Prop := Forall (fun c => (c < 128)%N) s.

Section Cases.

Variable ucd_upper : N -> list N.

(** What [joinRoomByKey] does, case by case. *)
Inductive joinRoomByKey_cases (keyValue : jsstring) (i : Inputs) (n : nat)
    (w w' : World) : Prop :=
| join_not_signed_in :
    (supabase w = false \/ session (react w) = None) ->
    w' = w -> joinRoomByKey_cases keyValue i n w w'
| join_blank (s : AuthSession) :
    supabase w = true -> session (react w) = Some s ->
    normalizeKey ucd_upper keyValue = [] ->
    w' = setRoomError (js "Enter a room key") w ->
    joinRoomByKey_cases keyValue i n w w'
| join_failed (s : AuthSession) (e : Error) :
    supabase w = true -> session (react w) = Some s ->
    normalizeKey ucd_upper keyValue <> [] ->
    join_room_by_key (normalizeKey ucd_upper keyValue) (session_user_id s)
      (server i n) (db w) = inl e ->
    w' = setRoomLoading false
           (setRoomError (message e)
              (send (RpcJoinRoomByKey (normalizeKey ucd_upper keyValue))
                 (setRoomLoading true (setRoomError [] w)))) ->
    joinRoomByKey_cases keyValue i n w w'
| join_succeeded (s : AuthSession) (r : Uuid) (d1 : Database) :
    supabase w = true -> session (react w) = Some s ->
    normalizeKey ucd_upper keyValue <> [] ->
    join_room_by_key (normalizeKey ucd_upper keyValue) (session_user_id s)
      (server i n) (db w) = inr (r, d1) ->
    w' = setRoomLoading false
           (with_history (updateRoomInUrl (uuid_text r))
              (setInviteKey []
                 (setInviteInput []
                    (setRoomKeyInput []
                       (setRoomId (uuid_text r)
                          (with_db d1
                             (send (RpcJoinRoomByKey
                                      (normalizeKey ucd_upper keyValue))
                                (setRoomLoading true
                                   (setRoomError [] w))))))))) ->
    joinRoomByKey_cases keyValue i n w w'.

(** What [handleCreateRoom] does, case by case. *)
Inductive handleCreateRoom_cases (i : Inputs) (w w' : World) : Prop :=
| create_not_signed_in :
    (supabase w = false \/ session (react w) = None) ->
    w' = w -> handleCreateRoom_cases i w w'
| create_insert_failed (s : AuthSession) (e : Error) :
    supabase w = true -> session (react w) = Some s ->
    insert_room (session_user_id s) (generateRoomKey ucd_upper (entropy i))
      (session_user_id s) (server i 0) (db w) = inl e ->
    db w' = db w -> roomError (react w') = message e ->
    roomId (react w') = roomId (react w) -> history w' = history w ->
    handleCreateRoom_cases i w w'
| create_upsert_failed (s : AuthSession) (x : Room) (d1 : Database) (e : Error) :
    supabase w = true -> session (react w) = Some s ->
    insert_room (session_user_id s) (generateRoomKey ucd_upper (entropy i))
      (session_user_id s) (server i 0) (db w) = inr (x, d1) ->
    upsert_room_member (session_user_id s) (id x) (session_user_id s)
      (server i 1) d1 = inl e ->
    db w' = d1 -> roomError (react w') = message e ->
    roomId (react w') = roomId (react w) -> history w' = history w ->
    handleCreateRoom_cases i w w'
| create_succeeded (s : AuthSession) (x : Room) (d1 d2 : Database) :
    supabase w = true -> session (react w) = Some s ->
    insert_room (session_user_id s) (generateRoomKey ucd_upper (entropy i))
      (session_user_id s) (server i 0) (db w) = inr (x, d1) ->
    upsert_room_member (session_user_id s) (id x) (session_user_id s)
      (server i 1) d1 = inr d2 ->
    db w' = d2 -> roomError (react w') = [] ->
    roomId (react w') = uuid_text (id x) ->
    inviteKey (react w') = [] ->
    history w' = updateRoomInUrl (uuid_text (id x)) (history w) ->
    handleCreateRoom_cases i w w'.

End Cases.

(** The query after [updateRoomInUrl]. *)
Definition rewritten_query (roomId : jsstring)
    (ps : list (jsstring * jsstring)) : list (jsstring * jsstring) :=
  delete (js "invite")
    (delete (js "doc")
       (if truthy roomId then set (js "room") roomId ps
        else delete (js "room") ps)).

(** What the page shows is decided by the providers, the hook cells, and
    the two state cells [status] and [users]. *)
Definition same_store (w w' : World) : Prop :=
  providers w' = providers w /\ hooks w' = hooks w.

Definition same_view (w w' : World) : Prop :=
  status (react w') = status (react w) /\ users (react w') = users (react w).

Definition detached (p : WebsocketProvider) : Prop :=
  status_observers p = [] /\ change_observers p = [].

Definition all_detached (w : World) : Prop :=
  forall pid p, nth_error (providers w) pid = Some p -> detached p.

(** Every listener registered on a provider is one of the listeners
    that the pending cleanup will detach. *)
Definition observers_owned (w : World) : Prop :=
  forall pid p, nth_error (providers w) pid = Some p ->
    forall n, In n (status_observers p) \/ In n (change_observers p) ->
              cleanup (hooks w) = Some (pid, n).

Definition idle (w : World) : Prop :=
  status (react w) = js "disconnected" /\ users (react w) = []
  /\ cleanup (hooks w) = None.

(** When the session effect ran last without a provider, the controller
    is still idle. *)
Definition idle_without_provider (w : World) : Prop :=
  forall u, effectDeps (hooks w) = Some (None, u) -> idle w.

Definition provider_memo_ok (w : World) : Prop :=
  (forall r t, providerDeps (hooks w) = Some (r, t) ->
               truthy t = false \/ truthy r = false ->
               provider (hooks w) = None)
  /\ (forall pid, provider (hooks w) = Some pid ->
                  (pid < length (providers w))%nat)
  /\ (forall pid n, cleanup (hooks w) = Some (pid, n) ->
                    (pid < length (providers w))%nat).

Definition Inv (w : World) : Prop :=
  observers_owned w /\ idle_without_provider w /\ provider_memo_ok w.

Definition same_session (w w' : World) : Prop :=
  same_store w w' /\ same_view w w'
  /\ session (react w') = session (react w)
  /\ sessionStamp (react w') = sessionStamp (react w)
  /\ supabase w' = supabase w.

Definition same_cells (w w' : World) : Prop :=
  providers w' = providers w
  /\ provider (hooks w') = provider (hooks w)
  /\ providerDeps (hooks w') = providerDeps (hooks w)
  /\ effectDeps (hooks w') = effectDeps (hooks w)
  /\ cleanup (hooks w') = cleanup (hooks w).

(** What the session effect and the render leave as they find it. *)
Definition same_inputs (w w' : World) : Prop :=
  session (react w') = session (react w)
  /\ sessionStamp (react w') = sessionStamp (react w)
  /\ roomId (react w') = roomId (react w)
  /\ inviteKey (react w') = inviteKey (react w)
  /\ inviteDeps (hooks w') = inviteDeps (hooks w)
  /\ supabase w' = supabase w /\ db w' = db w
  /\ history w' = history w /\ requests w' = requests w.

Definition quiet (w : World) : Prop :=
  inviteDeps (hooks w) = Some (inviteKey (react w), sessionStamp (react w))
  \/ inviteKey (react w) = [].

Definition synced (w : World) : Prop :=
  providerDeps (hooks w) = Some (roomId (react w), token w)
  /\ effectDeps (hooks w) = Some (provider (hooks w), userDeps (hooks w)).

(** Every memo and effect has seen the current values of its
    dependencies: one more render changes nothing. *)
Definition stable (w : World) : Prop :=
  synced w
  /\ inviteDeps (hooks w) = Some (inviteKey (react w), sessionStamp (react w))
  /\ userDeps (hooks w) = Some (sessionStamp (react w)).

(** The provider a transport event comes from. *)
Definition source (e : Event) : option nat :=
  match e with
  | TransportStatus pid _ => Some pid
  | AwarenessChange pid _ => Some pid
  | _ => None
  end.

End Predicates.

Import Predicates.

(** ** Further notions, for the properties beyond the ones above *)

Module MorePredicates.

Import Db Url App Directory.

Definition no_trailing_space (l : jsstring) : Prop :=
  no_leading_space (rev l).

(** The byte below 36 whose upper-case base-36 digit is [c]. *)
Definition byte_of_key_char (c : N) : N :=
  if (c <=? 57)%N then (c - 48)%N else (c - 55)%N.

(** A random source that draws the bytes of the list, in order. *)
Definition entropy_of_bytes (bytes : list N) : Entropy :=
  {| crypto_available := true;
     getRandomValues := fun n => nth n bytes 0%N;
     math_random_256 := fun _ => 0%N |}.

(** The values a [Uint8Array] cell can hold. *)
Definition all_bytes : list N := map N.of_nat (seq 0 256).

(** The bytes that [generateRoomKey] turns into the digit of value [d]. *)
Definition bytes_of_digit (d : N) : list N :=
  filter (fun b => (b mod 36 =? d)%N) all_bytes.

(** Three decimal digits, the first of them not [0]. *)
Definition three_digits (l : jsstring) : bool :=
  match l with
  | [a; b; c] =>
      ((49 <=? a) && (a <=? 57) && (48 <=? b) && (b <=? 57)
       && (48 <=? c) && (c <=? 57))%N
  | _ => false
  end.

(** The principal who performs an operation. *)
Definition actor (op : Operation) : Uuid :=
  match op with
  | CreateRoom s _ => session_user_id s
  | JoinByKey s _ _ => session_user_id s
  | JoinByInvite s _ _ => session_user_id s
  end.

(** The row of [rooms] that [handleCreateRoom] inserts for [s]. *)
Definition created_room (ucd_upper : N -> list N) (i : Inputs)
    (s : AuthSession) : Room :=
  {| id := gen_random_uuid (server i 0);
     key := generateRoomKey ucd_upper (entropy i);
     owner_id := session_user_id s;
     room_created_at := now (server i 0) |}.

(** The row of [room_members] that makes [u] a member of [r]. *)
Definition membership (r u : Uuid) (env : ServerEnv) : RoomMember :=
  {| room_id := r; user_id := u; role := js "editor";
     member_created_at := now env |}.

(** A statement as it reaches the database: the principal whose token
    the request carries ([auth.uid()]), the values sent, and the state of
    the server at that moment.  The page sends the first two from
    [handleCreateRoom] and the third from [joinRoomByKey]; a request that
    gets no answer, or a page that is closed between two requests, leaves
    the database with a shorter sequence of the same statements. *)
Inductive Statement :=
| InsertIntoRooms (auth_uid : Uuid) (k : jsstring) (owner : Uuid)
    (env : ServerEnv)
| UpsertIntoRoomMembers (auth_uid r u : Uuid) (env : ServerEnv)
| CallJoinRoomByKey (p_key : jsstring) (auth_uid : Uuid) (env : ServerEnv).

(** The database after a statement: as it was when the statement is
    refused. *)
Definition execute (d : Database) (st : Statement) : Database :=
  match st with
  | InsertIntoRooms a k o env =>
      match insert_room a k o env d with
      | inr (_, d') => d'
      | inl _ => d
      end
  | UpsertIntoRoomMembers a r u env =>
      match upsert_room_member a r u env d with
      | inr d' => d'
      | inl _ => d
      end
  | CallJoinRoomByKey k a env =>
      match join_room_by_key k a env d with
      | inr (_, d') => d'
      | inl _ => d
      end
  end.

Definition execute_all (d : Database) (sts : list Statement) : Database :=
  fold_left execute sts d.

(** Everything but the hook cells, the providers and the two cells
    [status] and [users] is the same in [w] and [w']. *)
Definition same_form (w w' : World) : Prop :=
  session (react w') = session (react w)
  /\ sessionStamp (react w') = sessionStamp (react w)
  /\ roomId (react w') = roomId (react w)
  /\ roomKeyInput (react w') = roomKeyInput (react w)
  /\ inviteInput (react w') = inviteInput (react w)
  /\ roomError (react w') = roomError (react w)
  /\ roomLoading (react w') = roomLoading (react w)
  /\ inviteKey (react w') = inviteKey (react w)
  /\ supabase w' = supabase w /\ db w' = db w
  /\ history w' = history w /\ requests w' = requests w.

(** A provider after the cleanup of the session effect of run [n]. *)
Definition torn_down (n : nat) (p : WebsocketProvider) : WebsocketProvider :=
  {| roomname := roomname p; params_token := params_token p;
     clientID := clientID p; status_observers := [];
     change_observers := remove_nat n (change_observers p);
     states := states p; destroyed := true |}.

(** A provider after the body of the session effect of run [n], which
    publishes the descriptor [u]. *)
Definition subscribed (n : nat) (u : UserDesc) (p : WebsocketProvider)
  : WebsocketProvider :=
  {| roomname := roomname p; params_token := params_token p;
     clientID := clientID p;
     status_observers := add_nat n (status_observers p);
     change_observers := add_nat n (change_observers p);
     states := map (fun st => if (fst st =? clientID p)%N
                              then (fst st, {| aw_user := Some u |})
                              else st) (states p);
     destroyed := destroyed p |}.

(** The pending cleanup and the last run of the session effect speak of
    the same provider. *)
Definition cleanup_of_effect (w : World) : Prop :=
  (forall pid n, cleanup (hooks w) = Some (pid, n) ->
                 exists u, effectDeps (hooks w) = Some (Some pid, u))
  /\ (forall pid u, effectDeps (hooks w) = Some (Some pid, u) ->
                    exists n, cleanup (hooks w) = Some (pid, n))
  /\ (forall pid u, effectDeps (hooks w) = Some (Some pid, u) ->
                    (pid < length (providers w))%nat).

(** The listeners of the live session are registered, and no others. *)
Definition live_registered (w : World) : Prop :=
  forall pid n, cleanup (hooks w) = Some (pid, n) ->
    exists p, nth_error (providers w) pid = Some p
              /\ status_observers p = [n] /\ change_observers p = [n].

(** A provider that is not destroyed is the one the pending cleanup will
    destroy. *)
Definition undestroyed_is_live (w : World) : Prop :=
  forall pid p, nth_error (providers w) pid = Some p -> destroyed p = false ->
    exists n, cleanup (hooks w) = Some (pid, n).

(** The same between the render and the effects: a provider that is not
    destroyed may also be the one just constructed, for which the effect
    has not run yet. *)
Definition undestroyed_is_live_or_new (w : World) : Prop :=
  forall pid p, nth_error (providers w) pid = Some p -> destroyed p = false ->
    (exists n, cleanup (hooks w) = Some (pid, n))
    \/ (provider (hooks w) = Some pid
        /\ forall u, effectDeps (hooks w) <> Some (Some pid, u)).

(** The provider of the memo was constructed for the room id and the
    token of its dependencies, both of them non-empty. *)
Definition provider_of_deps (w : World) : Prop :=
  forall pid, provider (hooks w) = Some pid ->
    exists p r t,
      nth_error (providers w) pid = Some p
      /\ providerDeps (hooks w) = Some (r, t)
      /\ roomname p = r /\ params_token p = t
      /\ truthy r = true /\ truthy t = true.

(** A memo computed for a room id and a token that are both non-empty
    holds a provider. *)
Definition provider_for_deps (w : World) : Prop :=
  forall r t, providerDeps (hooks w) = Some (r, t) ->
              truthy r = true -> truthy t = true ->
              provider (hooks w) <> None.

(** Two providers that differ in the awareness states at most. *)
Definition akin (p p' : WebsocketProvider) : Prop :=
  roomname p' = roomname p /\ params_token p' = params_token p
  /\ status_observers p' = status_observers p
  /\ change_observers p' = change_observers p
  /\ destroyed p' = destroyed p.

Definition live_store (w : World) : Prop :=
  cleanup_of_effect w /\ live_registered w /\ undestroyed_is_live w
  /\ provider_of_deps w /\ provider_for_deps w.

(** The store between the render and its effects. *)
Definition live_store_mid (w : World) : Prop :=
  cleanup_of_effect w /\ live_registered w /\ undestroyed_is_live_or_new w
  /\ provider_of_deps w /\ provider_for_deps w.

Definition Inv2 (w : World) : Prop := Inv w /\ live_store w.

(** No connection was ever constructed and none is asked for. *)
Definition unconnected (w : World) : Prop :=
  session (react w) = None /\ providers w = []
  /\ provider (hooks w) = None.


(** The state of the page loaded at [h] after the events of [trace]. *)
Definition page_after (ucd_upper : N -> list N)
    (parse_url : jsstring -> option URL) (i0 : Inputs) (h : History)
    (configured : bool) (d : Database) (trace : list (Inputs * Event))
  : World :=
  run ucd_upper parse_url (mount ucd_upper i0 h configured d) trace.

(** The state and the address name the same room and the same invite. *)
Definition address_agrees (w : World) : Prop :=
  roomId (react w) = getRoomFromUrl (history w)
  /\ inviteKey (react w) = getInviteFromUrl (history w).

(** The provider [pid] is the one whose listeners the pending cleanup
    will detach. *)
Definition is_live (pid : nat) (w : World) : bool :=
  match cleanup (hooks w) with
  | Some (q, _) => Nat.eqb q pid
  | None => false
  end.


(** Two states that differ in the recorded dependencies of the invite
    effect at most. *)
Definition same_store_but_invite (w w' : World) : Prop :=
  providers w' = providers w /\ react w' = react w
  /\ cleanup (hooks w') = cleanup (hooks w)
  /\ provider (hooks w') = provider (hooks w).


(** The session on provider [pid] has just been set up by a render with
    the inputs [i]: the pending cleanup is the one of that session, its
    two listeners are registered on the provider and no others, the
    provider is not destroyed, its only awareness state is the one of
    the local client and carries the descriptor of the user, and the
    page shows [connecting] and that user. *)
Definition announced (i : Inputs) (pid : nat) (w : World) : Prop :=
  exists p n,
    nth_error (providers w) pid = Some p
    /\ cleanup (hooks w) = Some (pid, n)
    /\ status_observers p = [n] /\ change_observers p = [n]
    /\ destroyed p = false
    /\ clientID p = new_clientID i
    /\ states p = [(new_clientID i, {| aw_user := Some (user (hooks w)) |})]
    /\ status (react w) = js "connecting"
    /\ users (react w) = [user (hooks w)].

(** A call of [supabase.auth], as against a request to the tables and
    the functions of the database. *)
Definition to_identity_service (r : Request) : bool :=
  match r with
  | AuthSignInWithPassword _ _ | AuthSignUp _ _ | AuthSignOut => true
  | InsertRoom _ _ | UpsertRoomMember _ _ | RpcJoinRoomByKey _ => false
  end.

End MorePredicates.

Import MorePredicates.

(** ** The first version of the page

    [src/App.jsx], before rooms and sign-in: the room is read from the
    [doc] parameter of the address. *)

Module Legacy.

Import JS Url.

Definition defaultRoom : jsstring := js "doc-1".

(** [params.get('doc') || defaultRoom] *)
Definition roomName (h : History) : jsstring :=
  match get (js "doc") (searchParams (current h)) with
  | Some v => or_else v defaultRoom
  | None => defaultRoom
  end.

End Legacy.

(** * Properties *)

(** ** Strings *)

Module JSFacts.

(** Comparisons of code units in the goal: those that the hypotheses
    decide are replaced by their value, the others are split. *)
Ltac decided_comparisons :=
  repeat match goal with
         | |- context [(?a =? ?b)%N] =>
             first [ replace (a =? b)%N with false
                       by (symmetry; apply N.eqb_neq; lia)
                   | replace (a =? b)%N with true
                       by (symmetry; apply N.eqb_eq; lia) ]
         | |- context [(?a <=? ?b)%N] =>
             first [ replace (a <=? b)%N with false
                       by (symmetry; apply N.leb_gt; lia)
                   | replace (a <=? b)%N with true
                       by (symmetry; apply N.leb_le; lia) ]
         | |- context [(?a <? ?b)%N] =>
             first [ replace (a <? b)%N with false
                       by (symmetry; apply N.ltb_ge; lia)
                   | replace (a <? b)%N with true
                       by (symmetry; apply N.ltb_lt; lia) ]
         end.

Ltac code_unit_cases :=
  decided_comparisons;
  repeat match goal with
         | |- context [(?a <=? ?b)%N] => destruct (N.leb_spec a b)
         | |- context [(?a <? ?b)%N] => destruct (N.ltb_spec a b)
         | |- context [(?a =? ?b)%N] => destruct (N.eqb_spec a b)
         end;
  cbn [andb orb negb]; try reflexivity; try lia.

Lemma eqb_eq (a b : jsstring) : JS.eqb a b = true <-> a = b.
Proof.
  revert b; induction a as [|x a IH]; intros [|y b]; simpl;
    try (split; [discriminate | congruence]); try tauto.
  rewrite andb_true_iff, N.eqb_eq, IH.
  split; [intros [-> ->]; reflexivity | intros H; inversion H; auto].
Qed.

Lemma eqb_refl (a : jsstring) : JS.eqb a a = true.
Proof. apply eqb_eq; reflexivity. Qed.

Lemma eqb_neq (a b : jsstring) : JS.eqb a b = false <-> a <> b.
Proof.
  rewrite <- eqb_eq. destruct (JS.eqb a b); split; congruence.
Qed.

Lemma truthy_app (a b : jsstring) : truthy (a ++ b) = truthy a || truthy b.
Proof. destruct a; reflexivity. Qed.

Lemma truthy_false (a : jsstring) : truthy a = false <-> a = [].
Proof. destruct a; simpl; split; congruence. Qed.

(** *** trim *)

Lemma trimStart_app (ws l : jsstring) :
  Forall (fun c => is_white_space c = true) ws -> no_leading_space l ->
  trimStart (ws ++ l) = l.
Proof.
  intros Hws Hl; induction Hws as [|c ws Hc _ IH]; simpl.
  - destruct l as [|c l]; simpl in *; [reflexivity | now rewrite Hl].
  - now rewrite Hc.
Qed.

Lemma no_leading_space_rev (v : jsstring) :
  Forall (fun c => is_white_space c = false) v -> no_leading_space (rev v).
Proof.
  intros H. apply Forall_rev in H.
  destruct H; simpl; auto.
Qed.

Lemma no_leading_space_app (v l : jsstring) :
  v <> [] -> Forall (fun c => is_white_space c = false) v ->
  no_leading_space (v ++ l).
Proof. intros Hne H; destruct H; [congruence | simpl; auto]. Qed.

Lemma trim_surrounded (ws1 v ws2 : jsstring) :
  Forall (fun c => is_white_space c = true) ws1 ->
  Forall (fun c => is_white_space c = true) ws2 ->
  Forall (fun c => is_white_space c = false) v ->
  trim (ws1 ++ v ++ ws2) = v.
Proof.
  intros H1 H2 Hv. unfold trim, trimEnd.
  destruct v as [|c v].
  - simpl.
    replace (ws1 ++ ws2) with ((ws1 ++ ws2) ++ []) by apply app_nil_r.
    rewrite trimStart_app; [reflexivity | | exact I].
    apply Forall_app; auto.
  - rewrite trimStart_app; auto.
    2:{ apply no_leading_space_app; [discriminate | assumption]. }
    rewrite rev_app_distr, trimStart_app.
    + apply rev_involutive.
    + now apply Forall_rev.
    + now apply no_leading_space_rev.
Qed.

(** *** toUpperCase on ASCII *)

Lemma StringToCodePoints_ascii (s : jsstring) :
  is_ascii s -> StringToCodePoints s = s.
Proof.
  induction 1 as [|c rest Hc Hrest IH]; [reflexivity|].
  cbn [StringToCodePoints]. destruct rest as [|d rest']; [reflexivity|].
  replace (is_lead_surrogate c) with false.
  - cbn [andb]. now rewrite IH.
  - unfold is_lead_surrogate. symmetry. apply andb_false_iff. left.
    apply N.leb_gt. lia.
Qed.

Lemma ascii_upper_ascii (c : N) : (c < 128)%N -> (ascii_upper c < 128)%N.
Proof.
  unfold ascii_upper. destruct ((97 <=? c)%N && (c <=? 122)%N); lia.
Qed.

Lemma toUpperCase_ascii (ucd_upper : N -> list N) (s : jsstring) :
  is_ascii s -> toUpperCase ucd_upper s = map ascii_upper s.
Proof.
  intros H. unfold toUpperCase. rewrite StringToCodePoints_ascii by assumption.
  induction H as [|c rest Hc _ IH]; [reflexivity|].
  cbn [flat_map map]. unfold toUppercase at 1.
  apply N.ltb_lt in Hc as Hc'. rewrite Hc'.
  unfold CodePointsToString in *. cbn [app flat_map].
  rewrite IH. unfold UTF16EncodeCodePoint.
  replace (ascii_upper c <? 65536)%N with true; [reflexivity|].
  symmetry. apply N.ltb_lt. pose proof (ascii_upper_ascii Hc). lia.
Qed.

(** *** toString *)

Lemma toString_digit (radix n : N) :
  (n < radix)%N -> toString radix n = [digit n].
Proof.
  intros H. unfold toString. cbn [toString_digits].
  rewrite N.mod_small, N.div_small by assumption. reflexivity.
Qed.

(** *** ToInt32 *)

Lemma ToInt32_range (z : Z) :
  (-2147483648 <= ToInt32 z < 2147483648)%Z.
Proof.
  unfold ToInt32.
  pose proof (Z.mod_pos_bound (z + 2147483648) 4294967296 eq_refl). lia.
Qed.

Lemma ToInt32_mod (z : Z) :
  (ToInt32 z mod 4294967296 = z mod 4294967296)%Z.
Proof.
  unfold ToInt32.
  rewrite Zminus_mod, Zmod_mod, <- Zminus_mod.
  f_equal. lia.
Qed.

Lemma ToInt32_congr (a b : Z) :
  (a mod 4294967296 = b mod 4294967296)%Z -> ToInt32 a = ToInt32 b.
Proof.
  intros H. unfold ToInt32.
  rewrite (Zplus_mod a), (Zplus_mod b), H. reflexivity.
Qed.

Lemma ToInt32_wrap32 (z : Z) : ToInt32 z = Reference.wrap32 z.
Proof.
  unfold ToInt32, Reference.wrap32.
  pose proof (Z.mod_pos_bound z 4294967296 eq_refl) as Hm.
  destruct (Z.ltb_spec (z mod 4294967296) 2147483648) as [Hlt|Hge].
  - rewrite Zplus_mod.
    change (2147483648 mod 4294967296)%Z with 2147483648%Z.
    rewrite Z.mod_small by lia. lia.
  - replace (z + 2147483648)%Z with ((z - 2147483648) + 1 * 4294967296)%Z by lia.
    rewrite Z.mod_add by lia.
    rewrite Zminus_mod.
    change (2147483648 mod 4294967296)%Z with 2147483648%Z.
    rewrite Z.mod_small by lia. lia.
Qed.

Lemma shl_5 (h : Z) : (shl h 5 mod 4294967296 = (h * 32) mod 4294967296)%Z.
Proof.
  unfold shl. change (Z.land 5 31) with 5%Z.
  rewrite ToInt32_mod, Z.shiftl_mul_pow2 by lia.
  change (2 ^ 5)%Z with 32%Z.
  rewrite Zmult_mod, ToInt32_mod, <- Zmult_mod. reflexivity.
Qed.

(** One turn of the loop of [pickColor]: [(hash << 5) - hash + c], then
    [| 0], is [hash * 31 + c] modulo [2^32]. *)
Lemma pickColor_step (h c : Z) :
  ToInt32 (shl h 5 - h + c) = ToInt32 (h * 31 + c).
Proof.
  apply ToInt32_congr.
  rewrite Zplus_mod, Zminus_mod, shl_5, <- Zminus_mod, <- Zplus_mod.
  f_equal. lia.
Qed.

End JSFacts.

(** ** The colour function *)

Module Color.

Import JSFacts.

Lemma pickColor_loop_rolling_hash (value : jsstring) (hash : Z) :
  pickColor_loop value hash = Reference.rolling_hash value hash.
Proof.
  revert hash; induction value as [|c rest IH]; intros hash; simpl.
  - reflexivity.
  - rewrite pickColor_step, ToInt32_wrap32. apply IH.
Qed.

Lemma pickColor_loop_int32 (value : jsstring) (hash : Z) :
  (-2147483648 <= hash < 2147483648)%Z ->
  (-2147483648 <= pickColor_loop value hash < 2147483648)%Z.
Proof.
  revert hash; induction value as [|c rest IH]; intros hash H; simpl.
  - assumption.
  - apply IH, ToInt32_range.
Qed.

Lemma palette_index_bound (h : Z) :
  (Z.to_nat (Z.abs h mod Z.of_nat (length userColors)) < length userColors)%nat.
Proof.
  change (length userColors) with 5%nat.
  pose proof (Z.mod_pos_bound (Z.abs h) (Z.of_nat 5) eq_refl). lia.
Qed.

(** C5: [pickColor] is the colour function of the specification.  One turn
    of its loop, [(hash << 5) - hash + charCode] followed by [| 0], is
    [hash * 31 + charCode] wrapped to 32 bits; the hash it computes is the
    rolling hash; the colour it returns is the palette entry at the
    absolute value of that hash modulo 5; and the result is a function of
    the name alone (two calls on equal names agree). *)
Theorem pickColor_refines_reference :
  (forall hash : Z,
      (ToInt32 (shl hash 5 - hash) mod 4294967296
       = (hash * 31) mod 4294967296)%Z)
  /\ (forall (hash : Z) (c : N),
         ToInt32 (shl hash 5 - hash + Z.of_N c)
         = Reference.wrap32 (hash * 31 + Z.of_N c))
  /\ (forall name : jsstring,
         pickColor_hash name = Reference.rolling_hash name 0
         /\ pickColor name = Reference.color name
         /\ pickColor name
            = nth_error userColors
                (Z.to_nat (Z.abs (Reference.rolling_hash name 0) mod 5)))
  /\ length userColors = 5%nat
  /\ (forall name1 name2 : jsstring,
         JS.eqb name1 name2 = true -> pickColor name1 = pickColor name2).
Proof.
  split; [|split; [|split; [|split]]].
  - intros hash. rewrite ToInt32_mod, Zminus_mod, shl_5, <- Zminus_mod.
    f_equal. lia.
  - intros hash c. rewrite pickColor_step. apply ToInt32_wrap32.
  - intros name.
    assert (H : pickColor_hash name = Reference.rolling_hash name 0)
      by apply pickColor_loop_rolling_hash.
    unfold pickColor, Reference.color. rewrite H. auto.
  - reflexivity.
  - intros name1 name2 H. apply eqb_eq in H. now subst.
Qed.

Lemma pickColor_refines_reference_witness :
  pickColor (js "alice@example.com") = pickColor (js "alice@example.com").
Proof.
  apply (proj2 (proj2 (proj2 (proj2 pickColor_refines_reference)))).
  reflexivity.
Defined.

End Color.

(** ** Room keys *)

Module Keys.

Import JSFacts Directory.

Lemma random_bytes_length (e : Entropy) : length (random_bytes e) = 6%nat.
Proof. reflexivity. Qed.

Lemma digit_mod36_ascii (b : N) : (digit (b mod 36) < 128)%N.
Proof.
  pose proof (N.mod_upper_bound b 36 ltac:(discriminate)) as H.
  unfold digit. generalize dependent (b mod 36)%N. intros m H.
  code_unit_cases.
Qed.

Lemma upper_digit_mod36 (b : N) : upper_base36 (ascii_upper (digit (b mod 36))).
Proof.
  pose proof (N.mod_upper_bound b 36 ltac:(discriminate)) as H.
  unfold upper_base36, ascii_upper, digit.
  generalize dependent (b mod 36)%N. intros m H.
  code_unit_cases.
Qed.

(** The key is, byte by byte, the upper-case base-36 digit of the byte
    modulo 36. *)
Lemma generateRoomKey_map (ucd_upper : N -> list N) (e : Entropy) :
  generateRoomKey ucd_upper e
  = map (fun value => ascii_upper (digit (value mod 36))) (random_bytes e).
Proof.
  unfold generateRoomKey.
  assert (H : concat (map (fun value => toString 36 (value mod 36))
                        (random_bytes e))
              = map (fun value => digit (value mod 36)) (random_bytes e)).
  { induction (random_bytes e) as [|b l IH]; [reflexivity|].
    cbn [map concat]. rewrite IH, toString_digit.
    - reflexivity.
    - apply N.mod_upper_bound. discriminate. }
  rewrite H, toUpperCase_ascii.
  - now rewrite map_map.
  - unfold is_ascii. apply Forall_map, Forall_forall. intros b _.
    apply digit_mod36_ascii.
Qed.

Lemma generateRoomKey_alphabet (ucd_upper : N -> list N) (e : Entropy) :
  Forall upper_base36 (generateRoomKey ucd_upper e).
Proof.
  rewrite generateRoomKey_map. apply Forall_map, Forall_forall.
  intros b _. apply upper_digit_mod36.
Qed.

Lemma generateRoomKey_length (ucd_upper : N -> list N) (e : Entropy) :
  length (generateRoomKey ucd_upper e) = 6%nat.
Proof. rewrite generateRoomKey_map, length_map. apply random_bytes_length. Qed.

Lemma upper_base36_not_space (c : N) :
  upper_base36 c -> is_white_space c = false.
Proof.
  unfold upper_base36, is_white_space. intros [H | H]; code_unit_cases.
Qed.

Lemma upper_base36_ascii (c : N) : upper_base36 c -> (c < 128)%N.
Proof. unfold upper_base36. lia. Qed.

Lemma upper_base36_fixed (c : N) : upper_base36 c -> ascii_upper c = c.
Proof.
  unfold upper_base36, ascii_upper. intros [H | H]; code_unit_cases.
Qed.

Lemma lower_case_letter (c : N) :
  (65 <= c <= 90)%N ->
  is_white_space (c + 32) = false /\ (c + 32 < 128)%N
  /\ ascii_upper (c + 32) = c.
Proof.
  intros H. repeat split.
  - unfold is_white_space. code_unit_cases.
  - lia.
  - unfold ascii_upper. code_unit_cases.
Qed.

(** A letter-case variant of a key has no whitespace, is ASCII, and is
    sent back to the key by [ascii_upper]. *)
Lemma variant_facts (k v : jsstring) :
  Forall upper_base36 k -> letter_case_variant k v ->
  Forall (fun c => is_white_space c = false) v
  /\ is_ascii v /\ map ascii_upper v = k.
Proof.
  intros Hk Hv. induction Hv as [|c x k v Hcx _ IH].
  - repeat split; constructor.
  - inversion Hk as [|? ? Hc Hk']; subst.
    destruct (IH Hk') as (H1 & H2 & H3).
    assert (Hx : is_white_space x = false /\ (x < 128)%N /\ ascii_upper x = c).
    { destruct Hcx as [-> | [Hr ->]].
      - auto using upper_base36_not_space, upper_base36_ascii,
          upper_base36_fixed.
      - now apply lower_case_letter. }
    destruct Hx as (Hx1 & Hx2 & Hx3).
    repeat split.
    + now constructor.
    + now constructor.
    + cbn [map]. now rewrite Hx3, H3.
Qed.

Lemma variant_refl (k : jsstring) : letter_case_variant k k.
Proof. induction k; constructor; auto. Qed.

(** Trimming and upper-casing a key written in any letter case between
    whitespace gives the key. *)
Lemma normalizeKey_variant (ucd_upper : N -> list N) (k ws1 v ws2 : jsstring) :
  Forall upper_base36 k -> whitespace ws1 -> whitespace ws2 ->
  letter_case_variant k v ->
  normalizeKey ucd_upper (ws1 ++ v ++ ws2) = k.
Proof.
  intros Hk H1 H2 Hv.
  destruct (variant_facts Hk Hv) as (Hs & Ha & Hu).
  unfold normalizeKey. rewrite trim_surrounded by assumption.
  now rewrite toUpperCase_ascii.
Qed.

Lemma normalizeKey_generated (ucd_upper : N -> list N) (e : Entropy) :
  normalizeKey ucd_upper (generateRoomKey ucd_upper e)
  = generateRoomKey ucd_upper e.
Proof.
  pose proof (generateRoomKey_alphabet ucd_upper e) as Hk.
  pose proof (@normalizeKey_variant ucd_upper _ [] _ [] Hk
                (Forall_nil _) (Forall_nil _) (variant_refl _)) as H.
  now rewrite app_nil_r in H.
Qed.

(** C10: [pickColor] reads the palette inside its bounds for every
    string, so it returns one of the five colours, and the empty string
    gets the first one; [generateRoomKey] returns six code units of the
    upper-case base-36 alphabet whatever the random bytes are, and the
    normalisation of [joinRoomByKey] leaves such a key as it is. *)
Theorem pickColor_total_and_generated_key_normal :
  (forall value : jsstring,
      (Z.to_nat (Z.abs (pickColor_hash value) mod Z.of_nat (length userColors))
       < length userColors)%nat
      /\ exists c, pickColor value = Some c /\ In c userColors)
  /\ pickColor [] = nth_error userColors 0
  /\ pickColor [] = Some (js "#2b6cb0")
  /\ (forall (ucd_upper : N -> list N) (e : Entropy),
         length (generateRoomKey ucd_upper e) = 6%nat
         /\ Forall upper_base36 (generateRoomKey ucd_upper e)
         /\ normalizeKey ucd_upper (generateRoomKey ucd_upper e)
            = generateRoomKey ucd_upper e).
Proof.
  split; [|split; [|split]].
  - intros value.
    pose proof (Color.palette_index_bound (pickColor_hash value)) as Hb.
    split; [exact Hb|].
    unfold pickColor.
    destruct (nth_error userColors _) as [c|] eqn:E.
    + exists c. split; [reflexivity|]. eapply nth_error_In; eauto.
    + apply nth_error_None in E. lia.
  - reflexivity.
  - reflexivity.
  - intros ucd_upper e.
    auto using generateRoomKey_length, generateRoomKey_alphabet,
      normalizeKey_generated.
Qed.

End Keys.

(** ** The database *)

Module DbFacts.

Import JSFacts Db.

Lemma is_member_In (r u : Uuid) (d : Database) :
  is_member r u d = true <-> In (r, u) (map member_pk (room_members d)).
Proof.
  unfold is_member. rewrite existsb_exists, in_map_iff. split.
  - intros (m & Hin & H). apply andb_true_iff in H as [H1 H2].
    apply N.eqb_eq in H1, H2. exists m. unfold member_pk. now subst.
  - intros (m & Hpk & Hin). exists m. split; [assumption|].
    unfold member_pk in Hpk. inversion Hpk. now rewrite !N.eqb_refl.
Qed.

Lemma has_room_id_In (r : Uuid) (d : Database) :
  has_room_id r d = true <-> In r (map id (rooms d)).
Proof.
  unfold has_room_id. rewrite existsb_exists, in_map_iff. split.
  - intros (x & Hin & H). apply N.eqb_eq in H. eauto.
  - intros (x & H & Hin). exists x. split; [assumption|]. now apply N.eqb_eq.
Qed.

Lemma has_room_key_In (k : jsstring) (d : Database) :
  has_room_key k d = true <-> In k (map key (rooms d)).
Proof.
  unfold has_room_key. rewrite existsb_exists, in_map_iff. split.
  - intros (x & Hin & H). apply eqb_eq in H. eauto.
  - intros (x & H & Hin). exists x. split; [assumption|]. now apply eqb_eq.
Qed.

Lemma NoDup_snoc {A : Type} (l : list A) (x : A) :
  NoDup l -> ~ In x l -> NoDup (l ++ [x]).
Proof.
  intros Hl Hx. apply NoDup_app; [assumption | repeat constructor; auto |].
  intros a Ha [<- | []]. contradiction.
Qed.

(** *** insert ... on conflict do nothing *)

Lemma insert_member_existing (r u : Uuid) (env : ServerEnv) (d : Database) :
  is_member r u d = true ->
  insert_member_on_conflict_do_nothing r u env d = d.
Proof.
  intros H. unfold insert_member_on_conflict_do_nothing. now rewrite H.
Qed.

Lemma insert_member_is_member (r u : Uuid) (env : ServerEnv) (d : Database) :
  is_member r u (insert_member_on_conflict_do_nothing r u env d) = true.
Proof.
  unfold insert_member_on_conflict_do_nothing.
  destruct (is_member r u d) eqn:E; [assumption|].
  apply is_member_In. cbn [room_members]. rewrite map_app. apply in_or_app.
  right. left. reflexivity.
Qed.

Lemma insert_member_idempotent (r u : Uuid) (env env' : ServerEnv)
    (d : Database) :
  insert_member_on_conflict_do_nothing r u env'
    (insert_member_on_conflict_do_nothing r u env d)
  = insert_member_on_conflict_do_nothing r u env d.
Proof. apply insert_member_existing, insert_member_is_member. Qed.

Lemma insert_member_rooms (r u : Uuid) (env : ServerEnv) (d : Database) :
  rooms (insert_member_on_conflict_do_nothing r u env d) = rooms d.
Proof.
  unfold insert_member_on_conflict_do_nothing.
  destruct (is_member r u d); reflexivity.
Qed.

Lemma insert_member_consistent (r u : Uuid) (env : ServerEnv) (d : Database) :
  In r (map id (rooms d)) -> consistent d ->
  consistent (insert_member_on_conflict_do_nothing r u env d).
Proof.
  intros Hr (Hrooms & Hmem & Hfk).
  unfold insert_member_on_conflict_do_nothing.
  destruct (is_member r u d) eqn:E; [split; [|split]; assumption|].
  split; [exact Hrooms | split].
  - unfold members_unique. cbn [room_members]. rewrite map_app.
    apply NoDup_snoc; [exact Hmem|].
    intros Hin. change (In (r, u) (map member_pk (room_members d))) in Hin.
    apply is_member_In in Hin. congruence.
  - intros m Hin. cbn [room_members rooms] in *.
    apply in_app_or in Hin as [Hin | [<- | []]]; [now apply Hfk | exact Hr].
Qed.

(** *** join_room_by_key *)

Lemma select_room_id_by_key_In (k : jsstring) (d : Database) (r : Uuid) :
  select_room_id_by_key k d = Some r ->
  exists x, In x (rooms d) /\ key x = k /\ id x = r.
Proof.
  unfold select_room_id_by_key.
  destruct (find _ (rooms d)) as [x|] eqn:E; [|discriminate].
  intros H. inversion H. apply find_some in E as [Hin Hk].
  apply eqb_eq in Hk. eauto.
Qed.

Lemma select_room_id_by_key_None (k : jsstring) (d : Database) :
  select_room_id_by_key k d = None <-> has_room_key k d = false.
Proof.
  unfold select_room_id_by_key, has_room_key.
  induction (rooms d) as [|x l IH]; cbn [find existsb]; [tauto|].
  destruct (JS.eqb (key x) k); cbn [orb option_map]; [split; discriminate|].
  exact IH.
Qed.

(** With unique keys the lookup returns the id of the one room that has
    the key. *)
Lemma select_room_id_by_key_unique (x : Room) (d : Database) :
  NoDup (map key (rooms d)) -> In x (rooms d) ->
  select_room_id_by_key (key x) d = Some (id x).
Proof.
  unfold select_room_id_by_key.
  induction (rooms d) as [|y l IH]; intros Hnd Hin; [contradiction|].
  cbn [map] in Hnd. inversion Hnd as [|? ? Hy Hl]; subst.
  cbn [find]. destruct (JS.eqb (key y) (key x)) eqn:E.
  - apply eqb_eq in E. destruct Hin as [-> | Hin]; [reflexivity|].
    exfalso. apply Hy. rewrite E. now apply in_map.
  - destruct Hin as [-> | Hin]; [now rewrite eqb_refl in E | auto].
Qed.

Lemma join_room_by_key_not_found (k : jsstring) (u : Uuid) (env : ServerEnv)
    (d : Database) :
  has_room_key k d = false ->
  join_room_by_key k u env d = inl RoomNotFound.
Proof.
  intros H. apply select_room_id_by_key_None in H.
  unfold join_room_by_key. now rewrite H.
Qed.

Lemma join_room_by_key_consistent (k : jsstring) (u : Uuid) (env : ServerEnv)
    (d d' : Database) (r : Uuid) :
  consistent d -> join_room_by_key k u env d = inr (r, d') -> consistent d'.
Proof.
  unfold join_room_by_key. intros Hc.
  destruct (select_room_id_by_key k d) as [v|] eqn:E; [|discriminate].
  intros H; inversion H; subst.
  apply select_room_id_by_key_In in E as (x & Hin & _ & <-).
  apply insert_member_consistent; [now apply in_map | assumption].
Qed.


(** A second call of the function by the same caller finds the row of the
    first and changes nothing. *)
Lemma join_room_by_key_again (k : jsstring) (u : Uuid) (env env' : ServerEnv)
    (d d' : Database) (r : Uuid) :
  join_room_by_key k u env d = inr (r, d') ->
  join_room_by_key k u env' d' = inr (r, d').
Proof.
  unfold join_room_by_key, select_room_id_by_key.
  destruct (find _ (rooms d)) as [x|] eqn:E; [|discriminate].
  cbn [option_map]. intros H; inversion H; subst.
  rewrite insert_member_rooms, E. cbn [option_map].
  now rewrite insert_member_idempotent.
Qed.

(** *** insert into rooms *)

Lemma insert_room_inr (a : Uuid) (k : jsstring) (o : Uuid) (env : ServerEnv)
    (d d' : Database) (x : Room) :
  insert_room a k o env d = inr (x, d') ->
  x = {| id := gen_random_uuid env; key := k; owner_id := o;
         room_created_at := now env |}
  /\ d' = {| rooms := rooms d ++ [x]; room_members := room_members d |}
  /\ has_room_id (id x) d = false /\ has_room_key k d = false.
Proof.
  unfold insert_room.
  destruct (negb (policy_rooms_insert a _)); [discriminate|].
  cbn [id]. destruct (has_room_id (gen_random_uuid env) d) eqn:E1; [discriminate|].
  destruct (has_room_key k d) eqn:E2; [discriminate|].
  destruct (policy_rooms_select a _ _); [|discriminate].
  intros H; inversion H; subst. auto.
Qed.

Lemma insert_room_consistent (a : Uuid) (k : jsstring) (o : Uuid)
    (env : ServerEnv) (d d' : Database) (x : Room) :
  consistent d -> insert_room a k o env d = inr (x, d') -> consistent d'.
Proof.
  intros ((Hid & Hkey) & Hmem & Hfk) H.
  apply insert_room_inr in H as (Hx & -> & Hnid & Hnkey).
  repeat split; cbn [rooms room_members].
  - rewrite map_app. apply NoDup_snoc; [assumption|]. cbn [map].
    intros Hin. apply has_room_id_In in Hin. congruence.
  - rewrite map_app. apply NoDup_snoc; [assumption|]. cbn [map].
    intros Hin. rewrite Hx in Hin. cbn [key] in Hin.
    apply has_room_key_In in Hin. congruence.
  - exact Hmem.
  - intros m Hin. cbn [rooms room_members] in *. rewrite map_app.
    apply in_or_app. left. now apply Hfk.
Qed.

(** No membership row refers to a room that has just been inserted. *)
Lemma insert_room_no_member (a : Uuid) (k : jsstring) (o u : Uuid)
    (env : ServerEnv) (d d' : Database) (x : Room) :
  consistent d -> insert_room a k o env d = inr (x, d') ->
  is_member (id x) u d' = false.
Proof.
  intros (_ & _ & Hfk) H.
  apply insert_room_inr in H as (_ & -> & Hnid & _).
  destruct (is_member (id x) u _) eqn:E; [|reflexivity].
  apply is_member_In in E. cbn [room_members] in E.
  apply in_map_iff in E as (m & Hpk & Hin).
  apply Hfk in Hin. inversion Hpk as [[Hr Hu]]. rewrite Hr in Hin.
  apply has_room_id_In in Hin. congruence.
Qed.

(** *** upsert into room_members *)

Lemma upsert_room_member_conflict (a r u : Uuid) (env : ServerEnv)
    (d d' : Database) :
  is_member r u d = true -> upsert_room_member a r u env d = inr d' -> d' = d.
Proof.
  unfold upsert_room_member. intros Hm. rewrite Hm.
  destruct (policy_room_members_update _ _); [|discriminate].
  intros H; now inversion H.
Qed.

Lemma upsert_room_member_consistent (a r u : Uuid) (env : ServerEnv)
    (d d' : Database) :
  consistent d -> upsert_room_member a r u env d = inr d' -> consistent d'.
Proof.
  unfold upsert_room_member. intros Hc.
  destruct (is_member r u d) eqn:Em.
  - destruct (policy_room_members_update _ _); [|discriminate].
    intros H; inversion H; now subst.
  - destruct (negb (policy_room_members_insert _ _)); [discriminate|].
    destruct (has_room_id r d) eqn:Er; cbn [negb]; [|discriminate].
    intros H; inversion H; subst.
    apply has_room_id_In in Er.
    pose proof (@insert_member_consistent r u env d Er Hc) as Hi.
    unfold insert_member_on_conflict_do_nothing in Hi. now rewrite Em in Hi.
Qed.


(** For the owner of a room that has just been inserted the upsert takes
    the insert branch and succeeds. *)
Lemma upsert_owner_after_insert_room (k : jsstring) (u : Uuid)
    (env env' : ServerEnv) (d d1 : Database) (x : Room) :
  consistent d -> insert_room u k u env d = inr (x, d1) ->
  upsert_room_member u (id x) u env' d1
  = inr {| rooms := rooms d1;
           room_members := room_members d1 ++
             [{| room_id := id x; user_id := u; role := js "editor";
                 member_created_at := now env' |}] |}.
Proof.
  intros Hc H. pose proof (@insert_room_no_member _ _ _ u _ _ _ _ Hc H) as Hm.
  apply insert_room_inr in H as (_ & -> & _ & _).
  unfold upsert_room_member, policy_room_members_insert.
  rewrite Hm. cbn [user_id]. rewrite N.eqb_refl. cbn [negb].
  replace (has_room_id (id x) _) with true; [reflexivity|].
  symmetry. apply has_room_id_In. cbn [rooms]. rewrite map_app.
  apply in_or_app. right. left. reflexivity.
Qed.

Lemma empty_consistent : consistent empty.
Proof.
  repeat split; try constructor. intros m [].
Qed.

End DbFacts.

(** ** The room handlers *)

Module HandlerFacts.

Import JSFacts Db DbFacts Url App Directory.

Lemma message_truthy (e : Error) : truthy (message e) = true.
Proof. destruct e; reflexivity. Qed.

Lemma or_else_message (e : Error) (alt : jsstring) :
  or_else (message e) alt = message e.
Proof. unfold or_else. now rewrite message_truthy. Qed.


Lemma hex_fixed_truthy (w : nat) (n : N) : truthy (hex_fixed (S w) n) = true.
Proof. cbn [hex_fixed]. rewrite truthy_app. apply orb_true_r. Qed.

Lemma uuid_text_truthy (u : Uuid) : truthy (uuid_text u) = true.
Proof.
  unfold uuid_text. rewrite truthy_app, hex_fixed_truthy. reflexivity.
Qed.

Section WithParameters.

Variable ucd_upper : N -> list N.
Variable parse_url : jsstring -> option URL.

Lemma joinRoomByKey_inv (keyValue : jsstring) (i : Inputs) (n : nat)
    (w : World) :
  joinRoomByKey_cases ucd_upper keyValue i n w
    (joinRoomByKey ucd_upper keyValue i n w).
Proof.
  unfold joinRoomByKey.
  destruct (supabase w) eqn:Es.
  2:{ destruct (session (react w)); apply join_not_signed_in; auto. }
  destruct (session (react w)) as [s|] eqn:Ess.
  2:{ apply join_not_signed_in; auto. }
  destruct (truthy (normalizeKey ucd_upper keyValue)) eqn:Et; cbn [negb].
  2:{ apply truthy_false in Et. eapply join_blank; eauto. }
  assert (Hne : normalizeKey ucd_upper keyValue <> []).
  { intros H. rewrite H in Et. discriminate. }
  cbn [db send setRoomLoading setRoomError with_react].
  destruct (join_room_by_key _ _ _ (db w)) as [e|[r d1]] eqn:Ej.
  - rewrite or_else_message. eapply join_failed; eauto.
  - rewrite uuid_text_truthy. cbn [negb]. eapply join_succeeded; eauto.
Qed.

Lemma handleCreateRoom_inv (i : Inputs) (w : World) :
  handleCreateRoom_cases ucd_upper i w (handleCreateRoom ucd_upper i w).
Proof.
  unfold handleCreateRoom.
  destruct (supabase w) eqn:Es.
  2:{ destruct (session (react w)); apply create_not_signed_in; auto. }
  destruct (session (react w)) as [s|] eqn:Ess.
  2:{ apply create_not_signed_in; auto. }
  cbn [db send setRoomLoading setRoomError with_react].
  destruct (insert_room _ _ _ _ (db w)) as [e|[x d1]] eqn:Ei.
  - rewrite or_else_message. eapply create_insert_failed; eauto.
  - destruct (upsert_room_member _ _ _ _ d1) as [e|d2] eqn:Eu.
    + eapply create_upsert_failed; eauto.
    + eapply create_succeeded; eauto.
Qed.

(** *** The handlers keep the constraints of the schema *)

Lemma joinRoomByKey_consistent (keyValue : jsstring) (i : Inputs) (n : nat)
    (w : World) :
  consistent (db w) -> consistent (db (joinRoomByKey ucd_upper keyValue i n w)).
Proof.
  intros Hc.
  destruct (joinRoomByKey_inv keyValue i n w) as [_ -> | s _ _ _ -> |
    s e _ _ _ _ -> | s r d1 _ _ _ Hj ->]; cbn; try assumption.
  eapply join_room_by_key_consistent; eauto.
Qed.


Lemma handleCreateRoom_consistent (i : Inputs) (w : World) :
  consistent (db w) -> consistent (db (handleCreateRoom ucd_upper i w)).
Proof.
  intros Hc.
  destruct (handleCreateRoom_inv i w) as [_ -> | s e _ _ _ -> _ _ _ |
    s x d1 e _ _ Hi _ -> _ _ _ | s x d1 d2 _ _ Hi Hu -> _ _ _ _];
    try assumption.
  - eapply insert_room_consistent; eauto.
  - eapply upsert_room_member_consistent; [|eauto].
    eapply insert_room_consistent; eauto.
Qed.


Lemma handleJoinByInvite_db (i : Inputs) (w : World) :
  db (handleJoinByInvite ucd_upper parse_url i w) = db w
  \/ exists k, db (handleJoinByInvite ucd_upper parse_url i w)
               = db (joinRoomByKey ucd_upper k i 0 w).
Proof.
  unfold handleJoinByInvite.
  destruct (negb (truthy (trim (inviteInput (react w))))); [left|right]; eauto.
Qed.

Lemma perform_consistent (d : Database) (op : Operation) :
  consistent d -> consistent (perform ucd_upper parse_url d op).
Proof.
  intros Hc. destruct op as [s i | s k i | s t i]; cbn [perform].
  - now apply handleCreateRoom_consistent.
  - now apply joinRoomByKey_consistent.
  - destruct (handleJoinByInvite_db i (setInviteInput t (signed_in s d)))
      as [-> | [k ->]]; [assumption | now apply joinRoomByKey_consistent].
Qed.


Lemma perform_all_consistent (ops : list Operation) (d : Database) :
  consistent d -> consistent (perform_all ucd_upper parse_url d ops).
Proof.
  revert d; induction ops as [|op ops IH]; intros d Hc; cbn; [assumption|].
  apply IH, perform_consistent, Hc.
Qed.


End WithParameters.

End HandlerFacts.

(** ** The room directory *)

Module DirectoryFacts.

Import JSFacts Db DbFacts Url App Directory HandlerFacts Keys Examples.

Lemma member_rows_at_most_one (r u : Uuid) (d : Database) :
  members_unique d -> (length (member_rows r u d) <= 1)%nat.
Proof.
  unfold members_unique, member_rows.
  induction (room_members d) as [|m l IH]; intros Hnd; cbn [filter map length];
    [lia|].
  inversion Hnd as [|? ? Hm Hl]; subst.
  destruct ((room_id m =? r)%N && (user_id m =? u)%N) eqn:E; [|auto].
  apply andb_true_iff in E as [E1 E2]. apply N.eqb_eq in E1, E2.
  assert (Hnil : filter (fun m0 => (room_id m0 =? r)%N && (user_id m0 =? u)%N) l
                 = []).
  { destruct (filter _ l) as [|m' l'] eqn:Ef; [reflexivity|].
    exfalso. apply Hm.
    assert (Hin : In m' (filter (fun m0 => (room_id m0 =? r)%N
                                           && (user_id m0 =? u)%N) l))
      by (rewrite Ef; now left).
    apply filter_In in Hin as [Hin H]. apply andb_true_iff in H as [H1 H2].
    apply N.eqb_eq in H1, H2. apply in_map_iff. exists m'.
    split; [|assumption]. unfold member_pk. congruence. }
  rewrite Hnil. cbn. lia.
Qed.

(** C4: the insertion of a membership row is idempotent.  The
    [insert ... on conflict do nothing] of [join_room_by_key], done a
    second time, leaves the table as the first left it; a second call of
    the function by the same caller returns the same room id and changes
    nothing; in a database reached from the empty one the upsert of
    [handleCreateRoom] meets no existing row, since the room is new; and
    after any sequence of operations of any principals the table
    [room_members] has at most one row for each pair of a room and a
    user. *)
Theorem membership_insertion_idempotent
    (ucd_upper : N -> list N) (parse_url : jsstring -> option URL) :
  (forall (r u : Uuid) (env env' : ServerEnv) (d : Database),
      insert_member_on_conflict_do_nothing r u env'
        (insert_member_on_conflict_do_nothing r u env d)
      = insert_member_on_conflict_do_nothing r u env d)
  /\ (forall (k : jsstring) (u : Uuid) (env env' : ServerEnv)
        (d d' : Database) (r : Uuid),
         join_room_by_key k u env d = inr (r, d') ->
         join_room_by_key k u env' d' = inr (r, d'))
  /\ (forall (ops : list Operation) (s : AuthSession) (i : Inputs)
        (x : Room) (d1 : Database),
         insert_room (session_user_id s) (generateRoomKey ucd_upper (entropy i))
           (session_user_id s) (server i 0)
           (perform_all ucd_upper parse_url Db.empty ops) = inr (x, d1) ->
         is_member (id x) (session_user_id s) d1 = false
         /\ exists d2,
              upsert_room_member (session_user_id s) (id x) (session_user_id s)
                (server i 1) d1 = inr d2
              /\ length (member_rows (id x) (session_user_id s) d2) = 1%nat)
  /\ (forall ops : list Operation,
         members_unique (perform_all ucd_upper parse_url Db.empty ops)
         /\ forall r u : Uuid,
              (length (member_rows r u
                         (perform_all ucd_upper parse_url Db.empty ops)) <= 1)%nat).
Proof.
  split; [|split; [|split]].
  - intros. apply insert_member_idempotent.
  - intros k u env env' d d' r H. eapply join_room_by_key_again; eauto.
  - intros ops s i x d1 Hi.
    pose proof (perform_all_consistent ucd_upper parse_url ops empty_consistent)
      as Hc.
    pose proof (@insert_room_no_member _ _ _ (session_user_id s) _ _ _ _ Hc Hi)
      as Hm.
    split; [exact Hm|].
    eexists. split; [eapply upsert_owner_after_insert_room; eauto|].
    unfold member_rows. cbn [room_members]. rewrite filter_app.
    cbn [filter room_id user_id]. rewrite !N.eqb_refl. cbn [andb].
    rewrite length_app. cbn [length].
    assert (H0 : filter (fun m => (room_id m =? id x)%N
                                  && (user_id m =? session_user_id s)%N)
                   (room_members d1) = []).
    { destruct (filter _ (room_members d1)) as [|m l] eqn:Ef; [reflexivity|].
      exfalso.
      assert (Hin : In m (filter (fun m => (room_id m =? id x)%N
                                  && (user_id m =? session_user_id s)%N)
                   (room_members d1))) by (rewrite Ef; now left).
      apply filter_In in Hin as [Hin H].
      assert (Ht : is_member (id x) (session_user_id s) d1 = true).
      { unfold is_member. apply existsb_exists. eauto. }
      congruence. }
    rewrite H0. reflexivity.
  - intros ops.
    pose proof (perform_all_consistent ucd_upper parse_url ops empty_consistent)
      as (_ & Hm & _).
    split; [exact Hm|]. intros r u. now apply member_rows_at_most_one.
Qed.

Lemma membership_insertion_idempotent_witness :
  join_room_by_key (js "8K2A1F") 2%N {| gen_random_uuid := 0%N; now := 9%N |}
    (insert_member_on_conflict_do_nothing 77%N 2%N
       {| gen_random_uuid := 0%N; now := 5%N |} alice_room_db)
  = inr (77%N,
         insert_member_on_conflict_do_nothing 77%N 2%N
           {| gen_random_uuid := 0%N; now := 5%N |} alice_room_db).
Proof.
  apply (proj1 (proj2 (membership_insertion_idempotent
                         ascii_only_upper parse_links)))
    with (env := {| gen_random_uuid := 0%N; now := 5%N |}) (d := alice_room_db).
  reflexivity.
Defined.

(** C3, as the claim states it, fails on a blank key: it matches no room,
    and [joinRoomByKey] answers with its own message, not with the one of
    [RoomNotFound]. *)
Lemma joinByKey_blank_key_is_not_RoomNotFound :
  has_room_key (normalizeKey ascii_only_upper (js "   "))
    (db (signed_in bob alice_room_db)) = false
  /\ has_room_key (js "   ") (db (signed_in bob alice_room_db)) = false
  /\ roomError (react (joinRoomByKey ascii_only_upper (js "   ") (inputs 0%N) 0
                         (signed_in bob alice_room_db)))
     = js "Enter a room key"
  /\ roomError (react (joinRoomByKey ascii_only_upper (js "   ") (inputs 0%N) 0
                         (signed_in bob alice_room_db)))
     <> message RoomNotFound.
Proof. repeat split; try reflexivity. discriminate. Qed.

(** C3, amended: for a signed-in principal and a key whose normal form
    is the key of no room, [joinRoomByKey] leaves the database, the
    selected room and the address as they are; when the normal form is
    not empty the lookup is made and the error shown is the one raised
    by [join_room_by_key], [room-not-found]; when it is empty no request
    is sent and the error shown is [Enter a room key]. *)
Theorem joinByKey_unknown_key
    (ucd_upper : N -> list N) (keyValue : jsstring) (i : Inputs) (n : nat)
    (w : World) (s : AuthSession) :
  supabase w = true -> session (react w) = Some s ->
  has_room_key (normalizeKey ucd_upper keyValue) (db w) = false ->
  db (joinRoomByKey ucd_upper keyValue i n w) = db w
  /\ room_members (db (joinRoomByKey ucd_upper keyValue i n w))
     = room_members (db w)
  /\ roomId (react (joinRoomByKey ucd_upper keyValue i n w)) = roomId (react w)
  /\ history (joinRoomByKey ucd_upper keyValue i n w) = history w
  /\ (normalizeKey ucd_upper keyValue <> [] ->
      join_room_by_key (normalizeKey ucd_upper keyValue) (session_user_id s)
        (server i n) (db w) = inl RoomNotFound
      /\ roomError (react (joinRoomByKey ucd_upper keyValue i n w))
         = js "room-not-found"
      /\ requests (joinRoomByKey ucd_upper keyValue i n w)
         = requests w ++ [RpcJoinRoomByKey (normalizeKey ucd_upper keyValue)])
  /\ (normalizeKey ucd_upper keyValue = [] ->
      roomError (react (joinRoomByKey ucd_upper keyValue i n w))
      = js "Enter a room key"
      /\ requests (joinRoomByKey ucd_upper keyValue i n w) = requests w).
Proof.
  intros Hs Hss Hk.
  pose proof (@join_room_by_key_not_found _ (session_user_id s) (server i n)
                _ Hk) as Hj.
  destruct (joinRoomByKey_inv ucd_upper keyValue i n w)
    as [[H | H] _ | s' _ Hss' Hb -> | s' e _ Hss' Hne He -> |
        s' r d1 _ Hss' Hne He _]; try congruence.
  - repeat split; try reflexivity; intros; congruence.
  - assert (s' = s) by congruence. subst s'.
    assert (e = RoomNotFound) by congruence. subst e.
    repeat split; try reflexivity; intros; congruence.
Qed.

Lemma joinByKey_unknown_key_witness :
  roomError (react (joinRoomByKey ascii_only_upper (js " zzzzzz ") (inputs 0%N) 0
                      (signed_in bob alice_room_db)))
  = js "room-not-found".
Proof.
  destruct (@joinByKey_unknown_key ascii_only_upper (js " zzzzzz ")
              (inputs 0%N) 0 (signed_in bob alice_room_db) bob
              eq_refl eq_refl eq_refl) as (_ & _ & _ & _ & H & _).
  apply H. discriminate.
Defined.





End DirectoryFacts.

(** ** The address *)

Module UrlFacts.

Import JSFacts Db Url App HandlerFacts.

Lemma get_delete_same (n : jsstring) (ps : list (jsstring * jsstring)) :
  get n (delete n ps) = None.
Proof.
  induction ps as [|[m v] ps IH]; [reflexivity|].
  unfold delete in *. cbn [filter fst].
  destruct (JS.eqb m n) eqn:E; cbn [negb]; [exact IH|].
  cbn [get]. now rewrite E.
Qed.

Lemma get_delete_other (n m : jsstring) (ps : list (jsstring * jsstring)) :
  JS.eqb n m = false -> get n (delete m ps) = get n ps.
Proof.
  intros Hnm. induction ps as [|[a v] ps IH]; [reflexivity|].
  unfold delete in *. cbn [filter fst].
  destruct (JS.eqb a m) eqn:E; cbn [negb get].
  - apply eqb_eq in E. subst a.
    replace (JS.eqb m n) with false; [exact IH|].
    symmetry. apply eqb_neq. apply eqb_neq in Hnm. congruence.
  - now rewrite IH.
Qed.

Lemma get_set_same (n v : jsstring) (ps : list (jsstring * jsstring)) :
  get n (set n v ps) = Some v.
Proof.
  induction ps as [|[m x] ps IH]; cbn [set get].
  - now rewrite eqb_refl.
  - destruct (JS.eqb m n) eqn:E; cbn [get]; now rewrite E.
Qed.

Lemma delete_idem (n : jsstring) (ps : list (jsstring * jsstring)) :
  delete n (delete n ps) = delete n ps.
Proof.
  unfold delete. induction ps as [|p ps IH]; [reflexivity|].
  cbn [filter]. destruct (negb (JS.eqb (fst p) n)) eqn:E; [|exact IH].
  cbn [filter]. now rewrite E, IH.
Qed.

Lemma delete_comm (a b : jsstring) (ps : list (jsstring * jsstring)) :
  delete a (delete b ps) = delete b (delete a ps).
Proof.
  unfold delete. induction ps as [|p ps IH]; [reflexivity|].
  cbn [filter].
  destruct (negb (JS.eqb (fst p) b)) eqn:Eb,
           (negb (JS.eqb (fst p) a)) eqn:Ea;
    cbn [filter]; rewrite ?Ea, ?Eb, IH; reflexivity.
Qed.

Lemma delete_set_same (n v : jsstring) (ps : list (jsstring * jsstring)) :
  delete n (set n v ps) = delete n ps.
Proof.
  induction ps as [|[m x] ps IH]; cbn [set].
  - unfold delete. cbn [filter fst]. now rewrite eqb_refl.
  - destruct (JS.eqb m n) eqn:E.
    + unfold delete at 1 3. cbn [filter fst]. rewrite E. cbn [negb].
      apply delete_idem.
    + unfold delete in *. cbn [filter fst]. rewrite E. cbn [negb].
      now rewrite IH.
Qed.

Lemma getAll_delete_same (n : jsstring) (ps : list (jsstring * jsstring)) :
  getAll n (delete n ps) = [].
Proof.
  unfold getAll, delete. induction ps as [|p ps IH]; [reflexivity|].
  cbn [filter]. destruct (JS.eqb (fst p) n) eqn:E; cbn [negb filter];
    [exact IH | now rewrite E].
Qed.

Lemma getAll_delete_other (n m : jsstring) (ps : list (jsstring * jsstring)) :
  JS.eqb n m = false -> getAll n (delete m ps) = getAll n ps.
Proof.
  intros Hnm. unfold getAll, delete.
  induction ps as [|p ps IH]; [reflexivity|].
  cbn [filter]. destruct (JS.eqb (fst p) m) eqn:Em; cbn [negb].
  - apply eqb_eq in Em. rewrite Em.
    replace (JS.eqb m n) with false; [exact IH|].
    symmetry. apply eqb_neq. apply eqb_neq in Hnm. congruence.
  - cbn [filter]. destruct (JS.eqb (fst p) n); cbn [map]; now rewrite IH.
Qed.

Lemma getAll_set_same (n v : jsstring) (ps : list (jsstring * jsstring)) :
  getAll n (set n v ps) = [v].
Proof.
  induction ps as [|[m x] ps IH]; cbn [set].
  - unfold getAll. cbn [filter fst]. now rewrite eqb_refl.
  - destruct (JS.eqb m n) eqn:E.
    + unfold getAll. cbn [filter fst]. rewrite E. cbn [map snd].
      f_equal. apply (getAll_delete_same n ps).
    + unfold getAll in *. cbn [filter fst]. now rewrite E.
Qed.

Lemma updateRoomInUrl_query (roomId : jsstring) (h : History) :
  searchParams (current (updateRoomInUrl roomId h))
  = rewritten_query roomId (searchParams (current h)).
Proof.
  unfold updateRoomInUrl, rewritten_query.
  destruct (truthy roomId); reflexivity.
Qed.

Lemma other_params_rewritten (roomId : jsstring)
    (ps : list (jsstring * jsstring)) :
  other_params (rewritten_query roomId ps) = other_params ps.
Proof.
  unfold other_params, rewritten_query.
  set (X := if truthy roomId then set (js "room") roomId ps
            else delete (js "room") ps).
  assert (HX : delete (js "room") X = delete (js "room") ps).
  { unfold X. destruct (truthy roomId);
      [apply delete_set_same | apply delete_idem]. }
  rewrite (delete_comm (js "room") (js "invite")).
  rewrite (delete_comm (js "room") (js "doc")).
  rewrite HX.
  rewrite (delete_comm (js "doc") (js "invite")).
  now rewrite !delete_idem.
Qed.

Lemma updateRoomInUrl_invite_absent (roomId : jsstring) (h : History) :
  get (js "invite") (searchParams (current (updateRoomInUrl roomId h))) = None
  /\ getInviteFromUrl (updateRoomInUrl roomId h) = [].
Proof.
  assert (H : get (js "invite")
                (searchParams (current (updateRoomInUrl roomId h))) = None).
  { rewrite updateRoomInUrl_query. apply get_delete_same. }
  split; [exact H|]. unfold getInviteFromUrl, getSearchParam. now rewrite H.
Qed.

Lemma room_change_rewrites_same (w w' : World) :
  roomId (react w') = roomId (react w) -> history w' = history w ->
  room_change_rewrites w w'.
Proof. left; auto. Qed.

Lemma joinRoomByKey_rewrites (ucd_upper : N -> list N) (keyValue : jsstring)
    (i : Inputs) (n : nat) (w : World) :
  room_change_rewrites w (joinRoomByKey ucd_upper keyValue i n w).
Proof.
  destruct (joinRoomByKey_inv ucd_upper keyValue i n w)
    as [_ -> | s _ _ _ -> | s e _ _ _ _ -> | s r d1 _ _ _ _ ->];
    try (left; split; reflexivity).
  right. reflexivity.
Qed.

Lemma handleCreateRoom_rewrites (ucd_upper : N -> list N) (i : Inputs)
    (w : World) :
  room_change_rewrites w (handleCreateRoom ucd_upper i w).
Proof.
  destruct (handleCreateRoom_inv ucd_upper i w)
    as [_ -> | s e _ _ _ _ _ Hr Hh | s x d1 e _ _ _ _ _ _ Hr Hh |
        s x d1 d2 _ _ _ _ _ _ Hr _ Hh].
  - left; split; reflexivity.
  - left; split; assumption.
  - left; split; assumption.
  - right. now rewrite Hr, Hh.
Qed.

(** C9: [updateRoomInUrl] replaces the current entry of the session
    history and touches nothing else of it.  In the new address the
    parameter [room] occurs once with the room id as its value (for the
    empty id of a cleared selection it is absent, which [getSearchParam]
    reads as the empty id), [doc] and [invite] are absent, the pairs of
    the other parameters are the same in the same order, and the part
    before the query and the fragment are the same.  Every handler and
    the invite effect either leave the selected room and the address
    alone or rewrite the address in this way for the room they select. *)
Theorem updateRoomInUrl_rewrites_address
    (ucd_upper : N -> list N) (parse_url : jsstring -> option URL) :
  (forall (roomId : jsstring) (h : History),
      getSearchParam (js "room") (updateRoomInUrl roomId h) = roomId
      /\ getAll (js "room") (searchParams (current (updateRoomInUrl roomId h)))
         = (if truthy roomId then [roomId] else [])
      /\ get (js "doc") (searchParams (current (updateRoomInUrl roomId h))) = None
      /\ get (js "invite") (searchParams (current (updateRoomInUrl roomId h)))
         = None
      /\ other_params (searchParams (current (updateRoomInUrl roomId h)))
         = other_params (searchParams (current h))
      /\ origin_and_path (current (updateRoomInUrl roomId h))
         = origin_and_path (current h)
      /\ fragment (current (updateRoomInUrl roomId h)) = fragment (current h)
      /\ back (updateRoomInUrl roomId h) = back h
      /\ forward (updateRoomInUrl roomId h) = forward h)
  /\ (forall (i : Inputs) (e : Event) (w : World),
         room_change_rewrites w (handle ucd_upper parse_url i e w))
  /\ (forall (i : Inputs) (w : World),
         room_change_rewrites w (invite_effect ucd_upper i w)).
Proof.
  split; [|split].
  - intros roomId h.
    assert (Hq := updateRoomInUrl_query roomId h).
    split; [|split; [|split; [|split; [|split]]]].
    + unfold getSearchParam. rewrite Hq. unfold rewritten_query.
      rewrite !get_delete_other by reflexivity.
      destruct (truthy roomId) eqn:Et.
      * rewrite get_set_same. unfold or_else. now rewrite Et.
      * rewrite get_delete_same. symmetry. now apply truthy_false.
    + rewrite Hq. unfold rewritten_query.
      rewrite !getAll_delete_other by reflexivity.
      destruct (truthy roomId);
        [apply getAll_set_same | apply getAll_delete_same].
    + rewrite Hq. unfold rewritten_query.
      rewrite get_delete_other by reflexivity. apply get_delete_same.
    + rewrite Hq. apply get_delete_same.
    + rewrite Hq. apply other_params_rewritten.
    + unfold updateRoomInUrl. destruct (truthy roomId); repeat split.
  - intros i e w. destruct e; cbn [handle];
      try (left; split; reflexivity).
    + destruct (supabase w); left; split; reflexivity.
    + unfold handleSignIn. destruct (supabase w), (auth_error i);
        left; split; reflexivity.
    + unfold handleSignUp. destruct (supabase w), (auth_error i);
        left; split; reflexivity.
    + apply handleCreateRoom_rewrites.
    + apply joinRoomByKey_rewrites.
    + unfold handleJoinByInvite.
      destruct (negb (truthy (trim (inviteInput (react w)))));
        [left; split; reflexivity | apply joinRoomByKey_rewrites].
    + unfold handleSignOut. destruct (supabase w); cbn [negb];
        [destruct (auth_error i); right; reflexivity
        | left; split; reflexivity].
    + unfold emit_status. destruct (nth_error (providers w) pid) as [p|];
        [|left; split; reflexivity].
      induction (status_observers p) as [|o l IH] using rev_ind;
        [left; split; reflexivity|].
      rewrite fold_left_app. cbn [fold_left].
      destruct IH as [[H1 H2] | H]; [left | right]; cbn; auto.
    + unfold emit_change.
      set (w0 := with_providers _ w).
      destruct (nth_error (providers w0) pid) as [p|];
        [|left; split; reflexivity].
      induction (change_observers p) as [|o l IH] using rev_ind;
        [left; split; reflexivity|].
      rewrite fold_left_app. cbn [fold_left]. unfold handleAwareness at 1.
      destruct (nth_error _ pid); [|exact IH].
      destruct IH as [[H1 H2] | H]; [left | right]; cbn; auto.
  - intros i w. unfold invite_effect.
    destruct (negb (truthy (inviteKey (react w))));
      [left; split; reflexivity|].
    destruct (session (react w));
      [apply joinRoomByKey_rewrites | left; split; reflexivity].
Qed.

End UrlFacts.

(** ** The session controller *)

Module SessionFacts.

Import JSFacts Db Url App HandlerFacts.

(** *** The store of providers *)

Lemma update_nth_length (n : nat) (f : WebsocketProvider -> WebsocketProvider)
    (ps : list WebsocketProvider) :
  length (update_nth n f ps) = length ps.
Proof.
  revert n; induction ps as [|p ps IH]; intros [|n]; cbn; auto.
Qed.

Lemma nth_error_update_nth (n m : nat)
    (f : WebsocketProvider -> WebsocketProvider) (ps : list WebsocketProvider) :
  nth_error (update_nth n f ps) m
  = if Nat.eqb n m then option_map f (nth_error ps m) else nth_error ps m.
Proof.
  revert n m; induction ps as [|p ps IH]; intros [|n] [|m]; cbn; auto.
  destruct (Nat.eqb n m); reflexivity.
Qed.

(** *** Emitting *)

Lemma fold_setStatus (s : jsstring) (l : list nat) (w : World) :
  fold_left (fun w' _ => handleStatus s w') l w
  = match l with [] => w | _ :: _ => setStatus s w end.
Proof.
  destruct l as [|a l]; [reflexivity|]. cbn [fold_left].
  induction l as [|b l IH]; [reflexivity|]. cbn [fold_left]. exact IH.
Qed.

Lemma emit_status_cases (pid : nat) (s : jsstring) (w : World) :
  emit_status pid s w = w
  \/ (exists p n, nth_error (providers w) pid = Some p
                  /\ In n (status_observers p)
                  /\ emit_status pid s w = setStatus s w).
Proof.
  unfold emit_status. destruct (nth_error (providers w) pid) as [p|] eqn:E;
    [|now left].
  rewrite fold_setStatus. destruct (status_observers p) as [|n l] eqn:El;
    [now left|].
  right. exists p, n. rewrite El. repeat split. now left.
Qed.

Lemma fold_handleAwareness (pid : nat) (p : WebsocketProvider)
    (l : list nat) (w : World) :
  nth_error (providers w) pid = Some p ->
  fold_left (fun w' _ => handleAwareness pid w') l w
  = match l with
    | [] => w
    | _ :: _ => setUsers (users_of_states (states p)) w
    end.
Proof.
  intros Hp. destruct l as [|a l]; [reflexivity|]. cbn [fold_left].
  unfold handleAwareness at 2. rewrite Hp.
  induction l as [|b l IH]; [reflexivity|]. cbn [fold_left].
  unfold handleAwareness at 2. cbn [providers setUsers with_react].
  rewrite Hp. exact IH.
Qed.

Lemma emit_change_cases (pid : nat) (w : World) :
  emit_change pid w = w
  \/ (exists p n, nth_error (providers w) pid = Some p
                  /\ In n (change_observers p)
                  /\ emit_change pid w
                     = setUsers (users_of_states (states p)) w).
Proof.
  unfold emit_change. destruct (nth_error (providers w) pid) as [p|] eqn:E;
    [|now left].
  rewrite (@fold_handleAwareness _ _ _ _ E).
  destruct (change_observers p) as [|n l] eqn:El; [now left|].
  right. exists p, n. rewrite El. repeat split. now left.
Qed.

Lemma emit_change_store (pid : nat) (w : World) :
  same_store w (emit_change pid w)
  /\ status (react (emit_change pid w)) = status (react w).
Proof.
  destruct (emit_change_cases pid w) as [-> | (p & n & _ & _ & ->)];
    repeat split.
Qed.

Lemma emit_status_store (pid : nat) (s : jsstring) (w : World) :
  same_store w (emit_status pid s w)
  /\ users (react (emit_status pid s w)) = users (react w).
Proof.
  destruct (emit_status_cases pid s w) as [-> | (p & n & _ & _ & ->)];
    repeat split.
Qed.

Lemma handleAwareness_store (pid : nat) (w : World) :
  same_store w (handleAwareness pid w)
  /\ status (react (handleAwareness pid w)) = status (react w).
Proof.
  unfold handleAwareness. destruct (nth_error (providers w) pid);
    repeat split.
Qed.

(** *** The invariant *)

Lemma Inv_same (w w' : World) :
  same_store w w' -> same_view w w' -> Inv w -> Inv w'.
Proof.
  intros [Hp Hh] [Hs Hu] (Ho & Hi & Hm).
  unfold Inv, observers_owned, idle_without_provider, idle, provider_memo_ok
    in *.
  rewrite Hp, Hh, Hs, Hu. auto.
Qed.

Lemma owned_idle_detached (w : World) :
  observers_owned w -> cleanup (hooks w) = None -> all_detached w.
Proof.
  intros Ho Hc pid p Hp. specialize (Ho pid p Hp). rewrite Hc in Ho.
  split.
  - destruct (status_observers p) as [|n l]; [reflexivity|].
    discriminate (Ho n (or_introl (or_introl eq_refl))).
  - destruct (change_observers p) as [|n l]; [reflexivity|].
    discriminate (Ho n (or_intror (or_introl eq_refl))).
Qed.

Lemma initial_Inv (h : History) (c : bool) (d : Database) : Inv (initial h c d).
Proof.
  split; [|split; [|split; [|split]]]; cbn.
  - intros [|pid] p H; discriminate.
  - intros u H; discriminate.
  - intros r t H; discriminate.
  - intros pid H; discriminate.
  - intros pid n H; discriminate.
Qed.

(** *** Handlers leave the session alone *)

Section WithParameters.

Variable ucd_upper : N -> list N.
Variable parse_url : jsstring -> option URL.

Lemma same_session_refl (w : World) : same_session w w.
Proof. repeat split. Qed.

Lemma joinRoomByKey_frame (keyValue : jsstring) (i : Inputs) (n : nat)
    (w : World) :
  same_session w (joinRoomByKey ucd_upper keyValue i n w).
Proof.
  destruct (joinRoomByKey_inv ucd_upper keyValue i n w)
    as [_ -> | s _ _ _ -> | s e _ _ _ _ -> | s r d1 _ _ _ _ ->];
    repeat split.
Qed.

Lemma handleCreateRoom_frame (i : Inputs) (w : World) :
  same_session w (handleCreateRoom ucd_upper i w).
Proof.
  unfold handleCreateRoom.
  destruct (supabase w); [|apply same_session_refl].
  destruct (session (react w)); [|apply same_session_refl].
  destruct (insert_room _ _ _ _ _) as [e|[x d1]]; [repeat split|].
  destruct (upsert_room_member _ _ _ _ _); repeat split.
Qed.

Lemma handleJoinByInvite_frame (i : Inputs) (w : World) :
  same_session w (handleJoinByInvite ucd_upper parse_url i w).
Proof.
  unfold handleJoinByInvite.
  destruct (negb (truthy (trim (inviteInput (react w)))));
    [repeat split | apply joinRoomByKey_frame].
Qed.

Lemma invite_effect_frame (i : Inputs) (w : World) :
  same_session w (invite_effect ucd_upper i w).
Proof.
  unfold invite_effect.
  destruct (negb (truthy (inviteKey (react w)))); [apply same_session_refl|].
  destruct (session (react w));
    [apply joinRoomByKey_frame | apply same_session_refl].
Qed.

(** *** Transport events *)

Lemma detached_no_status (pid : nat) (s : jsstring) (w : World) :
  (forall p, nth_error (providers w) pid = Some p -> detached p) ->
  emit_status pid s w = w.
Proof.
  intros Hd. destruct (emit_status_cases pid s w)
    as [H | (p & n & Hp & Hin & _)]; [exact H|].
  destruct (Hd p Hp) as [H _]. rewrite H in Hin. contradiction.
Qed.

Lemma detached_no_change (pid : nat) (w : World) :
  (forall p, nth_error (providers w) pid = Some p -> detached p) ->
  emit_change pid w = w.
Proof.
  intros Hd. destruct (emit_change_cases pid w)
    as [H | (p & n & Hp & Hin & _)]; [exact H|].
  destruct (Hd p Hp) as [_ H]. rewrite H in Hin. contradiction.
Qed.

(** Replacing the awareness states of a provider keeps its listeners. *)
Lemma set_states_observers (pid : nat) (sts : list (N * AwarenessState))
    (w : World) (pid' : nat) (p' : WebsocketProvider) :
  nth_error (providers (with_providers
               (update_nth pid (map_states (fun _ => sts))) w)) pid' = Some p' ->
  exists p, nth_error (providers w) pid' = Some p
            /\ status_observers p' = status_observers p
            /\ change_observers p' = change_observers p.
Proof.
  cbn [providers with_providers]. rewrite nth_error_update_nth.
  destruct (Nat.eqb pid pid'); [|eauto].
  destruct (nth_error (providers w) pid') as [p|]; [|discriminate].
  cbn [option_map]. intros H; inversion H. eauto.
Qed.

Lemma transport_status_Inv (pid : nat) (s : jsstring) (w : World) :
  Inv w -> Inv (emit_status pid s w).
Proof.
  intros HI. destruct (emit_status_cases pid s w)
    as [-> | (p & n & Hp & Hin & ->)]; [exact HI|].
  destruct HI as (Ho & Hi & Hm).
  split; [exact Ho | split; [|exact Hm]].
  intros u Hu. destruct (Hi u Hu) as (_ & _ & Hc).
  pose proof (Ho pid p Hp n (or_introl Hin)) as Hc'.
  cbn in Hc, Hc'. congruence.
Qed.

Lemma awareness_change_Inv (pid : nat) (sts : list (N * AwarenessState))
    (w : World) :
  Inv w ->
  Inv (emit_change pid
         (with_providers (update_nth pid (map_states (fun _ => sts))) w)).
Proof.
  intros (Ho & Hi & Hm).
  set (w0 := with_providers (update_nth pid (map_states (fun _ => sts))) w).
  assert (Ho0 : observers_owned w0).
  { intros pid' p' Hp' n Hn.
    destruct (set_states_observers _ _ _ _ Hp') as (p & Hp & Hs & Hc).
    rewrite Hs, Hc in Hn. exact (Ho pid' p Hp n Hn). }
  assert (Hm0 : provider_memo_ok w0).
  { destruct Hm as (H1 & H2 & H3). unfold provider_memo_ok, w0.
    cbn [hooks providers with_providers]. rewrite update_nth_length. auto. }
  destruct (emit_change_cases pid w0) as [-> | (p & n & Hp & Hin & ->)].
  - split; [exact Ho0 | split; [|exact Hm0]]. exact Hi.
  - split; [exact Ho0 | split; [|exact Hm0]].
    intros u Hu. destruct (Hi u Hu) as (_ & _ & Hc).
    pose proof (Ho0 pid p Hp n (or_intror Hin)) as Hc'.
    cbn in Hc, Hc'. congruence.
Qed.

Lemma handleSignOut_store (i : Inputs) (w : World) :
  same_store w (handleSignOut i w) /\ same_view w (handleSignOut i w).
Proof.
  unfold handleSignOut. destruct (negb (supabase w)); [repeat split|].
  destruct (auth_error i); repeat split.
Qed.

Lemma handleSignIn_store (i : Inputs) (w : World) :
  same_store w (handleSignIn i w) /\ same_view w (handleSignIn i w).
Proof.
  unfold handleSignIn. destruct (negb (supabase w)); [repeat split|].
  destruct (auth_error i); repeat split.
Qed.

Lemma handleSignUp_store (i : Inputs) (w : World) :
  same_store w (handleSignUp i w) /\ same_view w (handleSignUp i w).
Proof.
  unfold handleSignUp. destruct (negb (supabase w)); [repeat split|].
  destruct (auth_error i); repeat split.
Qed.

Lemma handle_Inv (i : Inputs) (e : Event) (w : World) :
  Inv w -> Inv (handle ucd_upper parse_url i e w).
Proof.
  intros HI. destruct e; cbn [handle].
  - destruct (supabase w); [|exact HI].
    apply (Inv_same (w := w)); [split; reflexivity | split; reflexivity | exact HI].
  - apply (Inv_same (w := w)); [split; reflexivity | split; reflexivity | exact HI].
  - apply (Inv_same (w := w)); [split; reflexivity | split; reflexivity | exact HI].
  - destruct (handleSignIn_store i w) as (H1 & H2).
    exact (Inv_same H1 H2 HI).
  - destruct (handleSignUp_store i w) as (H1 & H2).
    exact (Inv_same H1 H2 HI).
  - apply (Inv_same (w := w)); [split; reflexivity | split; reflexivity | exact HI].
  - apply (Inv_same (w := w)); [split; reflexivity | split; reflexivity | exact HI].
  - destruct (handleCreateRoom_frame i w) as (H1 & H2 & _).
    exact (Inv_same H1 H2 HI).
  - destruct (joinRoomByKey_frame (roomKeyInput (react w)) i 0 w)
      as (H1 & H2 & _).
    exact (Inv_same H1 H2 HI).
  - destruct (handleJoinByInvite_frame i w) as (H1 & H2 & _).
    exact (Inv_same H1 H2 HI).
  - destruct (handleSignOut_store i w) as (H1 & H2).
    exact (Inv_same H1 H2 HI).
  - now apply transport_status_Inv.
  - now apply awareness_change_Inv.
Qed.

End WithParameters.

(** *** Rendering and the effects *)

Lemma Inv_cells (w w' : World) :
  same_cells w w' -> same_view w w' -> Inv w -> Inv w'.
Proof.
  intros (Hp & H1 & H2 & H3 & H4) [Hs Hu] (Ho & Hi & Hm).
  unfold Inv, observers_owned, idle_without_provider, idle, provider_memo_ok
    in *.
  rewrite Hp, H1, H2, H3, H4, Hs, Hu. auto.
Qed.

Lemma render_user_Inv (i : Inputs) (w : World) : Inv w -> Inv (render_user i w).
Proof.
  intros HI. unfold render_user. destruct (opt_nat_eqb _ _); [exact HI|].
  apply (Inv_cells (w := w)); [repeat split | repeat split | exact HI].
Qed.

Lemma nth_error_snoc (ps : list WebsocketProvider) (q p : WebsocketProvider)
    (pid : nat) :
  nth_error (ps ++ [q]) pid = Some p ->
  nth_error ps pid = Some p \/ (pid = length ps /\ p = q).
Proof.
  intros H. destruct (Nat.lt_ge_cases pid (length ps)) as [Hlt | Hge].
  - left. now rewrite nth_error_app1 in H.
  - right. rewrite nth_error_app2 in H by assumption.
    destruct (pid - length ps)%nat as [|k] eqn:E; cbn in H.
    + inversion H. split; [lia | reflexivity].
    + destruct k; discriminate.
Qed.

Lemma render_provider_Inv (i : Inputs) (w : World) :
  Inv w -> Inv (render_provider i w).
Proof.
  intros (Ho & Hi & Hm). unfold render_provider.
  destruct (provider_deps_eqb _ _); [split; [|split]; assumption|].
  destruct (negb (truthy (token w)) || negb (truthy (roomId (react w))))
    eqn:Et.
  - split; [exact Ho | split; [exact Hi|]].
    destruct Hm as (_ & _ & H3).
    split; [|split]; cbn; [auto | discriminate | exact H3].
  - apply orb_false_iff in Et as [Et1 Et2].
    apply negb_false_iff in Et1, Et2.
    split; [|split; [exact Hi|]].
    + intros pid p Hp n Hn. cbn in Hp.
      apply nth_error_snoc in Hp as [Hp | [_ ->]].
      * exact (Ho pid p Hp n Hn).
      * cbn in Hn. tauto.
    + destruct Hm as (_ & _ & H3).
      split; [|split]; cbn; rewrite ?length_app; cbn [length].
      * intros r t H [Hf | Hf]; inversion H; subst; congruence.
      * intros pid H; inversion H. lia.
      * intros pid n H. apply H3 in H. lia.
Qed.

(** After the cleanup no listener of [App] is registered anywhere. *)
Lemma run_cleanup_detaches (w : World) :
  Inv w ->
  all_detached (run_cleanup w)
  /\ cleanup (hooks (run_cleanup w)) = None
  /\ length (providers (run_cleanup w)) = length (providers w)
  /\ provider (hooks (run_cleanup w)) = provider (hooks w)
  /\ providerDeps (hooks (run_cleanup w)) = providerDeps (hooks w)
  /\ userDeps (hooks (run_cleanup w)) = userDeps (hooks w)
  /\ user (hooks (run_cleanup w)) = user (hooks w)
  /\ effectRuns (hooks (run_cleanup w)) = effectRuns (hooks w)
  /\ react (run_cleanup w) = react w.
Proof.
  intros (Ho & _ & _). unfold run_cleanup.
  destruct (cleanup (hooks w)) as [[pid n]|] eqn:Ec.
  2:{ split; [now apply owned_idle_detached | repeat split; assumption]. }
  split.
  2:{ cbn. rewrite !update_nth_length. repeat split. }
  intros pid' p' Hp'. cbn in Hp'.
  rewrite !nth_error_update_nth in Hp'.
  destruct (Nat.eqb pid pid') eqn:E.
  - apply Nat.eqb_eq in E. subst pid'.
    destruct (nth_error (providers w) pid) as [p|] eqn:Hp; [|discriminate].
    cbn in Hp'. inversion Hp'; subst p'. clear Hp'.
    split; cbn; [reflexivity|].
    unfold remove_nat.
    destruct (filter _ (change_observers p)) as [|m l] eqn:Ef; [reflexivity|].
    exfalso.
    assert (Hin : In m (filter (fun m0 => negb (Nat.eqb m0 n))
                          (change_observers p))) by (rewrite Ef; now left).
    apply filter_In in Hin as [Hin Hneq].
    pose proof (Ho pid p Hp m (or_intror Hin)) as Hm. rewrite Ec in Hm.
    inversion Hm; subst m. now rewrite Nat.eqb_refl in Hneq.
  - pose proof (Ho pid' p' Hp') as Hown. rewrite Ec in Hown.
    apply Nat.eqb_neq in E.
    split.
    + destruct (status_observers p') as [|m l]; [reflexivity|].
      specialize (Hown m (or_introl (or_introl eq_refl))). congruence.
    + destruct (change_observers p') as [|m l]; [reflexivity|].
      specialize (Hown m (or_intror (or_introl eq_refl))). congruence.
Qed.

(** The effect body on a world without listeners. *)
Lemma session_effect_spec (w : World) :
  all_detached w ->
  match provider (hooks w) with
  | None => idle (session_effect w) /\ all_detached (session_effect w)
  | Some pid =>
      cleanup (hooks (session_effect w)) = Some (pid, effectRuns (hooks w))
      /\ forall pid' p', nth_error (providers (session_effect w)) pid' = Some p' ->
           forall n, In n (status_observers p') \/ In n (change_observers p') ->
                     pid' = pid /\ n = effectRuns (hooks w)
  end
  /\ length (providers (session_effect w)) = length (providers w)
  /\ provider (hooks (session_effect w)) = provider (hooks w)
  /\ providerDeps (hooks (session_effect w)) = providerDeps (hooks w)
  /\ userDeps (hooks (session_effect w)) = userDeps (hooks w).
Proof.
  intros Hd. unfold session_effect.
  destruct (provider (hooks w)) as [pid|] eqn:Ep.
  2:{ split; [split; [repeat split | exact Hd] | repeat split; exact Ep]. }
  set (n := effectRuns (hooks w)).
  set (w2 := on_status n pid (setStatus (js "connecting") w)).
  set (w3 := setLocalStateField_user pid (user (hooks w)) w2).
  assert (H3 : providers w3
               = update_nth pid (fun p =>
                   map_states
                     (map (fun st => if (fst st =? clientID p)%N
                                     then (fst st, {| aw_user := Some (user (hooks w)) |})
                                     else st)) p) (providers w2)
               /\ hooks w3 = hooks w).
  { unfold w3, setLocalStateField_user.
    match goal with
    | |- context [emit_change pid ?x] =>
        destruct (emit_change_store pid x) as ((Hp & Hh) & _);
        rewrite Hp, Hh
    end.
    split; reflexivity. }
  destruct H3 as [Hp3 Hh3].
  set (w4 := on_change n pid w3).
  assert (H5 : providers (handleAwareness pid w4) = providers w4
               /\ hooks (handleAwareness pid w4) = hooks w4).
  { destruct (handleAwareness_store pid w4) as ((Hp & Hh) & _). auto. }
  destruct H5 as [Hp5 Hh5].
  cbn [hooks set_cleanup with_hooks cleanup providers provider providerDeps
       userDeps].
  rewrite Hp5, Hh5.
  unfold w4 at 1 2 3 4 5. cbn [providers hooks on_change with_providers].
  rewrite Hp3, Hh3. unfold w2.
  cbn [providers on_status with_providers setStatus with_react].
  rewrite !update_nth_length.
  split; [split; [reflexivity|] | repeat split; exact Ep].
  intros pid' p' Hp' m Hm.
  rewrite !nth_error_update_nth in Hp'.
  destruct (Nat.eqb pid pid') eqn:E.
  - apply Nat.eqb_eq in E. subst pid'.
    destruct (nth_error (providers w) pid) as [p|] eqn:Hp; [|discriminate].
    destruct (Hd pid p Hp) as [Hs Hc].
    cbn in Hp'. inversion Hp'; subst p'. cbn in Hm.
    rewrite Hs, Hc in Hm. cbn in Hm. split; [reflexivity|].
    destruct Hm as [[<- | []] | [<- | []]]; reflexivity.
  - destruct (Hd pid' p' Hp') as [Hs Hc]. rewrite Hs, Hc in Hm.
    destruct Hm as [[] | []].
Qed.

Lemma same_inputs_refl (w : World) : same_inputs w w.
Proof. repeat split. Qed.

Lemma same_inputs_trans (w1 w2 w3 : World) :
  same_inputs w1 w2 -> same_inputs w2 w3 -> same_inputs w1 w3.
Proof.
  unfold same_inputs.
  intros (A1 & A2 & A3 & A4 & A5 & A6 & A7 & A8 & A9)
         (B1 & B2 & B3 & B4 & B5 & B6 & B7 & B8 & B9).
  repeat split; congruence.
Qed.

Lemma emit_change_inputs (pid : nat) (w : World) :
  same_inputs w (emit_change pid w).
Proof.
  destruct (emit_change_cases pid w) as [-> | (p & n & _ & _ & ->)];
    repeat split.
Qed.

Lemma emit_status_inputs (pid : nat) (s : jsstring) (w : World) :
  same_inputs w (emit_status pid s w).
Proof.
  destruct (emit_status_cases pid s w) as [-> | (p & n & _ & _ & ->)];
    repeat split.
Qed.

Lemma handleAwareness_inputs (pid : nat) (w : World) :
  same_inputs w (handleAwareness pid w).
Proof.
  unfold handleAwareness. destruct (nth_error (providers w) pid);
    repeat split.
Qed.

Lemma run_cleanup_inputs (w : World) : same_inputs w (run_cleanup w).
Proof.
  unfold run_cleanup. destruct (cleanup (hooks w)) as [[pid n]|];
    repeat split.
Qed.

Lemma session_effect_inputs (w : World) : same_inputs w (session_effect w).
Proof.
  unfold session_effect. destruct (provider (hooks w)) as [pid|];
    [|repeat split].
  eapply same_inputs_trans; [|repeat split].
  eapply same_inputs_trans; [|apply handleAwareness_inputs].
  eapply same_inputs_trans; [|repeat split].
  unfold setLocalStateField_user.
  eapply same_inputs_trans; [|apply emit_change_inputs].
  repeat split.
Qed.

Lemma opt_nat_eqb_eq (a b : option nat) : opt_nat_eqb a b = true -> a = b.
Proof.
  destruct a, b; cbn; try discriminate; auto.
  intros H. apply Nat.eqb_eq in H. now subst.
Qed.

Lemma effect_deps_eqb_eq (a : option (option nat * option nat))
    (b : option nat * option nat) :
  effect_deps_eqb a b = true -> a = Some b.
Proof.
  destruct a as [[p u]|], b as [p' u']; cbn; [|discriminate].
  intros H. apply andb_true_iff in H as [H1 H2].
  apply opt_nat_eqb_eq in H1, H2. now subst.
Qed.

Lemma provider_deps_eqb_eq (a : option (jsstring * jsstring))
    (b : jsstring * jsstring) :
  provider_deps_eqb a b = true -> a = Some b.
Proof.
  destruct a as [[r t]|], b as [r' t']; cbn; [|discriminate].
  intros H. apply andb_true_iff in H as [H1 H2].
  apply eqb_eq in H1, H2. now subst.
Qed.

Lemma invite_deps_eqb_refl (k : jsstring) (n : nat) :
  invite_deps_eqb (Some (k, n)) (k, n) = true.
Proof. cbn. now rewrite eqb_refl, Nat.eqb_refl. Qed.

(** The session effect keeps the invariant, and after it the recorded
    dependencies are the current ones. *)
Lemma run_session_effect_Inv (w : World) :
  Inv w ->
  Inv (run_session_effect w)
  /\ effectDeps (hooks (run_session_effect w))
     = Some (provider (hooks (run_session_effect w)),
             userDeps (hooks (run_session_effect w)))
  /\ provider (hooks (run_session_effect w)) = provider (hooks w)
  /\ providerDeps (hooks (run_session_effect w)) = providerDeps (hooks w)
  /\ same_inputs w (run_session_effect w).
Proof.
  intros HI. unfold run_session_effect.
  destruct (effect_deps_eqb _ _) eqn:E.
  { apply effect_deps_eqb_eq in E.
    split; [exact HI|]. split; [exact E|]. repeat split. }
  destruct (run_cleanup_detaches HI)
    as (Hd & Hc & Hl & Hp & Hpd & Hud & _ & Hr & _).
  pose proof (run_cleanup_inputs w) as Hin1.
  set (w1 := run_cleanup w) in *.
  pose proof (session_effect_spec Hd) as (Hcase & Hl2 & Hp2 & Hpd2 & Hud2).
  pose proof (session_effect_inputs w1) as Hin2.
  set (w2 := session_effect w1) in *.
  destruct HI as (_ & _ & Hm1 & Hm2 & Hm3).
  cbn [hooks set_effectDeps with_hooks effectDeps provider providerDeps userDeps].
  split; [|split; [congruence | split; [congruence | split; [congruence|]]]].
  - unfold Inv, observers_owned, idle_without_provider, provider_memo_ok.
    cbn [hooks set_effectDeps with_hooks effectDeps provider providerDeps
         userDeps cleanup providers react].
    rewrite Hp in Hcase.
    destruct (provider (hooks w)) as [pid|] eqn:Ep.
    + destruct Hcase as [Hcl Hobs].
      split; [|split; [|split; [|split]]].
      * intros pid' p' Hp' n Hn.
        destruct (Hobs pid' p' Hp' n Hn) as [-> ->]. now rewrite Hcl, Hr.
      * intros u H. inversion H.
      * intros r t H Ht. rewrite Hpd2, Hpd in H. rewrite Hp2, Hp.
        eauto.
      * intros pid' H. rewrite Hp2, Hp in H. rewrite Hl2, Hl. auto.
      * intros pid' n H. rewrite Hcl in H. inversion H; subst.
        rewrite Hl2, Hl. auto.
    + destruct Hcase as [Hidle Hdet].
      split; [|split; [|split; [|split]]].
      * intros pid' p' Hp' n Hn. destruct (Hdet pid' p' Hp') as [Hs Hcc].
        rewrite Hs, Hcc in Hn. destruct Hn as [[] | []].
      * intros u _. exact Hidle.
      * intros r t H Ht. rewrite Hp2, Hp. reflexivity.
      * intros pid' H. rewrite Hp2, Hp in H. discriminate.
      * intros pid' n H. destruct Hidle as (_ & _ & Hcl). congruence.
  - eapply same_inputs_trans; [exact Hin1|].
    eapply same_inputs_trans; [exact Hin2|]. repeat split.
Qed.

Section Commit.

Variable ucd_upper : N -> list N.

Lemma run_invite_effect_Inv (i : Inputs) (w : World) :
  Inv w ->
  Inv (run_invite_effect ucd_upper i w)
  /\ provider (hooks (run_invite_effect ucd_upper i w)) = provider (hooks w)
  /\ providerDeps (hooks (run_invite_effect ucd_upper i w))
     = providerDeps (hooks w)
  /\ effectDeps (hooks (run_invite_effect ucd_upper i w)) = effectDeps (hooks w)
  /\ userDeps (hooks (run_invite_effect ucd_upper i w)) = userDeps (hooks w).
Proof.
  intros HI. unfold run_invite_effect.
  destruct (invite_deps_eqb _ _); [split; [exact HI | repeat split]|].
  set (w1 := set_inviteDeps _ w).
  assert (H1 : Inv w1)
    by (apply (Inv_cells (w := w)); [repeat split | repeat split | exact HI]).
  destruct (invite_effect_frame ucd_upper i w1) as ((Hp & Hh) & Hv & _).
  split; [exact (Inv_same (conj Hp Hh) Hv H1)|].
  rewrite Hh. repeat split.
Qed.

Lemma commit_Inv (i : Inputs) (w : World) :
  Inv w -> Inv (commit ucd_upper i w).
Proof.
  intros HI. unfold commit.
  apply run_invite_effect_Inv, run_session_effect_Inv, render_provider_Inv,
    render_user_Inv, HI.
Qed.

Lemma settle_Inv (i : Inputs) (w : World) :
  Inv w -> Inv (settle ucd_upper i w).
Proof. intros HI. unfold settle. now apply commit_Inv, commit_Inv. Qed.

(** *** After two renders the memo cells are up to date *)

Lemma render_user_inputs (i : Inputs) (w : World) :
  same_inputs w (render_user i w).
Proof. unfold render_user. destruct (opt_nat_eqb _ _); repeat split. Qed.

Lemma render_provider_inputs (i : Inputs) (w : World) :
  same_inputs w (render_provider i w)
  /\ providerDeps (hooks (render_provider i w))
     = Some (roomId (react w), token w).
Proof.
  unfold render_provider. destruct (provider_deps_eqb _ _) eqn:E.
  - apply provider_deps_eqb_eq in E. split; [repeat split | exact E].
  - destruct (_ || _); repeat split.
Qed.

Lemma token_same (w w' : World) :
  session (react w') = session (react w) -> token w' = token w.
Proof. unfold token. now intros ->. Qed.

Lemma run_invite_effect_quiet (i : Inputs) (w : World) :
  quiet (run_invite_effect ucd_upper i w).
Proof.
  unfold run_invite_effect.
  destruct (invite_deps_eqb _ _) eqn:E.
  { left. destruct (inviteDeps (hooks w)) as [[k n]|]; [|discriminate].
    cbn in E. apply andb_true_iff in E as [E1 E2].
    apply eqb_eq in E1. apply Nat.eqb_eq in E2. now subst. }
  set (w1 := set_inviteDeps _ w).
  unfold invite_effect.
  destruct (truthy (inviteKey (react w1))) eqn:Et; cbn [negb].
  2:{ left. reflexivity. }
  destruct (session (react w1)) eqn:Es; [|left; reflexivity].
  destruct (joinRoomByKey_inv ucd_upper (inviteKey (react w1)) i 2 w1)
    as [_ -> | s _ _ _ -> | s e _ _ _ _ -> | s r d1 _ _ _ _ ->];
    try (left; reflexivity).
  right. reflexivity.
Qed.

Lemma run_invite_effect_synced (i : Inputs) (w : World) :
  quiet w -> synced w -> synced (run_invite_effect ucd_upper i w).
Proof.
  intros Hq Hs. unfold run_invite_effect.
  destruct (invite_deps_eqb _ _) eqn:E; [exact Hs|].
  destruct Hq as [Hq | Hq].
  { rewrite Hq, invite_deps_eqb_refl in E. discriminate. }
  unfold invite_effect. cbn [react set_inviteDeps with_hooks inviteKey].
  rewrite Hq. cbn [truthy negb]. exact Hs.
Qed.

Lemma commit_quiet (i : Inputs) (w : World) : quiet (commit ucd_upper i w).
Proof. apply run_invite_effect_quiet. Qed.

Lemma commit_synced (i : Inputs) (w : World) :
  Inv w -> quiet w -> synced (commit ucd_upper i w).
Proof.
  intros HI Hq. unfold commit.
  pose proof (render_user_Inv i HI) as HI1.
  pose proof (render_user_inputs i w) as Hin1.
  set (w1 := render_user i w) in *.
  pose proof (render_provider_Inv i HI1) as HI2.
  destruct (render_provider_inputs i w1) as [Hin2 Hpd].
  set (w2 := render_provider i w1) in *.
  destruct (run_session_effect_Inv HI2) as (_ & Hed & _ & Hpd3 & Hin3).
  set (w3 := run_session_effect w2) in *.
  pose proof (same_inputs_trans Hin1 (same_inputs_trans Hin2 Hin3))
    as (A1 & A2 & A3 & A4 & A5 & _).
  destruct Hin3 as (B1 & _ & B3 & _). destruct Hin2 as (C1 & _ & C3 & _).
  apply run_invite_effect_synced.
  - unfold quiet. rewrite A5, A4, A2. exact Hq.
  - split; [|exact Hed].
    rewrite Hpd3, Hpd, B3, C3.
    rewrite (token_same _ _ B1), (token_same _ _ C1). reflexivity.
Qed.

Lemma settle_synced (i : Inputs) (w : World) :
  Inv w -> synced (settle ucd_upper i w).
Proof.
  intros HI. unfold settle.
  apply commit_synced; [now apply commit_Inv | apply commit_quiet].
Qed.

End Commit.

(** *** Settled states *)

Section Reachable.

Variable ucd_upper : N -> list N.
Variable parse_url : jsstring -> option URL.

Lemma opt_nat_eqb_refl (a : option nat) : opt_nat_eqb a a = true.
Proof. destruct a; cbn; [apply Nat.eqb_refl | reflexivity]. Qed.

Lemma stable_commit (i : Inputs) (w : World) :
  stable w -> commit ucd_upper i w = w.
Proof.
  intros ((Hpd & Hed) & Hid & Hud). unfold commit.
  assert (H1 : render_user i w = w).
  { unfold render_user. now rewrite Hud, opt_nat_eqb_refl. }
  rewrite H1.
  assert (H2 : render_provider i w = w).
  { unfold render_provider. rewrite Hpd. cbn [provider_deps_eqb fst snd].
    now rewrite !eqb_refl. }
  rewrite H2.
  assert (H3 : run_session_effect w = w).
  { unfold run_session_effect. rewrite Hed. cbn [effect_deps_eqb fst snd].
    now rewrite !opt_nat_eqb_refl. }
  rewrite H3.
  unfold run_invite_effect. now rewrite Hid, invite_deps_eqb_refl.
Qed.

Lemma render_user_userDeps (i : Inputs) (w : World) :
  userDeps (hooks (render_user i w)) = Some (sessionStamp (react w)).
Proof.
  unfold render_user. destruct (opt_nat_eqb _ _) eqn:E; [|reflexivity].
  now apply opt_nat_eqb_eq in E.
Qed.

Lemma render_provider_userDeps (i : Inputs) (w : World) :
  userDeps (hooks (render_provider i w)) = userDeps (hooks w).
Proof.
  unfold render_provider. destruct (provider_deps_eqb _ _); [reflexivity|].
  destruct (_ || _); reflexivity.
Qed.

Lemma run_session_effect_userDeps (w : World) :
  userDeps (hooks (run_session_effect w)) = userDeps (hooks w).
Proof.
  unfold run_session_effect. destruct (effect_deps_eqb _ _); [reflexivity|].
  cbn [hooks set_effectDeps with_hooks userDeps].
  unfold session_effect.
  assert (Hc : userDeps (hooks (run_cleanup w)) = userDeps (hooks w)).
  { unfold run_cleanup. destruct (cleanup (hooks w)) as [[pid n]|]; reflexivity. }
  destruct (provider (hooks (run_cleanup w))) as [pid|]; [|exact Hc].
  cbn [hooks set_cleanup with_hooks userDeps].
  destruct (handleAwareness_store pid
              (on_change (effectRuns (hooks (run_cleanup w))) pid
                 (setLocalStateField_user pid (user (hooks (run_cleanup w)))
                    (on_status (effectRuns (hooks (run_cleanup w))) pid
                       (setStatus (js "connecting") (run_cleanup w))))))
    as ((_ & Hh) & _).
  rewrite Hh. cbn [hooks on_change with_providers].
  unfold setLocalStateField_user.
  match goal with
  | |- context [emit_change pid ?x] =>
      destruct (emit_change_store pid x) as ((_ & Hh2) & _); rewrite Hh2
  end.
  exact Hc.
Qed.

Lemma commit_userDeps (i : Inputs) (w : World) :
  userDeps (hooks (commit ucd_upper i w))
  = Some (sessionStamp (react (commit ucd_upper i w))).
Proof.
  unfold commit.
  set (w3 := run_session_effect (render_provider i (render_user i w))).
  assert (H3 : userDeps (hooks w3) = Some (sessionStamp (react w3))).
  { unfold w3. rewrite run_session_effect_userDeps, render_provider_userDeps,
      render_user_userDeps.
    pose proof (render_user_inputs i w) as (_ & A & _).
    destruct (render_provider_inputs i (render_user i w)) as ((_ & B & _) & _).
    assert (C : sessionStamp (react (run_session_effect
                  (render_provider i (render_user i w))))
                = sessionStamp (react (render_provider i (render_user i w)))).
    { unfold run_session_effect. destruct (effect_deps_eqb _ _); [reflexivity|].
      pose proof (run_cleanup_inputs (render_provider i (render_user i w)))
        as (_ & C1 & _).
      pose proof (session_effect_inputs
                    (run_cleanup (render_provider i (render_user i w))))
        as (_ & C2 & _).
      cbn [react set_effectDeps with_hooks]. congruence. }
    congruence. }
  unfold run_invite_effect. destruct (invite_deps_eqb _ _); [exact H3|].
  destruct (invite_effect_frame ucd_upper i
              (set_inviteDeps (Some (inviteKey (react w3), sessionStamp (react w3)))
                 w3)) as ((_ & Hh) & _ & _ & Hst & _).
  rewrite Hh, Hst. exact H3.
Qed.

Lemma run_invite_effect_settled (i : Inputs) (w : World) :
  quiet w ->
  inviteDeps (hooks (run_invite_effect ucd_upper i w))
  = Some (inviteKey (react (run_invite_effect ucd_upper i w)),
          sessionStamp (react (run_invite_effect ucd_upper i w))).
Proof.
  intros Hq. unfold run_invite_effect.
  destruct (invite_deps_eqb _ _) eqn:E.
  { destruct (inviteDeps (hooks w)) as [[k n]|]; [|discriminate].
    cbn in E. apply andb_true_iff in E as [E1 E2].
    apply eqb_eq in E1. apply Nat.eqb_eq in E2. now subst. }
  destruct Hq as [Hq | Hq].
  { rewrite Hq, invite_deps_eqb_refl in E. discriminate. }
  unfold invite_effect. cbn [react set_inviteDeps with_hooks inviteKey].
  rewrite Hq. cbn [truthy negb].
  cbn [hooks set_inviteDeps with_hooks inviteDeps react inviteKey sessionStamp].
  now rewrite Hq.
Qed.

Lemma commit_quiet_inputs (i : Inputs) (w : World) :
  quiet w ->
  quiet (run_session_effect (render_provider i (render_user i w))).
Proof.
  intros Hq.
  pose proof (render_user_inputs i w) as H1.
  destruct (render_provider_inputs i (render_user i w)) as [H2 _].
  assert (H3 : same_inputs (render_provider i (render_user i w))
                 (run_session_effect (render_provider i (render_user i w)))).
  { unfold run_session_effect. destruct (effect_deps_eqb _ _);
      [apply same_inputs_refl|].
    eapply same_inputs_trans; [apply run_cleanup_inputs|].
    eapply same_inputs_trans; [apply session_effect_inputs|]. repeat split. }
  pose proof (same_inputs_trans H1 (same_inputs_trans H2 H3))
    as (_ & A2 & _ & A4 & A5 & _).
  unfold quiet. rewrite A5, A4, A2. exact Hq.
Qed.

Lemma settle_stable (i : Inputs) (w : World) :
  Inv w -> stable (settle ucd_upper i w).
Proof.
  intros HI. split; [now apply settle_synced|].
  split; [|apply commit_userDeps].
  unfold settle. unfold commit at 1.
  apply run_invite_effect_settled, commit_quiet_inputs, commit_quiet.
Qed.

Lemma step_Inv_stable (w : World) (ie : Inputs * Event) :
  Inv w -> Inv (step ucd_upper parse_url w ie)
           /\ stable (step ucd_upper parse_url w ie).
Proof.
  intros HI. pose proof (handle_Inv ucd_upper parse_url (fst ie) (snd ie) HI).
  split; [now apply settle_Inv | now apply settle_stable].
Qed.

Lemma fold_left_cons {A B : Type} (f : A -> B -> A) (x : B) (l : list B)
    (a : A) :
  fold_left f (x :: l) a = fold_left f l (f a x).
Proof. reflexivity. Qed.

Lemma fold_step_Inv_stable (trace : list (Inputs * Event)) (w : World) :
  Inv w /\ stable w ->
  Inv (fold_left (step ucd_upper parse_url) trace w)
  /\ stable (fold_left (step ucd_upper parse_url) trace w).
Proof.
  revert w. induction trace as [|ie trace IH]; intros w Hw; [exact Hw|].
  destruct Hw as [HI _]. rewrite fold_left_cons.
  apply IH. apply step_Inv_stable. exact HI.
Qed.

Lemma mount_Inv_stable (i0 : Inputs) (h : History) (c : bool) (d : Database) :
  Inv (mount ucd_upper i0 h c d) /\ stable (mount ucd_upper i0 h c d).
Proof.
  pose proof (initial_Inv h c d) as H.
  split; [exact (settle_Inv ucd_upper i0 H) | exact (settle_stable i0 H)].
Qed.

(** The states the page goes through: it is loaded, then events arrive. *)
Lemma run_Inv_stable (i0 : Inputs) (h : History) (c : bool) (d : Database)
    (trace : list (Inputs * Event)) :
  Inv (run ucd_upper parse_url (mount ucd_upper i0 h c d) trace)
  /\ stable (run ucd_upper parse_url (mount ucd_upper i0 h c d) trace).
Proof.
  exact (fold_step_Inv_stable trace (mount_Inv_stable i0 h c d)).
Qed.

End Reachable.

(** *** Idle state and teardown *)

Section Controller.

Variable ucd_upper : N -> list N.
Variable parse_url : jsstring -> option URL.

Lemma transport_on_detached (i : Inputs) (e : Event) (pid : nat) (w : World) :
  source e = Some pid ->
  (forall p, nth_error (providers w) pid = Some p -> detached p) ->
  observable (handle ucd_upper parse_url i e w) = observable w
  /\ hooks (handle ucd_upper parse_url i e w) = hooks w
  /\ react (handle ucd_upper parse_url i e w) = react w
  /\ (all_detached w -> all_detached (handle ucd_upper parse_url i e w)).
Proof.
  intros Hsrc Hd. destruct e; try discriminate; cbn in Hsrc;
    inversion Hsrc; subst; cbn [handle].
  - rewrite detached_no_status by assumption. auto.
  - set (w0 := with_providers _ w).
    assert (Hd0 : forall p, nth_error (providers w0) pid = Some p -> detached p).
    { intros p' Hp'.
      destruct (set_states_observers _ _ _ _ Hp') as (p & Hp & Hs & Hc).
      destruct (Hd p Hp) as [H1 H2]. split; congruence. }
    rewrite detached_no_change by assumption.
    split; [reflexivity | split; [reflexivity | split; [reflexivity|]]].
    intros Hall pid' p' Hp'.
    destruct (set_states_observers _ _ _ _ Hp') as (p & Hp & Hs & Hc).
    destruct (Hall pid' p Hp) as [H1 H2]. split; congruence.
Qed.

Lemma transports_on_all_detached (i : Inputs) (evs : list Event) (w : World) :
  Forall (fun e => source e <> None) evs -> all_detached w ->
  observable (fold_left (fun w' e => handle ucd_upper parse_url i e w') evs w)
  = observable w.
Proof.
  intros Hevs. revert w. induction Hevs as [|e evs He _ IH]; intros w Hd;
    [reflexivity|].
  rewrite fold_left_cons.
  destruct (source e) as [pid|] eqn:Es; [|congruence].
  destruct (@transport_on_detached i e pid w Es (Hd pid)) as (Ho & _ & _ & Hall).
  rewrite IH by auto. exact Ho.
Qed.

(** C6: in every state the page reaches, if the token is empty or no room
    is selected, then there is no provider, no cleanup is pending, no
    listener is registered on any provider constructed earlier, the status
    shown is [disconnected] and the list of participants is empty.
    Rendering in such a state constructs no provider. *)
Theorem idle_without_token_or_room
    (i0 : Inputs) (h : History) (c : bool) (d : Database)
    (trace : list (Inputs * Event)) :
  token (run ucd_upper parse_url (mount ucd_upper i0 h c d) trace) = []
  \/ roomId (react (run ucd_upper parse_url (mount ucd_upper i0 h c d) trace))
     = [] ->
  provider (hooks (run ucd_upper parse_url (mount ucd_upper i0 h c d) trace))
  = None
  /\ cleanup (hooks (run ucd_upper parse_url (mount ucd_upper i0 h c d) trace))
     = None
  /\ all_detached (run ucd_upper parse_url (mount ucd_upper i0 h c d) trace)
  /\ status (react (run ucd_upper parse_url (mount ucd_upper i0 h c d) trace))
     = js "disconnected"
  /\ users (react (run ucd_upper parse_url (mount ucd_upper i0 h c d) trace))
     = []
  /\ forall i : Inputs,
       providers (render_provider i
                    (run ucd_upper parse_url (mount ucd_upper i0 h c d) trace))
       = providers (run ucd_upper parse_url (mount ucd_upper i0 h c d) trace).
Proof.
  destruct (run_Inv_stable ucd_upper parse_url i0 h c d trace)
    as ((Ho & Hi & Hm1 & _) & (Hpd & Hed) & _).
  generalize dependent (run ucd_upper parse_url (mount ucd_upper i0 h c d) trace).
  intros w Ho Hi Hm1 Hpd Hed Hempty.
  assert (Hp : provider (hooks w) = None).
  { apply (Hm1 _ _ Hpd). destruct Hempty as [-> | ->]; auto. }
  rewrite Hp in Hed. destruct (Hi _ Hed) as (Hs & Hu & Hc).
  split; [exact Hp | split; [exact Hc | split; [|split; [exact Hs|]]]].
  - now apply owned_idle_detached.
  - split; [exact Hu|].
    intros i. unfold render_provider.
    destruct (provider_deps_eqb _ _); [reflexivity|].
    replace (negb (truthy (token w)) || negb (truthy (roomId (react w))))
      with true; [reflexivity|].
    destruct Hempty as [-> | ->]; cbn;
      [reflexivity | symmetry; apply orb_true_r].
Qed.

(** The cleanup on its own: take any state the page reaches in which a
    session is live, and run the cleanup of the session effect.  Then no listener is
    registered on any provider, the provider of the session is destroyed,
    and no sequence of status and awareness events, from that provider or
    any other, changes the status or the participants shown.  Moreover, in
    every state the page reaches, an event from a provider that is not the
    one of the live session changes neither, also after the render that
    follows the event; and the only listeners registered on any provider
    are those of the live session. *)
Theorem no_callback_after_teardown
    (i0 : Inputs) (h : History) (c : bool) (d : Database)
    (trace : list (Inputs * Event)) :
  (forall (pid : nat) (p : WebsocketProvider) (n : nat),
      nth_error
        (providers (run ucd_upper parse_url (mount ucd_upper i0 h c d) trace))
        pid = Some p ->
      In n (status_observers p) \/ In n (change_observers p) ->
      cleanup (hooks (run ucd_upper parse_url (mount ucd_upper i0 h c d) trace))
      = Some (pid, n))
  /\ (forall pid n : nat,
      cleanup (hooks (run ucd_upper parse_url (mount ucd_upper i0 h c d) trace))
      = Some (pid, n) ->
      all_detached
        (run_cleanup (run ucd_upper parse_url (mount ucd_upper i0 h c d) trace))
      /\ (exists p,
             nth_error
               (providers
                  (run_cleanup
                     (run ucd_upper parse_url (mount ucd_upper i0 h c d) trace)))
               pid = Some p
             /\ destroyed p = true /\ detached p)
      /\ forall (i : Inputs) (evs : list Event),
           Forall (fun e => source e <> None) evs ->
           observable
             (fold_left (fun w' e => handle ucd_upper parse_url i e w') evs
                (run_cleanup
                   (run ucd_upper parse_url (mount ucd_upper i0 h c d) trace)))
           = observable
               (run_cleanup
                  (run ucd_upper parse_url (mount ucd_upper i0 h c d) trace)))
  /\ (forall (pid : nat) (i : Inputs) (e : Event),
         source e = Some pid ->
         (forall n,
             cleanup (hooks (run ucd_upper parse_url
                               (mount ucd_upper i0 h c d) trace))
             <> Some (pid, n)) ->
         observable
           (handle ucd_upper parse_url i e
              (run ucd_upper parse_url (mount ucd_upper i0 h c d) trace))
         = observable (run ucd_upper parse_url (mount ucd_upper i0 h c d) trace)
         /\ observable
              (step ucd_upper parse_url
                 (run ucd_upper parse_url (mount ucd_upper i0 h c d) trace)
                 (i, e))
            = observable
                (run ucd_upper parse_url (mount ucd_upper i0 h c d) trace)).
Proof.
  destruct (run_Inv_stable ucd_upper parse_url i0 h c d trace) as (HI & Hst).
  generalize dependent (run ucd_upper parse_url (mount ucd_upper i0 h c d) trace).
  intros w HI Hst. split; [|split].
  - intros pid p n Hp Hn. destruct HI as (Ho & _). exact (Ho pid p Hp n Hn).
  - intros pid n Hc.
    destruct (run_cleanup_detaches HI) as (Hd & _).
    split; [exact Hd | split].
    + destruct HI as (_ & _ & _ & _ & Hlen). specialize (Hlen pid n Hc).
      destruct (nth_error (providers w) pid) as [p|] eqn:Hp.
      2:{ apply nth_error_None in Hp. lia. }
      assert (Hp' : nth_error (providers (run_cleanup w)) pid
                    = Some {| roomname := roomname p;
                              params_token := params_token p;
                              clientID := clientID p;
                              status_observers := [];
                              change_observers :=
                                remove_nat n (change_observers p);
                              states := states p; destroyed := true |}).
      { unfold run_cleanup. rewrite Hc. cbn.
        rewrite !nth_error_update_nth, Nat.eqb_refl, Hp. reflexivity. }
      eexists. split; [exact Hp' | split; [reflexivity|]].
      exact (Hd pid _ Hp').
    + intros i evs Hevs. now apply transports_on_all_detached.
  - intros pid i e Hsrc Hlive.
    assert (Hd : forall p, nth_error (providers w) pid = Some p -> detached p).
    { intros p Hp. destruct HI as (Ho & _).
      split.
      - destruct (status_observers p) as [|n l] eqn:E; [reflexivity|].
        exfalso. apply (Hlive n), (Ho pid p Hp). left. rewrite E. now left.
      - destruct (change_observers p) as [|n l] eqn:E; [reflexivity|].
        exfalso. apply (Hlive n), (Ho pid p Hp). right. rewrite E. now left. }
    destruct (@transport_on_detached i e pid w Hsrc Hd) as (Hobs & Hh & Hr & _).
    split; [exact Hobs|].
    unfold step, settle. cbn [fst snd].
    assert (Hst' : stable (handle ucd_upper parse_url i e w)).
    { destruct Hst as ((A & B) & C & D).
      unfold stable, synced, token. rewrite Hh, Hr. repeat split; assumption. }
    rewrite !(stable_commit ucd_upper i Hst'). exact Hobs.
Qed.

End Controller.

Import Examples.

Lemma idle_without_token_or_room_witness :
  status (react (run ascii_only_upper parse_links
                   (mount ascii_only_upper (inputs 0%N) room_page true Db.empty)
                   signed_out_trace))
  = js "disconnected".
Proof.
  refine (proj1 (proj2 (proj2 (proj2
    (@idle_without_token_or_room ascii_only_upper parse_links (inputs 0%N)
       room_page true Db.empty signed_out_trace _))))).
  left. vm_compute. reflexivity.
Defined.

Lemma no_callback_after_teardown_witness :
  observable
    (fold_left (fun w' e => handle ascii_only_upper parse_links (inputs 0%N) e w')
       [TransportStatus 0 (js "connected");
        AwarenessChange 0 [(9%N, {| aw_user := Some {| name := js "eve";
                                                       color := None |} |})]]
       (run_cleanup
          (run ascii_only_upper parse_links
             (mount ascii_only_upper (inputs 0%N) room_page true Db.empty)
             live_trace)))
  = observable
      (run_cleanup
         (run ascii_only_upper parse_links
            (mount ascii_only_upper (inputs 0%N) room_page true Db.empty)
            live_trace)).
Proof.
  refine (proj2 (proj2 (proj1 (proj2
    (@no_callback_after_teardown ascii_only_upper parse_links (inputs 0%N)
       room_page true Db.empty live_trace)) 0%nat 0%nat _)) (inputs 0%N) _ _).
  - vm_compute. reflexivity.
  - repeat constructor; discriminate.
Defined.

(** While the session is live the same events are seen: the theorem above
    is about the cleanup, not about events being ignored throughout. *)
Example status_event_seen_while_live :
  status (react (handle ascii_only_upper parse_links (inputs 0%N)
                   (TransportStatus 0 (js "connected"))
                   (run ascii_only_upper parse_links
                      (mount ascii_only_upper (inputs 0%N) room_page true
                         Db.empty)
                      live_trace)))
  = js "connected".
Proof. vm_compute. reflexivity. Qed.

End SessionFacts.

(** ** Invites *)

Module InviteFacts.

Import JSFacts Db DbFacts Url App Directory HandlerFacts UrlFacts Examples.

(** C8, as the claim states it, fails on a blank input: nothing is
    delegated to [joinRoomByKey], which would have answered
    [Enter a room key]; and on a link whose [invite] value is empty the
    key is the link itself, not that value. *)
Lemma joinByInvite_blank_input_is_not_delegated :
  handleJoinByInvite ascii_only_upper parse_links (inputs 0%N)
    (setInviteInput (js "   ") (signed_in bob alice_room_db))
  <> joinRoomByKey ascii_only_upper
       (spec_invite_key parse_links (trim (js "   "))) (inputs 0%N) 0
       (setInviteInput (js "   ") (signed_in bob alice_room_db))
  /\ roomError (react (handleJoinByInvite ascii_only_upper parse_links
                         (inputs 0%N)
                         (setInviteInput (js "   ")
                            (signed_in bob alice_room_db))))
     = js "Enter an invite link or key"
  /\ spec_invite_key parse_links empty_invite_link = []
  /\ invite_keyValue parse_links empty_invite_link = empty_invite_link.
Proof.
  split; [|repeat split].
  intros H.
  apply (f_equal (fun w => roomError (react w))) in H.
  vm_compute in H. discriminate H.
Qed.

(** C8, amended: when the input, trimmed, is not empty, the handler is
    [joinRoomByKey] on the key taken from it: the [invite] value when the
    trimmed input parses as a URL that has a non-empty one, the trimmed
    input itself when parsing fails or the value is absent or empty.  When
    the trimmed input is empty the handler only sets the error
    [Enter an invite link or key]. *)
Theorem joinByInvite_delegates
    (ucd_upper : N -> list N) (parse_url : jsstring -> option URL)
    (i : Inputs) (w : World) :
  (trim (inviteInput (react w)) <> [] ->
   handleJoinByInvite ucd_upper parse_url i w
   = joinRoomByKey ucd_upper
       (invite_keyValue parse_url (trim (inviteInput (react w)))) i 0 w)
  /\ (trim (inviteInput (react w)) = [] ->
      handleJoinByInvite ucd_upper parse_url i w
      = setRoomError (js "Enter an invite link or key") w)
  /\ (forall trimmed : jsstring,
         (parse_url trimmed = None ->
          invite_keyValue parse_url trimmed = trimmed)
         /\ (forall url,
                parse_url trimmed = Some url ->
                get (js "invite") (searchParams url) = None ->
                invite_keyValue parse_url trimmed = trimmed)
         /\ (forall url,
                parse_url trimmed = Some url ->
                get (js "invite") (searchParams url) = Some [] ->
                invite_keyValue parse_url trimmed = trimmed)
         /\ (forall url v,
                parse_url trimmed = Some url ->
                get (js "invite") (searchParams url) = Some v -> v <> [] ->
                invite_keyValue parse_url trimmed = v)).
Proof.
  split; [|split].
  - intros Hne. unfold handleJoinByInvite.
    destruct (truthy (trim (inviteInput (react w)))) eqn:E; [reflexivity|].
    apply truthy_false in E. contradiction.
  - intros He. unfold handleJoinByInvite. now rewrite He.
  - intros trimmed. unfold invite_keyValue. repeat split.
    + now intros ->.
    + now intros url -> ->.
    + now intros url -> ->.
    + intros url v -> -> Hv. unfold or_else.
      destruct v; [contradiction | reflexivity].
Qed.

Lemma joinByInvite_delegates_witness :
  handleJoinByInvite ascii_only_upper parse_links (inputs 0%N)
    (setInviteInput (js "  https://editor.example/?invite=XYZ987 ")
       (signed_in bob alice_room_db))
  = joinRoomByKey ascii_only_upper (js "XYZ987") (inputs 0%N) 0
      (setInviteInput (js "  https://editor.example/?invite=XYZ987 ")
         (signed_in bob alice_room_db)).
Proof.
  refine (proj1 (@joinByInvite_delegates ascii_only_upper parse_links
                   (inputs 0%N)
                   (setInviteInput (js "  https://editor.example/?invite=XYZ987 ")
                      (signed_in bob alice_room_db))) _).
  vm_compute. discriminate.
Defined.

(** C2, as the claim states it, fails when the attempt fails: Bob opens
    [/?invite=XYZ987&theme=dark#top] and signs in, no room has that key,
    one lookup is made and answered with [room-not-found], and the
    parameter [invite] is still in the address; a second session object
    from the identity provider then makes the effect send a second
    lookup. *)
Lemma invite_kept_after_failed_auto_join :
  requests (run ascii_only_upper parse_links
              (mount ascii_only_upper (inputs 0%N) invited_page true
                 alice_room_db)
              [(inputs 0%N, AuthStateChange (Some bob))])
  = [RpcJoinRoomByKey (js "XYZ987")]
  /\ roomError (react (run ascii_only_upper parse_links
                         (mount ascii_only_upper (inputs 0%N) invited_page true
                            alice_room_db)
                         [(inputs 0%N, AuthStateChange (Some bob))]))
     = js "room-not-found"
  /\ get (js "invite")
       (searchParams (current (history
          (run ascii_only_upper parse_links
             (mount ascii_only_upper (inputs 0%N) invited_page true
                alice_room_db)
             [(inputs 0%N, AuthStateChange (Some bob))]))))
     = Some (js "XYZ987")
  /\ requests (run ascii_only_upper parse_links
                 (mount ascii_only_upper (inputs 0%N) invited_page true
                    alice_room_db)
                 [(inputs 0%N, AuthStateChange (Some bob));
                  (inputs 0%N, AuthStateChange (Some bob))])
     = [RpcJoinRoomByKey (js "XYZ987"); RpcJoinRoomByKey (js "XYZ987")].
Proof. vm_compute. repeat split. Qed.

(** C2, amended: when the invite effect runs for a signed-in principal
    with a pending invite whose normal form is not empty, one lookup is
    sent.  If it succeeds, the address has no [invite] parameter any more,
    the pending invite is cleared and the room is selected, so the effect
    sends nothing when it runs again.  If it fails, the address and the
    pending invite are as they were and the error is shown. *)
Theorem invite_cleared_after_successful_auto_join
    (ucd_upper : N -> list N) (i : Inputs) (w : World) (s : AuthSession) :
  supabase w = true -> session (react w) = Some s ->
  normalizeKey ucd_upper (inviteKey (react w)) <> [] ->
  requests (invite_effect ucd_upper i w)
  = requests w ++ [RpcJoinRoomByKey (normalizeKey ucd_upper (inviteKey (react w)))]
  /\ (forall r d1,
         join_room_by_key (normalizeKey ucd_upper (inviteKey (react w)))
           (session_user_id s) (server i 2) (db w) = inr (r, d1) ->
         get (js "invite")
           (searchParams (current (history (invite_effect ucd_upper i w))))
         = None
         /\ getInviteFromUrl (history (invite_effect ucd_upper i w)) = []
         /\ inviteKey (react (invite_effect ucd_upper i w)) = []
         /\ roomId (react (invite_effect ucd_upper i w)) = uuid_text r
         /\ forall i', invite_effect ucd_upper i' (invite_effect ucd_upper i w)
                       = invite_effect ucd_upper i w)
  /\ (forall e,
         join_room_by_key (normalizeKey ucd_upper (inviteKey (react w)))
           (session_user_id s) (server i 2) (db w) = inl e ->
         history (invite_effect ucd_upper i w) = history w
         /\ inviteKey (react (invite_effect ucd_upper i w))
            = inviteKey (react w)
         /\ roomError (react (invite_effect ucd_upper i w)) = message e).
Proof.
  intros Hsup Hses Hne.
  assert (Ht : truthy (inviteKey (react w)) = true).
  { destruct (inviteKey (react w)) as [|c k] eqn:E; [|reflexivity].
    exfalso. apply Hne. unfold normalizeKey. reflexivity. }
  unfold invite_effect. rewrite Ht, Hses. cbn [negb].
  destruct (joinRoomByKey_inv ucd_upper (inviteKey (react w)) i 2 w)
    as [[H | H] _ | s' _ _ Hb _ | s' e _ Hss _ Hj -> | s' r d1 _ Hss _ Hj ->];
    try congruence.
  - assert (s' = s) by congruence. subst s'.
    split; [reflexivity|]. split; [intros; congruence|].
    intros e' He'. repeat split. cbn. congruence.
  - assert (s' = s) by congruence. subst s'.
    split; [reflexivity|]. split; [|intros; congruence].
    intros r' d1' Hj'. assert (r' = r) by congruence. subst r'.
    destruct (updateRoomInUrl_invite_absent (uuid_text r) (history w))
      as (Hg & Hgi).
    split; [exact Hg | split; [exact Hgi | repeat split]].
Qed.

Lemma invite_cleared_after_successful_auto_join_witness :
  get (js "invite")
    (searchParams (current (history
       (invite_effect ascii_only_upper (inputs 0%N)
          (signed_in_at valid_invite_page bob alice_room_db)))))
  = None.
Proof.
  destruct (@invite_cleared_after_successful_auto_join ascii_only_upper
              (inputs 0%N) (signed_in_at valid_invite_page bob alice_room_db)
              bob eq_refl eq_refl) as (_ & H & _).
  - vm_compute. discriminate.
  - eapply H. vm_compute. reflexivity.
Defined.

End InviteFacts.

(** * Further properties *)

(** ** Strings, keys and colours *)

Module MoreStrings.

Import JSFacts Db Url App Directory HandlerFacts Keys Examples.

(** *** trim *)

Lemma trimStart_no_leading_space (s : jsstring) :
  no_leading_space (trimStart s).
Proof.
  induction s as [|c s IH]; cbn [trimStart]; [exact I|].
  destruct (is_white_space c) eqn:E; [exact IH | exact E].
Qed.

Lemma trimStart_fixed (s : jsstring) : no_leading_space s -> trimStart s = s.
Proof. destruct s as [|c s]; cbn; [reflexivity | now intros ->]. Qed.

(** [trimStart] removes a prefix of whitespace. *)
Lemma trimStart_suffix (s : jsstring) :
  exists ws, whitespace ws /\ s = ws ++ trimStart s.
Proof.
  induction s as [|c s (ws & Hws & IH)]; cbn [trimStart].
  - exists []. split; [constructor | reflexivity].
  - destruct (is_white_space c) eqn:E.
    + exists (c :: ws). split; [now constructor | cbn; now rewrite <- IH].
    + exists []. split; [constructor | reflexivity].
Qed.

Lemma trim_no_space_at_ends (s : jsstring) :
  no_leading_space (trim s) /\ no_trailing_space (trim s).
Proof.
  unfold trim, trimEnd, no_trailing_space. rewrite rev_involutive.
  split; [|apply trimStart_no_leading_space].
  pose proof (trimStart_no_leading_space s) as Ha.
  destruct (trimStart_suffix (rev (trimStart s))) as (ws & _ & Hs).
  apply (f_equal (@rev N)) in Hs. rewrite rev_involutive, rev_app_distr in Hs.
  destruct (rev (trimStart (rev (trimStart s)))) as [|c l]; [exact I|].
  rewrite Hs in Ha. exact Ha.
Qed.

Lemma trim_fixed (s : jsstring) :
  no_leading_space s -> no_trailing_space s -> trim s = s.
Proof.
  intros H1 H2. unfold trim, trimEnd.
  rewrite (trimStart_fixed s H1), (trimStart_fixed (rev s) H2).
  apply rev_involutive.
Qed.

Lemma trim_idempotent (s : jsstring) : trim (trim s) = trim s.
Proof. destruct (trim_no_space_at_ends s). now apply trim_fixed. Qed.

Lemma Forall_trimStart (P : N -> Prop) (s : jsstring) :
  Forall P s -> Forall P (trimStart s).
Proof.
  induction 1 as [|c s Hc Hs IH]; cbn [trimStart]; [constructor|].
  destruct (is_white_space c); [exact IH | now constructor].
Qed.

Lemma Forall_trim (P : N -> Prop) (s : jsstring) :
  Forall P s -> Forall P (trim s).
Proof.
  intros H. unfold trim, trimEnd.
  apply Forall_rev, Forall_trimStart, Forall_rev, Forall_trimStart, H.
Qed.

Lemma trimStart_map (f : N -> N) (s : jsstring) :
  (forall c, is_white_space (f c) = is_white_space c) ->
  trimStart (map f s) = map f (trimStart s).
Proof.
  intros Hf. induction s as [|c s IH]; cbn [map trimStart]; [reflexivity|].
  rewrite Hf. destruct (is_white_space c); [exact IH | reflexivity].
Qed.

Lemma trim_map (f : N -> N) (s : jsstring) :
  (forall c, is_white_space (f c) = is_white_space c) ->
  trim (map f s) = map f (trim s).
Proof.
  intros Hf. unfold trim, trimEnd.
  rewrite (@trimStart_map f _ Hf), <- map_rev, (@trimStart_map f _ Hf), map_rev.
  reflexivity.
Qed.

Lemma ascii_upper_space (c : N) :
  is_white_space (ascii_upper c) = is_white_space c.
Proof.
  unfold ascii_upper.
  destruct ((97 <=? c)%N && (c <=? 122)%N) eqn:E; [|reflexivity].
  apply andb_true_iff in E as [E1 E2].
  apply N.leb_le in E1, E2.
  transitivity false; [|symmetry]; unfold is_white_space; code_unit_cases.
Qed.

Lemma ascii_upper_idempotent (c : N) :
  ascii_upper (ascii_upper c) = ascii_upper c.
Proof.
  unfold ascii_upper.
  destruct ((97 <=? c)%N && (c <=? 122)%N) eqn:E; [|now rewrite E].
  apply andb_true_iff in E as [E1 E2].
  apply N.leb_le in E1, E2. code_unit_cases.
Qed.

Lemma normalizeKey_ascii (ucd_upper : N -> list N) (k : jsstring) :
  is_ascii k -> normalizeKey ucd_upper k = map ascii_upper (trim k).
Proof.
  intros H. unfold normalizeKey. apply toUpperCase_ascii, Forall_trim, H.
Qed.

Lemma map_ascii_upper_ascii (s : jsstring) :
  is_ascii s -> is_ascii (map ascii_upper s).
Proof.
  intros H. unfold is_ascii. apply Forall_map.
  eapply Forall_impl; [|exact H]. intros c. apply ascii_upper_ascii.
Qed.

(** Normalising a key twice is normalising it once, on ASCII input;
    what [trim] returns has no whitespace at either end and [trim] leaves
    it as it is; and [joinRoomByKey] on a key and on its normal form are
    the same. *)
Theorem normalizeKey_idempotent_on_ascii
    (ucd_upper : N -> list N) (k : jsstring) :
  is_ascii k ->
  normalizeKey ucd_upper (normalizeKey ucd_upper k) = normalizeKey ucd_upper k
  /\ no_leading_space (trim k) /\ no_trailing_space (trim k)
  /\ trim (trim k) = trim k
  /\ forall (i : Inputs) (n : nat) (w : World),
       joinRoomByKey ucd_upper (normalizeKey ucd_upper k) i n w
       = joinRoomByKey ucd_upper k i n w.
Proof.
  intros Hk.
  assert (Hidem : normalizeKey ucd_upper (normalizeKey ucd_upper k)
                  = normalizeKey ucd_upper k).
  { rewrite (@normalizeKey_ascii ucd_upper k Hk).
    rewrite normalizeKey_ascii
      by (apply map_ascii_upper_ascii, Forall_trim, Hk).
    rewrite (@trim_map ascii_upper _ ascii_upper_space), trim_idempotent,
      map_map.
    apply map_ext. intros c. apply ascii_upper_idempotent. }
  destruct (trim_no_space_at_ends k) as [H1 H2].
  split; [exact Hidem | split; [exact H1 | split; [exact H2|]]].
  split; [apply trim_idempotent|].
  intros i n w. unfold joinRoomByKey. now rewrite Hidem.
Qed.

Lemma normalizeKey_idempotent_on_ascii_witness :
  normalizeKey ascii_only_upper (normalizeKey ascii_only_upper (js "  ab c9 "))
  = normalizeKey ascii_only_upper (js "  ab c9 ").
Proof.
  refine (proj1 (@normalizeKey_idempotent_on_ascii ascii_only_upper
                   (js "  ab c9 ") _)).
  repeat constructor.
Defined.

(** *** The space of room keys *)

Lemma key_char_of_byte (c : N) :
  upper_base36 c ->
  ascii_upper (digit (ToUint8 (byte_of_key_char c) mod 36)) = c.
Proof.
  unfold upper_base36, byte_of_key_char, ToUint8. intros [H | H].
  - replace (c <=? 57)%N with true by (symmetry; apply N.leb_le; lia).
    rewrite (N.mod_small (c - 48) 256), (N.mod_small (c - 48) 36) by lia.
    unfold digit, ascii_upper. code_unit_cases.
  - replace (c <=? 57)%N with false by (symmetry; apply N.leb_gt; lia).
    rewrite (N.mod_small (c - 55) 256), (N.mod_small (c - 55) 36) by lia.
    unfold digit, ascii_upper. code_unit_cases.
Qed.

Lemma bytes_of_digit_count (d : nat) :
  (d < 36)%nat ->
  length (bytes_of_digit (N.of_nat d)) = if (d <? 4)%nat then 8%nat else 7%nat.
Proof.
  intros H.
  do 36 (destruct d as [|d]; [vm_compute; reflexivity|]).
  lia.
Qed.

(** Every string of six characters over [0..9A..Z] is the key of some
    random bytes, so all of [36^6] keys can come out; but the characters
    are not equally likely: of the 256 values of a byte, eight give each
    of the digits of value 0 to 3 and seven give each of the others. *)
Theorem generateRoomKey_covers_alphabet_with_bias (ucd_upper : N -> list N) :
  (forall k : jsstring,
      length k = 6%nat -> Forall upper_base36 k ->
      generateRoomKey ucd_upper
        (entropy_of_bytes (map byte_of_key_char k)) = k)
  /\ (forall d : nat,
         (d < 36)%nat ->
         length (bytes_of_digit (N.of_nat d))
         = if (d <? 4)%nat then 8%nat else 7%nat)
  /\ length all_bytes = 256%nat.
Proof.
  split; [|split; [exact bytes_of_digit_count | reflexivity]].
  intros k Hlen Hk. rewrite generateRoomKey_map.
  destruct k as [|c1 [|c2 [|c3 [|c4 [|c5 [|c6 [|c7 k]]]]]]]; try discriminate.
  inversion Hk as [|? ? H1 Hk1]; subst.
  inversion Hk1 as [|? ? H2 Hk2]; subst.
  inversion Hk2 as [|? ? H3 Hk3]; subst.
  inversion Hk3 as [|? ? H4 Hk4]; subst.
  inversion Hk4 as [|? ? H5 Hk5]; subst.
  inversion Hk5 as [|? ? H6 _]; subst.
  cbn [random_bytes entropy_of_bytes crypto_available getRandomValues map seq
       nth].
  now rewrite !key_char_of_byte.
Qed.

Lemma generateRoomKey_covers_alphabet_with_bias_witness :
  generateRoomKey ascii_only_upper
    (entropy_of_bytes (map byte_of_key_char (js "ZZ09AK")))
  = js "ZZ09AK".
Proof.
  refine (proj1 (@generateRoomKey_covers_alphabet_with_bias ascii_only_upper)
            (js "ZZ09AK") eq_refl _).
  repeat (constructor; [first [left; vm_compute; split; discriminate
                              | right; vm_compute; split; discriminate]|]).
  constructor.
Defined.

(** *** The hash of [pickColor] *)

Lemma pickColor_loop_app (a b : jsstring) (hash : Z) :
  pickColor_loop (a ++ b) hash = pickColor_loop b (pickColor_loop a hash).
Proof.
  revert hash; induction a as [|c a IH]; intros hash; cbn; [reflexivity|].
  apply IH.
Qed.

(** The hash of every string is a signed 32-bit integer, whose absolute
    value is at most [2^31]; the hash of a concatenation is the hash of
    the second part started from the hash of the first; and the hash of a
    one-character string is the code of the character. *)
Theorem pickColor_hash_int32_and_concat :
  (forall value : jsstring,
      (-2147483648 <= pickColor_hash value < 2147483648)%Z
      /\ (Z.abs (pickColor_hash value) <= 2147483648)%Z)
  /\ (forall a b : jsstring,
         pickColor_hash (a ++ b) = pickColor_loop b (pickColor_hash a))
  /\ (forall c : N, (c < 65536)%N -> pickColor_hash [c] = Z.of_N c).
Proof.
  split; [|split].
  - intros value.
    assert (H : (-2147483648 <= pickColor_hash value < 2147483648)%Z)
      by (apply Color.pickColor_loop_int32; lia).
    split; [exact H | lia].
  - intros a b. apply pickColor_loop_app.
  - intros c Hc. unfold pickColor_hash. cbn [pickColor_loop].
    rewrite pickColor_step. unfold ToInt32. cbn [Z.mul].
    rewrite Z.mod_small by lia. lia.
Qed.

Lemma pickColor_hash_int32_and_concat_witness :
  pickColor_hash [955%N] = 955%Z.
Proof.
  apply (proj2 (proj2 pickColor_hash_int32_and_concat)). reflexivity.
Defined.

(** *** The descriptor of the local participant *)

Lemma fallback_three_digits (m : N) :
  three_digits (toString 10 (m mod 900 + 100)) = true.
Proof.
  assert (H : forallb (fun n => three_digits (toString 10 (N.of_nat n + 100)))
                (seq 0 900) = true) by (vm_compute; reflexivity).
  rewrite forallb_forall in H.
  pose proof (N.mod_upper_bound m 900 ltac:(discriminate)) as Hr.
  set (r := (m mod 900)%N) in *. clearbody r.
  specialize (H (N.to_nat r)).
  rewrite N2Nat.id in H. apply H. apply in_seq. lia.
Qed.

Lemma pickColor_defined (value : jsstring) :
  exists c, pickColor value = Some c /\ In c userColors.
Proof.
  pose proof (Color.palette_index_bound (pickColor_hash value)) as Hb.
  unfold pickColor.
  destruct (nth_error userColors _) as [c|] eqn:E.
  - exists c. split; [reflexivity|]. eapply nth_error_In; eauto.
  - apply nth_error_None in E. lia.
Qed.

(** The descriptor [{ name, color }] of the local participant: the name is
    the e-mail address of the session when it has a non-empty one, and
    otherwise [User ] followed by three decimal digits of which the first
    is not [0]; the name is never empty; the colour is the one
    [pickColor] gives to the name, a member of the palette. *)
Theorem user_descriptor_name_and_color (i : Inputs) (w : World) :
  (forall s, session (react w) = Some s ->
             truthy (session_user_email s) = true ->
             name (compute_user i w) = session_user_email s)
  /\ ((session (react w) = None
       \/ exists s, session (react w) = Some s /\ session_user_email s = []) ->
      exists digits,
        name (compute_user i w) = js "User " ++ digits
        /\ three_digits digits = true)
  /\ truthy (name (compute_user i w)) = true
  /\ color (compute_user i w) = pickColor (name (compute_user i w))
  /\ exists c, color (compute_user i w) = Some c /\ In c userColors.
Proof.
  unfold compute_user. cbn [name color].
  split; [|split; [|split; [|split]]].
  - intros s -> Ht. unfold or_else. now rewrite Ht.
  - intros H.
    exists (toString 10 (math_random_900 i mod 900 + 100)).
    split; [|apply fallback_three_digits].
    destruct H as [-> | (s & -> & ->)]; reflexivity.
  - unfold or_else.
    destruct (truthy (match session (react w) with
                      | Some s => session_user_email s
                      | None => []
                      end)) eqn:E; [exact E | reflexivity].
  - reflexivity.
  - apply pickColor_defined.
Qed.

Lemma user_descriptor_name_and_color_witness :
  name (compute_user (inputs 0%N) (signed_in bob Db.empty))
  = js "bob@example.com".
Proof.
  refine (proj1 (user_descriptor_name_and_color (inputs 0%N)
                   (signed_in bob Db.empty)) bob eq_refl eq_refl).
Defined.

End MoreStrings.

(** ** The address, read back *)

Module MoreUrl.

Import JSFacts Db Url App Directory HandlerFacts UrlFacts Examples.

Lemma getSearchParam_room_updated (roomId : jsstring) (h : History) :
  getSearchParam (js "room") (updateRoomInUrl roomId h) = roomId.
Proof.
  unfold getSearchParam. rewrite updateRoomInUrl_query. unfold rewritten_query.
  rewrite !get_delete_other by reflexivity.
  destruct (truthy roomId) eqn:Et.
  - rewrite get_set_same. unfold or_else. now rewrite Et.
  - rewrite get_delete_same. symmetry. now apply truthy_false.
Qed.

Lemma getSearchParam_doc_updated (roomId : jsstring) (h : History) :
  getSearchParam (js "doc") (updateRoomInUrl roomId h) = [].
Proof.
  unfold getSearchParam. rewrite updateRoomInUrl_query. unfold rewritten_query.
  rewrite get_delete_other by reflexivity. now rewrite get_delete_same.
Qed.

Lemma updateRoomInUrl_record (roomId : jsstring) (h : History) :
  updateRoomInUrl roomId h
  = {| back := back h;
       current := {| origin_and_path := origin_and_path (current h);
                     searchParams :=
                       rewritten_query roomId (searchParams (current h));
                     fragment := fragment (current h) |};
       forward := forward h |}.
Proof.
  unfold updateRoomInUrl, rewritten_query. destruct (truthy roomId); reflexivity.
Qed.

Lemma delete_absent (n : jsstring) (ps : list (jsstring * jsstring)) :
  getAll n ps = [] -> delete n ps = ps.
Proof.
  unfold getAll, delete. induction ps as [|p ps IH]; [reflexivity|].
  cbn [filter]. destruct (JS.eqb (fst p) n); cbn [negb map];
    [discriminate|]. intros H. now rewrite IH.
Qed.

Lemma set_present_once (n v : jsstring) (ps : list (jsstring * jsstring)) :
  getAll n ps = [v] -> set n v ps = ps.
Proof.
  induction ps as [|[m x] ps IH]; [discriminate|].
  unfold getAll. cbn [filter fst set].
  destruct (JS.eqb m n) eqn:E; cbn [map snd].
  - intros H. inversion H as [[Hx Hrest]]. subst x.
    f_equal. apply delete_absent. exact Hrest.
  - intros H. f_equal. now apply IH.
Qed.

Lemma rewritten_query_idempotent (roomId : jsstring)
    (ps : list (jsstring * jsstring)) :
  rewritten_query roomId (rewritten_query roomId ps) = rewritten_query roomId ps.
Proof.
  unfold rewritten_query. destruct (truthy roomId) eqn:Et.
  - set (L := delete (js "invite") (delete (js "doc") (set (js "room") roomId ps))).
    assert (HL : getAll (js "room") L = [roomId]).
    { unfold L. rewrite !getAll_delete_other by reflexivity.
      apply getAll_set_same. }
    rewrite (@set_present_once _ _ _ HL). unfold L.
    rewrite (delete_comm (js "doc") (js "invite")).
    now rewrite !delete_idem.
  - rewrite (delete_comm (js "room") (js "invite")).
    rewrite (delete_comm (js "room") (js "doc")).
    rewrite delete_idem.
    rewrite (delete_comm (js "doc") (js "invite")).
    now rewrite !delete_idem.
Qed.

Lemma updateRoomInUrl_read_back_room (roomId : jsstring) (h : History) :
  getRoomFromUrl (updateRoomInUrl roomId h) = roomId.
Proof.
  unfold getRoomFromUrl.
  rewrite getSearchParam_room_updated, getSearchParam_doc_updated.
  unfold or_else. destruct (truthy roomId) eqn:E; [reflexivity|].
  symmetry. now apply truthy_false.
Qed.

(** What [updateRoomInUrl] writes, the readers of the address read back:
    after it [getRoomFromUrl] is the room id that was written, whatever
    [room] and [doc] parameters the address had, so a reload selects the
    same room and the legacy [doc] value never comes back; and
    [getInviteFromUrl] is empty, so a reload starts no auto-join.  Writing
    the same room id twice is writing it once, and of two writes the
    second decides. *)
Theorem updateRoomInUrl_read_back (roomId : jsstring) (h : History) :
  getRoomFromUrl (updateRoomInUrl roomId h) = roomId
  /\ getInviteFromUrl (updateRoomInUrl roomId h) = []
  /\ updateRoomInUrl roomId (updateRoomInUrl roomId h)
     = updateRoomInUrl roomId h
  /\ forall other : jsstring,
       getRoomFromUrl (updateRoomInUrl roomId (updateRoomInUrl other h))
       = roomId.
Proof.
  pose proof updateRoomInUrl_read_back_room as Hread.
  split; [apply Hread | split; [apply updateRoomInUrl_invite_absent | split]].
  - rewrite (updateRoomInUrl_record roomId (updateRoomInUrl roomId h)).
    rewrite (updateRoomInUrl_record roomId h).
    cbn [back current forward origin_and_path searchParams fragment].
    now rewrite rewritten_query_idempotent.
  - intros other. apply Hread.
Qed.

End MoreUrl.

(** ** The room directory, beyond joining *)

Module MoreDirectory.

Import JSFacts Db DbFacts Url App Directory HandlerFacts UrlFacts MoreUrl
  Examples.

Lemma no_member_of_unknown_room (r u : Uuid) (d : Database) :
  members_reference_rooms d -> has_room_id r d = false ->
  is_member r u d = false.
Proof.
  intros Hfk Hr. destruct (is_member r u d) eqn:E; [|reflexivity].
  apply is_member_In, in_map_iff in E as (m & Hpk & Hin).
  apply Hfk in Hin. inversion Hpk as [[H1 H2]]. rewrite H1 in Hin.
  apply has_room_id_In in Hin. congruence.
Qed.

Lemma is_member_app (r u : Uuid) (rs rs' : list Room)
    (ms ms' : list RoomMember) :
  is_member r u {| rooms := rs; room_members := ms |} = true ->
  is_member r u {| rooms := rs'; room_members := ms ++ ms' |} = true.
Proof.
  unfold is_member. cbn [room_members]. rewrite existsb_app.
  intros ->. reflexivity.
Qed.

Lemma is_member_membership (r u : Uuid) (env : ServerEnv) (rs : list Room)
    (ms : list RoomMember) :
  is_member r u {| rooms := rs; room_members := ms ++ [membership r u env] |}
  = true.
Proof.
  unfold is_member. cbn [room_members]. rewrite existsb_app.
  cbn. rewrite !N.eqb_refl. apply orb_true_r.
Qed.

Section WithParameters.

Variable ucd_upper : N -> list N.
Variable parse_url : jsstring -> option URL.

(** [handleCreateRoom] succeeds when the id drawn by the server and the
    key drawn by the client are both new: the room and the membership of
    its owner are appended to their tables, nothing else in them changes,
    the owner may read the room, the room is selected and written to the
    address, a pending invite is dropped, and two requests were sent. *)
Theorem createRoom_succeeds_on_fresh_key
    (i : Inputs) (w : World) (s : AuthSession) :
  supabase w = true -> session (react w) = Some s ->
  members_reference_rooms (db w) ->
  has_room_id (gen_random_uuid (server i 0)) (db w) = false ->
  has_room_key (generateRoomKey ucd_upper (entropy i)) (db w) = false ->
  db (handleCreateRoom ucd_upper i w)
  = {| rooms := rooms (db w) ++ [created_room ucd_upper i s];
       room_members :=
         room_members (db w) ++
         [membership (gen_random_uuid (server i 0)) (session_user_id s)
            (server i 1)] |}
  /\ policy_rooms_select (session_user_id s)
       (db (handleCreateRoom ucd_upper i w)) (created_room ucd_upper i s)
     = true
  /\ roomId (react (handleCreateRoom ucd_upper i w))
     = uuid_text (gen_random_uuid (server i 0))
  /\ getRoomFromUrl (history (handleCreateRoom ucd_upper i w))
     = uuid_text (gen_random_uuid (server i 0))
  /\ inviteKey (react (handleCreateRoom ucd_upper i w)) = []
  /\ roomError (react (handleCreateRoom ucd_upper i w)) = []
  /\ roomLoading (react (handleCreateRoom ucd_upper i w)) = false
  /\ requests (handleCreateRoom ucd_upper i w)
     = requests w ++
       [InsertRoom (generateRoomKey ucd_upper (entropy i)) (session_user_id s);
        UpsertRoomMember (gen_random_uuid (server i 0)) (session_user_id s)].
Proof.
  intros Hsup Hses Hfk Hid Hkey.
  set (x := created_room ucd_upper i s).
  set (d1 := {| rooms := rooms (db w) ++ [x];
                room_members := room_members (db w) |}).
  assert (Hins : insert_room (session_user_id s)
                   (generateRoomKey ucd_upper (entropy i)) (session_user_id s)
                   (server i 0) (db w) = inr (x, d1)).
  { unfold insert_room, policy_rooms_insert, policy_rooms_select.
    cbn [owner_id id]. rewrite N.eqb_refl, Hid, Hkey. reflexivity. }
  assert (Hm : is_member (id x) (session_user_id s) d1 = false).
  { apply (@no_member_of_unknown_room _ _ (db w) Hfk Hid). }
  assert (Hups : upsert_room_member (session_user_id s) (id x)
                   (session_user_id s) (server i 1) d1
                 = inr {| rooms := rooms d1;
                          room_members := room_members d1 ++
                            [membership (id x) (session_user_id s)
                               (server i 1)] |}).
  { unfold upsert_room_member, policy_room_members_insert.
    rewrite Hm. cbn [user_id]. rewrite N.eqb_refl. cbn [negb].
    replace (has_room_id (id x) d1) with true; [reflexivity|].
    symmetry. apply has_room_id_In. cbn [rooms d1]. rewrite map_app.
    apply in_or_app. right. now left. }
  unfold handleCreateRoom. rewrite Hsup, Hses.
  cbn [db send setRoomLoading setRoomError with_react].
  rewrite Hins. cbn [db with_db send]. rewrite Hups.
  cbn [db react history requests roomId inviteKey roomError roomLoading
       setRoomLoading with_history setInviteKey setRoomId with_db with_react
       send].
  split; [reflexivity|].
  split.
  { unfold policy_rooms_select. cbn [owner_id x created_room].
    now rewrite N.eqb_refl. }
  split; [reflexivity|].
  split; [apply updateRoomInUrl_read_back_room|].
  split; [reflexivity|]. split; [reflexivity|]. split; [reflexivity|].
  now rewrite <- app_assoc.
Qed.

End WithParameters.

Section Failures.

Variable ucd_upper : N -> list N.
Variable parse_url : jsstring -> option URL.

(** When the generated key is already the key of a room, the insert is
    refused by [key text unique] and [handleCreateRoom] gives up: one
    request was sent and no second key is tried, the database, the
    selected room and the address are as they were, and the error of the
    database is shown: [duplicate key value violates unique constraint]
    followed by the name [rooms_key_key] of the constraint between
    double quotes (code unit 34). *)
Theorem createRoom_gives_up_on_key_collision
    (i : Inputs) (w : World) (s : AuthSession) :
  supabase w = true -> session (react w) = Some s ->
  has_room_id (gen_random_uuid (server i 0)) (db w) = false ->
  has_room_key (generateRoomKey ucd_upper (entropy i)) (db w) = true ->
  db (handleCreateRoom ucd_upper i w) = db w
  /\ roomId (react (handleCreateRoom ucd_upper i w)) = roomId (react w)
  /\ history (handleCreateRoom ucd_upper i w) = history w
  /\ inviteKey (react (handleCreateRoom ucd_upper i w)) = inviteKey (react w)
  /\ roomError (react (handleCreateRoom ucd_upper i w))
     = message (UniqueViolation "rooms_key_key")
  /\ roomError (react (handleCreateRoom ucd_upper i w))
     = js "duplicate key value violates unique constraint "
       ++ [34%N] ++ js "rooms_key_key" ++ [34%N]
  /\ roomError (react (handleCreateRoom ucd_upper i w)) <> []
  /\ roomLoading (react (handleCreateRoom ucd_upper i w)) = false
  /\ requests (handleCreateRoom ucd_upper i w)
     = requests w ++
       [InsertRoom (generateRoomKey ucd_upper (entropy i)) (session_user_id s)].
Proof.
  intros Hsup Hses Hid Hkey.
  assert (Hins : insert_room (session_user_id s)
                   (generateRoomKey ucd_upper (entropy i)) (session_user_id s)
                   (server i 0) (db w)
                 = inl (UniqueViolation "rooms_key_key")).
  { unfold insert_room, policy_rooms_insert.
    cbn [owner_id id]. rewrite N.eqb_refl, Hid, Hkey. reflexivity. }
  unfold handleCreateRoom. rewrite Hsup, Hses.
  cbn [db send setRoomLoading setRoomError with_react].
  rewrite Hins, or_else_message.
  repeat split. discriminate.
Qed.

(** What a successful join does.  When the normal form of the input is
    the key of a room, [joinRoomByKey] selects that room, writes it to the
    address, empties the two inputs and the pending invite and shows no
    error; the caller is then a member of the room and may read it; the
    table of rooms is as it was; and the table of members is as it was
    when the caller was a member already, and has one more row, the
    caller's, otherwise. *)
Theorem joinByKey_succeeds_on_known_key
    (keyValue : jsstring) (i : Inputs) (n : nat) (w : World)
    (s : AuthSession) (x : Room) :
  supabase w = true -> session (react w) = Some s ->
  NoDup (map key (rooms (db w))) -> In x (rooms (db w)) ->
  key x = normalizeKey ucd_upper keyValue ->
  normalizeKey ucd_upper keyValue <> [] ->
  roomId (react (joinRoomByKey ucd_upper keyValue i n w)) = uuid_text (id x)
  /\ getRoomFromUrl (history (joinRoomByKey ucd_upper keyValue i n w))
     = uuid_text (id x)
  /\ getInviteFromUrl (history (joinRoomByKey ucd_upper keyValue i n w)) = []
  /\ roomKeyInput (react (joinRoomByKey ucd_upper keyValue i n w)) = []
  /\ inviteInput (react (joinRoomByKey ucd_upper keyValue i n w)) = []
  /\ inviteKey (react (joinRoomByKey ucd_upper keyValue i n w)) = []
  /\ roomError (react (joinRoomByKey ucd_upper keyValue i n w)) = []
  /\ roomLoading (react (joinRoomByKey ucd_upper keyValue i n w)) = false
  /\ rooms (db (joinRoomByKey ucd_upper keyValue i n w)) = rooms (db w)
  /\ is_member (id x) (session_user_id s)
       (db (joinRoomByKey ucd_upper keyValue i n w)) = true
  /\ policy_rooms_select (session_user_id s)
       (db (joinRoomByKey ucd_upper keyValue i n w)) x = true
  /\ room_members (db (joinRoomByKey ucd_upper keyValue i n w))
     = if is_member (id x) (session_user_id s) (db w)
       then room_members (db w)
       else room_members (db w) ++
            [membership (id x) (session_user_id s) (server i n)].
Proof.
  intros Hsup Hses Hnd Hin Hkey Hne.
  assert (Hj : join_room_by_key (normalizeKey ucd_upper keyValue)
                 (session_user_id s) (server i n) (db w)
               = inr (id x, insert_member_on_conflict_do_nothing (id x)
                              (session_user_id s) (server i n) (db w))).
  { unfold join_room_by_key. rewrite <- Hkey.
    now rewrite (select_room_id_by_key_unique x (db w) Hnd Hin). }
  assert (Ht : truthy (normalizeKey ucd_upper keyValue) = true).
  { destruct (normalizeKey ucd_upper keyValue); [contradiction | reflexivity]. }
  unfold joinRoomByKey. rewrite Hsup, Hses, Ht. cbn [negb].
  cbn [db send setRoomLoading setRoomError with_react].
  rewrite Hj, uuid_text_truthy. cbn [negb].
  cbn [db react history requests roomId inviteKey inviteInput roomKeyInput
       roomError roomLoading setRoomLoading with_history setInviteKey
       setInviteInput setRoomKeyInput setRoomId with_db with_react send].
  split; [reflexivity|].
  split; [apply updateRoomInUrl_read_back_room|].
  split; [apply updateRoomInUrl_invite_absent|].
  do 5 (split; [reflexivity|]).
  split; [apply insert_member_rooms|].
  assert (Hmem : is_member (id x) (session_user_id s)
                   (insert_member_on_conflict_do_nothing (id x)
                      (session_user_id s) (server i n) (db w)) = true)
    by apply insert_member_is_member.
  split; [exact Hmem|].
  split; [unfold policy_rooms_select; rewrite Hmem; apply orb_true_r|].
  unfold insert_member_on_conflict_do_nothing.
  destruct (is_member (id x) (session_user_id s) (db w)); reflexivity.
Qed.

End Failures.

Lemma createRoom_gives_up_on_key_collision_witness :
  db (handleCreateRoom ascii_only_upper (inputs 78%N)
        (signed_in bob alice_room_db))
  = db (signed_in bob alice_room_db).
Proof.
  refine (proj1 (@createRoom_gives_up_on_key_collision ascii_only_upper
                   (inputs 78%N) (signed_in bob alice_room_db) bob
                   eq_refl eq_refl _ _)); vm_compute; reflexivity.
Defined.

Lemma createRoom_succeeds_on_fresh_key_witness :
  roomId (react (handleCreateRoom ascii_only_upper (inputs 77%N)
                   (signed_in alice Db.empty)))
  = uuid_text 77%N.
Proof.
  refine (proj1 (proj2 (proj2
    (@createRoom_succeeds_on_fresh_key ascii_only_upper (inputs 77%N)
       (signed_in alice Db.empty) alice eq_refl eq_refl _ eq_refl eq_refl)))).
  intros m [].
Defined.

Lemma joinByKey_succeeds_on_known_key_witness :
  is_member 77%N 2%N
    (db (joinRoomByKey ascii_only_upper (js " 8k2a1f") (inputs 0%N) 0
           (signed_in bob alice_room_db)))
  = true.
Proof.
  refine (proj1 (proj2 (proj2 (proj2 (proj2 (proj2 (proj2 (proj2 (proj2 (proj2
    (@joinByKey_succeeds_on_known_key ascii_only_upper (js " 8k2a1f")
       (inputs 0%N) 0 (signed_in bob alice_room_db) bob
       (created_room ascii_only_upper (inputs 77%N) alice)
       eq_refl eq_refl _ _ _ _))))))))))).
  - vm_compute. repeat constructor. intros [].
  - vm_compute. left. reflexivity.
  - vm_compute. reflexivity.
  - vm_compute. discriminate.
Defined.

Section AppendOnly.

Variable ucd_upper : N -> list N.
Variable parse_url : jsstring -> option URL.

(** On a database that satisfies the constraints, [handleCreateRoom]
    either leaves the database alone or appends a room and the membership
    of its owner. *)
Lemma handleCreateRoom_db_cases (i : Inputs) (w : World) :
  consistent (db w) ->
  db (handleCreateRoom ucd_upper i w) = db w
  \/ exists s,
       session (react w) = Some s
       /\ db (handleCreateRoom ucd_upper i w)
          = {| rooms := rooms (db w) ++ [created_room ucd_upper i s];
               room_members :=
                 room_members (db w) ++
                 [membership (gen_random_uuid (server i 0)) (session_user_id s)
                    (server i 1)] |}.
Proof.
  intros Hc.
  destruct (handleCreateRoom_inv ucd_upper i w)
    as [_ -> | s e _ _ _ Hdb _ _ _ | s x d1 e _ _ Hi Hu _ _ _ _ |
        s x d1 d2 _ Hs Hi Hu Hdb _ _ _ _].
  - now left.
  - now left.
  - rewrite (@upsert_owner_after_insert_room _ _ _ (server i 1) _ _ _ Hc Hi)
      in Hu.
    discriminate.
  - right. exists s. split; [exact Hs|].
    rewrite (@upsert_owner_after_insert_room _ _ _ (server i 1) _ _ _ Hc Hi)
      in Hu.
    injection Hu as Hd2. rewrite Hdb, <- Hd2.
    apply insert_room_inr in Hi as (Hx & -> & _). rewrite Hx. reflexivity.
Qed.

Lemma joinRoomByKey_db_cases (keyValue : jsstring) (i : Inputs) (n : nat)
    (w : World) :
  db (joinRoomByKey ucd_upper keyValue i n w) = db w
  \/ exists s r,
       session (react w) = Some s
       /\ In r (map id (rooms (db w)))
       /\ db (joinRoomByKey ucd_upper keyValue i n w)
          = {| rooms := rooms (db w);
               room_members :=
                 room_members (db w) ++
                 [membership r (session_user_id s) (server i n)] |}.
Proof.
  destruct (joinRoomByKey_inv ucd_upper keyValue i n w)
    as [_ -> | s _ _ _ -> | s e _ _ _ _ -> | s r d1 _ Hs _ Hj ->];
    try (now left).
  unfold join_room_by_key in Hj.
  destruct (select_room_id_by_key _ (db w)) as [v|] eqn:E; [|discriminate].
  inversion Hj; subst v d1. cbn.
  unfold insert_member_on_conflict_do_nothing.
  destruct (is_member r (session_user_id s) (db w)); [now left|].
  right. exists s, r. split; [exact Hs|]. split; [|reflexivity].
  apply select_room_id_by_key_In in E as (x & Hin & _ & <-).
  now apply in_map.
Qed.

(** One operation: rows are only appended, at most one to each table,
    and the row appended belongs to the principal who acts. *)
Lemma perform_appends (d : Database) (op : Operation) :
  consistent d ->
  exists rs ms,
    rooms (perform ucd_upper parse_url d op) = rooms d ++ rs
    /\ room_members (perform ucd_upper parse_url d op) = room_members d ++ ms
    /\ (length rs <= 1)%nat /\ (length ms <= 1)%nat
    /\ Forall (fun r => owner_id r = actor op) rs
    /\ Forall (fun m => user_id m = actor op) ms
    /\ Forall (fun r => is_member (id r) (owner_id r)
                          (perform ucd_upper parse_url d op) = true) rs.
Proof.
  intros Hc.
  assert (Hnone : forall d', d' = d ->
            exists rs ms,
              rooms d' = rooms d ++ rs /\ room_members d' = room_members d ++ ms
              /\ (length rs <= 1)%nat /\ (length ms <= 1)%nat
              /\ Forall (fun r => owner_id r = actor op) rs
              /\ Forall (fun m => user_id m = actor op) ms
              /\ Forall (fun r => is_member (id r) (owner_id r) d' = true) rs).
  { intros d' ->. exists [], []. rewrite !app_nil_r. cbn [length].
    split; [reflexivity|]. split; [reflexivity|].
    split; [lia|]. split; [lia|]. repeat split; constructor. }
  assert (Hjoin : forall k i w,
            db w = d -> session (react w) = Some
              (match op with
               | CreateRoom s _ | JoinByKey s _ _ | JoinByInvite s _ _ => s
               end) ->
            exists rs ms,
              rooms (db (joinRoomByKey ucd_upper k i 0 w)) = rooms d ++ rs
              /\ room_members (db (joinRoomByKey ucd_upper k i 0 w))
                 = room_members d ++ ms
              /\ (length rs <= 1)%nat /\ (length ms <= 1)%nat
              /\ Forall (fun r => owner_id r = actor op) rs
              /\ Forall (fun m => user_id m = actor op) ms
              /\ Forall (fun r => is_member (id r) (owner_id r)
                                    (db (joinRoomByKey ucd_upper k i 0 w))
                                  = true) rs).
  { intros k i w Hd Hs.
    destruct (joinRoomByKey_db_cases k i 0 w)
      as [H | (s' & r & Hs' & _ & H)].
    - apply Hnone. congruence.
    - rewrite H, Hd. exists [], [membership r (session_user_id s') (server i 0)].
      rewrite app_nil_r. cbn [rooms room_members length].
      split; [reflexivity|]. split; [reflexivity|].
      split; [lia|]. split; [lia|].
      split; [constructor|]. split; [|constructor].
      constructor; [|constructor]. cbn [user_id membership].
      rewrite Hs in Hs'. inversion Hs'; subst s'. destruct op; reflexivity. }
  destruct op as [s i | s k i | s t i]; cbn [perform].
  - destruct (handleCreateRoom_db_cases i (signed_in s d) Hc)
      as [H | (s' & Hs' & H)].
    + apply Hnone. exact H.
    + cbn in Hs'. inversion Hs'; subst s'. rewrite H.
      exists [created_room ucd_upper i s],
             [membership (gen_random_uuid (server i 0)) (session_user_id s)
                (server i 1)].
      cbn [rooms room_members length actor].
      split; [reflexivity|]. split; [reflexivity|].
      split; [lia|]. split; [lia|].
      split; [constructor; [reflexivity | constructor]|].
      split; [constructor; [reflexivity | constructor]|].
      constructor; [|constructor]. apply is_member_membership.
  - apply (Hjoin k i (signed_in s d)); reflexivity.
  - unfold handleJoinByInvite.
    destruct (negb (truthy (trim (inviteInput
                (react (setInviteInput t (signed_in s d))))))).
    + apply Hnone. reflexivity.
    + apply Hjoin; reflexivity.
Qed.

Lemma execute_consistent (d : Database) (st : Statement) :
  consistent d -> consistent (execute d st).
Proof.
  intros Hc. destruct st as [a k o env | a r u env | k a env]; cbn [execute].
  - destruct (insert_room a k o env d) as [e | [x d']] eqn:E; [assumption|].
    eapply insert_room_consistent; eauto.
  - destruct (upsert_room_member a r u env d) as [e | d'] eqn:E; [assumption|].
    eapply upsert_room_member_consistent; eauto.
  - destruct (join_room_by_key k a env d) as [e | [r d']] eqn:E; [assumption|].
    eapply join_room_by_key_consistent; eauto.
Qed.

Lemma execute_all_consistent (sts : list Statement) (d : Database) :
  consistent d -> consistent (execute_all d sts).
Proof.
  revert d. induction sts as [|st sts IH]; intros d Hc; [exact Hc|].
  unfold execute_all in *. cbn [fold_left]. apply IH.
  now apply execute_consistent.
Qed.

(** The operations of the directory only ever append.  After any
    sequence of them on a database that satisfies the constraints, the
    rows that were in the two tables are still there, unchanged and in
    their places; at most one room and one membership row were added for
    each operation; every room added is owned by, and every membership row
    added is a row of, a principal who performed one of the operations. *)
Theorem directory_is_append_only (d : Database) (ops : list Operation) :
  consistent d ->
  exists rs ms,
    rooms (perform_all ucd_upper parse_url d ops) = rooms d ++ rs
    /\ room_members (perform_all ucd_upper parse_url d ops)
       = room_members d ++ ms
    /\ (length rs <= length ops)%nat /\ (length ms <= length ops)%nat
    /\ Forall (fun r => exists op, In op ops /\ owner_id r = actor op) rs
    /\ Forall (fun m => exists op, In op ops /\ user_id m = actor op) ms.
Proof.
  revert d. induction ops as [|op ops IH]; intros d Hc.
  - exists [], []. cbn. rewrite !app_nil_r. repeat split; auto.
  - destruct (perform_appends op Hc)
      as (rs1 & ms1 & Hr1 & Hm1 & Hl1 & Hl2 & Ha1 & Ha2 & _).
    destruct (IH _ (perform_consistent ucd_upper parse_url op Hc))
      as (rs2 & ms2 & Hr2 & Hm2 & Hl3 & Hl4 & Ha3 & Ha4).
    exists (rs1 ++ rs2), (ms1 ++ ms2).
    unfold perform_all in *. cbn [fold_left].
    rewrite Hr2, Hm2, Hr1, Hm1, <- !app_assoc, !length_app. cbn [length].
    repeat split; try lia.
    + apply Forall_app. split.
      * eapply Forall_impl; [|exact Ha1]. intros r Hr. exists op.
        split; [now left | exact Hr].
      * eapply Forall_impl; [|exact Ha3]. intros r (op' & Hin & Hr).
        exists op'. split; [now right | exact Hr].
    + apply Forall_app. split.
      * eapply Forall_impl; [|exact Ha2]. intros m Hm. exists op.
        split; [now left | exact Hm].
      * eapply Forall_impl; [|exact Ha4]. intros m (op' & Hin & Hm).
        exists op'. split; [now right | exact Hm].
Qed.

(** The constraints of the schema hold whatever the page does.  After
    any sequence of operations of the directory from the empty database
    room ids are unique, room keys are unique, no two membership rows
    have the same room and user, and every membership row refers to a
    room that exists.  The same holds after any sequence of the three
    statements the page can send, by any principals, with any values and
    in any order, so also when a request of an operation gets no answer
    and the operation stops half way. *)
Theorem directory_keeps_schema_constraints (ops : list Operation)
    (sts : list Statement) :
  (NoDup (map id (rooms (perform_all ucd_upper parse_url Db.empty ops)))
   /\ NoDup (map key (rooms (perform_all ucd_upper parse_url Db.empty ops)))
   /\ NoDup (map member_pk
               (room_members (perform_all ucd_upper parse_url Db.empty ops)))
   /\ members_reference_rooms
        (perform_all ucd_upper parse_url Db.empty ops))
  /\ (NoDup (map id (rooms (execute_all Db.empty sts)))
      /\ NoDup (map key (rooms (execute_all Db.empty sts)))
      /\ NoDup (map member_pk (room_members (execute_all Db.empty sts)))
      /\ members_reference_rooms (execute_all Db.empty sts)).
Proof.
  destruct (perform_all_consistent ucd_upper parse_url ops empty_consistent)
    as ((H1 & H2) & H3 & H4).
  destruct (execute_all_consistent sts empty_consistent)
    as ((K1 & K2) & K3 & K4).
  repeat split; assumption.
Qed.

End AppendOnly.

Lemma directory_is_append_only_witness :
  exists rs ms,
    rooms (perform_all ascii_only_upper parse_links Db.empty
             [CreateRoom alice (inputs 77%N);
              JoinByKey bob (js "8k2a1f") (inputs 0%N)])
    = rooms Db.empty ++ rs
    /\ room_members (perform_all ascii_only_upper parse_links Db.empty
                       [CreateRoom alice (inputs 77%N);
                        JoinByKey bob (js "8k2a1f") (inputs 0%N)])
       = room_members Db.empty ++ ms
    /\ (length rs <= 2)%nat /\ (length ms <= 2)%nat
    /\ Forall (fun r => exists op,
                 In op [CreateRoom alice (inputs 77%N);
                        JoinByKey bob (js "8k2a1f") (inputs 0%N)]
                 /\ owner_id r = actor op) rs
    /\ Forall (fun m => exists op,
                 In op [CreateRoom alice (inputs 77%N);
                        JoinByKey bob (js "8k2a1f") (inputs 0%N)]
                 /\ user_id m = actor op) ms.
Proof.
  exact (@directory_is_append_only ascii_only_upper parse_links Db.empty
           [CreateRoom alice (inputs 77%N);
            JoinByKey bob (js "8k2a1f") (inputs 0%N)] empty_consistent).
Defined.

(** A room whose creation stopped after the first statement has no
    membership row: the constraints do not ask for one. *)
Example room_without_member_row :
  map key (rooms (execute_all Db.empty
                    [InsertIntoRooms 1%N (js "8K2A1F") 1%N
                       (server (inputs 77%N) 0)]))
  = [js "8K2A1F"]
  /\ room_members (execute_all Db.empty
                     [InsertIntoRooms 1%N (js "8K2A1F") 1%N
                        (server (inputs 77%N) 0)]) = [].
Proof. vm_compute. split; reflexivity. Qed.

End MoreDirectory.

(** ** The page as a whole *)

Module MoreSession.

Import JSFacts Db DbFacts Url App Directory HandlerFacts UrlFacts MoreUrl
  SessionFacts Examples.

(** *** What rendering and the session effect leave alone *)

Lemma same_form_refl (w : World) : same_form w w.
Proof. repeat split. Qed.

Lemma same_form_trans (w1 w2 w3 : World) :
  same_form w1 w2 -> same_form w2 w3 -> same_form w1 w3.
Proof.
  unfold same_form.
  intros (A1 & A2 & A3 & A4 & A5 & A6 & A7 & A8 & A9 & A10 & A11 & A12)
         (B1 & B2 & B3 & B4 & B5 & B6 & B7 & B8 & B9 & B10 & B11 & B12).
  repeat split; congruence.
Qed.

Lemma emit_change_form (pid : nat) (w : World) :
  same_form w (emit_change pid w).
Proof.
  destruct (emit_change_cases pid w) as [-> | (p & n & _ & _ & ->)];
    repeat split.
Qed.

Lemma emit_status_form (pid : nat) (s : jsstring) (w : World) :
  same_form w (emit_status pid s w).
Proof.
  destruct (emit_status_cases pid s w) as [-> | (p & n & _ & _ & ->)];
    repeat split.
Qed.

Lemma handleAwareness_form (pid : nat) (w : World) :
  same_form w (handleAwareness pid w).
Proof.
  unfold handleAwareness. destruct (nth_error (providers w) pid);
    repeat split.
Qed.

Lemma run_cleanup_form (w : World) : same_form w (run_cleanup w).
Proof.
  unfold run_cleanup. destruct (cleanup (hooks w)) as [[pid n]|];
    repeat split.
Qed.

Lemma session_effect_form (w : World) : same_form w (session_effect w).
Proof.
  unfold session_effect. destruct (provider (hooks w)) as [pid|];
    [|repeat split].
  eapply same_form_trans; [|repeat split].
  eapply same_form_trans; [|apply handleAwareness_form].
  eapply same_form_trans; [|repeat split].
  unfold setLocalStateField_user.
  eapply same_form_trans; [|apply emit_change_form].
  repeat split.
Qed.

Lemma run_session_effect_form (w : World) :
  same_form w (run_session_effect w).
Proof.
  unfold run_session_effect. destruct (effect_deps_eqb _ _);
    [apply same_form_refl|].
  eapply same_form_trans; [apply run_cleanup_form|].
  eapply same_form_trans; [apply session_effect_form|]. repeat split.
Qed.

Lemma render_user_form (i : Inputs) (w : World) :
  same_form w (render_user i w).
Proof. unfold render_user. destruct (opt_nat_eqb _ _); repeat split. Qed.

Lemma render_provider_form (i : Inputs) (w : World) :
  same_form w (render_provider i w).
Proof.
  unfold render_provider. destruct (provider_deps_eqb _ _); [repeat split|].
  destruct (_ || _); repeat split.
Qed.

(** *** The provider store, step by step *)

Lemma update_nth_compose (n : nat) (f g : WebsocketProvider -> WebsocketProvider)
    (ps : list WebsocketProvider) :
  update_nth n f (update_nth n g ps) = update_nth n (fun p => f (g p)) ps.
Proof.
  revert n. induction ps as [|p ps IH]; intros [|n]; cbn; try reflexivity.
  now rewrite IH.
Qed.

Lemma update_nth_ext (n : nat) (f g : WebsocketProvider -> WebsocketProvider)
    (ps : list WebsocketProvider) :
  (forall p, f p = g p) -> update_nth n f ps = update_nth n g ps.
Proof.
  intros H. revert n. induction ps as [|p ps IH]; intros [|n]; cbn;
    try reflexivity.
  - now rewrite H.
  - now rewrite IH.
Qed.

Lemma update_nth_nil (n : nat) (f : WebsocketProvider -> WebsocketProvider) :
  update_nth n f [] = [].
Proof. destruct n; reflexivity. Qed.

Lemma emit_change_cells (pid : nat) (w : World) :
  providers (emit_change pid w) = providers w
  /\ hooks (emit_change pid w) = hooks w.
Proof.
  destruct (emit_change_cases pid w) as [-> | (p & n & _ & _ & ->)];
    split; reflexivity.
Qed.

Lemma emit_status_cells (pid : nat) (s : jsstring) (w : World) :
  providers (emit_status pid s w) = providers w
  /\ hooks (emit_status pid s w) = hooks w.
Proof.
  destruct (emit_status_cases pid s w) as [-> | (p & n & _ & _ & ->)];
    split; reflexivity.
Qed.

Lemma handleAwareness_cells (pid : nat) (w : World) :
  providers (handleAwareness pid w) = providers w
  /\ hooks (handleAwareness pid w) = hooks w.
Proof.
  unfold handleAwareness. destruct (nth_error (providers w) pid);
    split; reflexivity.
Qed.

Lemma providers_run_cleanup (w : World) :
  providers (run_cleanup w)
  = match cleanup (hooks w) with
    | None => providers w
    | Some (pid, n) => update_nth pid (torn_down n) (providers w)
    end.
Proof.
  unfold run_cleanup. destruct (cleanup (hooks w)) as [[pid n]|];
    [|reflexivity].
  cbn. rewrite !update_nth_compose. apply update_nth_ext.
  intros p. reflexivity.
Qed.

Lemma hooks_run_cleanup (w : World) :
  cleanup (hooks (run_cleanup w)) = None
  /\ user (hooks (run_cleanup w)) = user (hooks w)
  /\ userDeps (hooks (run_cleanup w)) = userDeps (hooks w)
  /\ provider (hooks (run_cleanup w)) = provider (hooks w)
  /\ providerDeps (hooks (run_cleanup w)) = providerDeps (hooks w)
  /\ effectDeps (hooks (run_cleanup w)) = effectDeps (hooks w)
  /\ inviteDeps (hooks (run_cleanup w)) = inviteDeps (hooks w)
  /\ effectRuns (hooks (run_cleanup w)) = effectRuns (hooks w).
Proof.
  unfold run_cleanup. destruct (cleanup (hooks w)) as [[pid n]|] eqn:E;
    repeat split; assumption.
Qed.

Lemma providers_session_effect (w : World) :
  providers (session_effect w)
  = match provider (hooks w) with
    | None => providers w
    | Some pid =>
        update_nth pid (subscribed (effectRuns (hooks w)) (user (hooks w)))
          (providers w)
    end.
Proof.
  unfold session_effect. destruct (provider (hooks w)) as [pid|];
    [|reflexivity].
  cbn [providers set_cleanup with_hooks].
  rewrite (proj1 (handleAwareness_cells _ _)).
  cbn [providers on_change with_providers].
  unfold setLocalStateField_user.
  rewrite (proj1 (emit_change_cells _ _)).
  cbn [providers on_status with_providers setStatus with_react].
  rewrite !update_nth_compose. apply update_nth_ext.
  intros p. reflexivity.
Qed.

Lemma hooks_session_effect (w : World) :
  cleanup (hooks (session_effect w))
  = match provider (hooks w) with
    | None => None
    | Some pid => Some (pid, effectRuns (hooks w))
    end
  /\ user (hooks (session_effect w)) = user (hooks w)
  /\ userDeps (hooks (session_effect w)) = userDeps (hooks w)
  /\ provider (hooks (session_effect w)) = provider (hooks w)
  /\ providerDeps (hooks (session_effect w)) = providerDeps (hooks w)
  /\ effectDeps (hooks (session_effect w)) = effectDeps (hooks w)
  /\ inviteDeps (hooks (session_effect w)) = inviteDeps (hooks w).
Proof.
  unfold session_effect. destruct (provider (hooks w)) as [pid|] eqn:E;
    [|repeat split; exact E].
  match goal with
  | |- context [set_cleanup ?c ?r ?x] =>
      assert (H : hooks x = hooks w); [|generalize dependent x]
  end.
  { rewrite (proj2 (handleAwareness_cells _ _)).
    cbn [hooks on_change with_providers].
    unfold setLocalStateField_user.
    rewrite (proj2 (emit_change_cells _ _)). reflexivity. }
  intros x H. cbn. rewrite H. repeat split. exact E.
Qed.

Lemma providers_run_session_effect_nil (w : World) :
  providers w = [] -> providers (run_session_effect w) = [].
Proof.
  intros H. unfold run_session_effect.
  destruct (effect_deps_eqb _ _); [exact H|].
  cbn [providers set_effectDeps with_hooks].
  rewrite providers_session_effect.
  assert (H1 : providers (run_cleanup w) = []).
  { rewrite providers_run_cleanup.
    destruct (cleanup (hooks w)) as [[pid n]|]; [|exact H].
    rewrite H. apply update_nth_nil. }
  destruct (provider (hooks (run_cleanup w))); [|exact H1].
  rewrite H1. apply update_nth_nil.
Qed.

(** *** The live connection *)

Lemma Forall2_nth_error_left {A B : Type} (R : A -> B -> Prop)
    (l : list A) (l' : list B) (n : nat) (x : A) :
  Forall2 R l l' -> nth_error l n = Some x ->
  exists y, nth_error l' n = Some y /\ R x y.
Proof.
  intros F. revert n. induction F as [|a b l l' Hab F IH]; intros [|n] H;
    cbn in H; try discriminate.
  - inversion H; subst. exists b. now split.
  - apply IH, H.
Qed.

Lemma Forall2_nth_error_right {A B : Type} (R : A -> B -> Prop)
    (l : list A) (l' : list B) (n : nat) (y : B) :
  Forall2 R l l' -> nth_error l' n = Some y ->
  exists x, nth_error l n = Some x /\ R x y.
Proof.
  intros F. revert n. induction F as [|a b l l' Hab F IH]; intros [|n] H;
    cbn in H; try discriminate.
  - inversion H; subst. exists a. now split.
  - apply IH, H.
Qed.

Lemma akin_refl (p : WebsocketProvider) : akin p p.
Proof. repeat split. Qed.

Lemma akin_store_refl (ps : list WebsocketProvider) : Forall2 akin ps ps.
Proof. induction ps; constructor; [apply akin_refl | assumption]. Qed.

Lemma akin_update_states (pid : nat)
    (f : list (N * AwarenessState) -> list (N * AwarenessState))
    (ps : list WebsocketProvider) :
  Forall2 akin ps (update_nth pid (map_states f) ps).
Proof.
  revert pid. induction ps as [|p ps IH]; intros [|pid]; cbn.
  - constructor.
  - constructor.
  - constructor; [repeat split | apply akin_store_refl].
  - constructor; [apply akin_refl | apply IH].
Qed.

Lemma live_store_akin (w w' : World) :
  Forall2 akin (providers w) (providers w') ->
  provider (hooks w') = provider (hooks w) ->
  providerDeps (hooks w') = providerDeps (hooks w) ->
  effectDeps (hooks w') = effectDeps (hooks w) ->
  cleanup (hooks w') = cleanup (hooks w) ->
  live_store w -> live_store w'.
Proof.
  intros F E1 E2 E3 E4 ((C1 & C2 & C3) & L & U & P & Q).
  pose proof (Forall2_length F) as Hlen.
  split; [split; [|split]|split; [|split; [|split]]].
  - intros pid n H. rewrite E4 in H. rewrite E3. exact (C1 pid n H).
  - intros pid u H. rewrite E3 in H. rewrite E4. exact (C2 pid u H).
  - intros pid u H. rewrite E3 in H. rewrite <- Hlen. exact (C3 pid u H).
  - intros pid n H. rewrite E4 in H.
    destruct (L pid n H) as (p & Hp & Hs & Hc).
    destruct (Forall2_nth_error_left _ F Hp) as (p' & Hp' & A).
    destruct A as (_ & _ & A3 & A4 & _).
    exists p'. split; [exact Hp'|]. split; congruence.
  - intros pid p' Hp' Hd.
    destruct (Forall2_nth_error_right _ F Hp') as (p & Hp & A).
    destruct A as (_ & _ & _ & _ & A5).
    rewrite E4. apply (U pid p Hp). congruence.
  - intros pid H. rewrite E1 in H.
    destruct (P pid H) as (p & r & t & Hp & Hd & Hr & Ht & Tr & Tt).
    destruct (Forall2_nth_error_left _ F Hp) as (p' & Hp' & A).
    destruct A as (A1 & A2 & _).
    exists p', r, t. rewrite E2.
    split; [exact Hp'|]. split; [exact Hd|].
    split; [congruence|]. split; [congruence|]. split; assumption.
  - intros r t H. rewrite E2 in H. rewrite E1. exact (Q r t H).
Qed.

Lemma live_store_same_store (w w' : World) :
  same_store w w' -> live_store w -> live_store w'.
Proof.
  intros (Ep & Eh). apply live_store_akin.
  - rewrite Ep. apply akin_store_refl.
  - now rewrite Eh.
  - now rewrite Eh.
  - now rewrite Eh.
  - now rewrite Eh.
Qed.

Lemma render_user_live (i : Inputs) (w : World) :
  live_store w -> live_store (render_user i w).
Proof.
  unfold render_user. destruct (opt_nat_eqb _ _); [auto|].
  apply live_store_akin; try reflexivity. apply akin_store_refl.
Qed.

Lemma render_provider_mid (i : Inputs) (w : World) :
  Inv w -> live_store w -> live_store_mid (render_provider i w).
Proof.
  intros (_ & _ & _ & _ & M3) ((C1 & C2 & C3) & L & U & P & Q).
  unfold render_provider.
  destruct (provider_deps_eqb _ _).
  { split; [repeat split; assumption|]. split; [exact L|].
    split; [|split; assumption].
    intros pid p Hp Hd. left. exact (U pid p Hp Hd). }
  destruct (negb (truthy (token w)) || negb (truthy (roomId (react w))))
    eqn:Et.
  { split; [repeat split; assumption|]. split; [exact L|].
    split; [|split].
    - intros pid p Hp Hd. left. exact (U pid p Hp Hd).
    - intros pid H. discriminate.
    - intros r t H Tr Tt. cbn in H. inversion H; subst.
      rewrite Tr, Tt in Et. discriminate. }
  apply orb_false_elim in Et. destruct Et as (Tt & Tr).
  apply negb_false_iff in Tt. apply negb_false_iff in Tr.
  split; [split; [|split]|split; [|split; [|split]]].
  - exact C1.
  - exact C2.
  - intros pid u H. cbn. rewrite length_app. cbn.
    pose proof (C3 pid u H). lia.
  - intros pid n H. cbn in H.
    destruct (L pid n H) as (p & Hp & Hs & Hc).
    exists p. split; [|split; assumption].
    cbn. rewrite nth_error_app1; [exact Hp|].
    apply nth_error_Some. congruence.
  - intros pid p Hp Hd. cbn in Hp.
    destruct (nth_error_snoc _ _ _ Hp) as [Hold | (Hpid & Hnew)].
    + left. exact (U pid p Hold Hd).
    + right. cbn. split; [now subst pid|].
      intros u H. pose proof (C3 pid u H). lia.
  - intros pid H. cbn in H. inversion H; subst pid.
    eexists. exists (roomId (react w)), (token w).
    split; [cbn; rewrite nth_error_app2 by lia; rewrite Nat.sub_diag;
            reflexivity|].
    repeat split; assumption.
  - intros r t H _ _. discriminate.
Qed.

Lemma nth_error_run_cleanup (w : World) (pid' : nat) :
  nth_error (providers (run_cleanup w)) pid'
  = match cleanup (hooks w) with
    | Some (pid, n) =>
        if Nat.eqb pid pid'
        then option_map (torn_down n) (nth_error (providers w) pid')
        else nth_error (providers w) pid'
    | None => nth_error (providers w) pid'
    end.
Proof.
  rewrite providers_run_cleanup.
  destruct (cleanup (hooks w)) as [[pid n]|]; [|reflexivity].
  apply nth_error_update_nth.
Qed.

Lemma nth_error_session_effect (w : World) (pid' : nat) :
  nth_error (providers (session_effect w)) pid'
  = match provider (hooks w) with
    | Some pid =>
        if Nat.eqb pid pid'
        then option_map (subscribed (effectRuns (hooks w)) (user (hooks w)))
               (nth_error (providers w) pid')
        else nth_error (providers w) pid'
    | None => nth_error (providers w) pid'
    end.
Proof.
  rewrite providers_session_effect.
  destruct (provider (hooks w)) as [pid|]; [|reflexivity].
  apply nth_error_update_nth.
Qed.

Lemma session_effect_length (w : World) :
  length (providers (session_effect (run_cleanup w))) = length (providers w).
Proof.
  rewrite providers_session_effect, providers_run_cleanup.
  destruct (provider (hooks (run_cleanup w))) as [q|];
    destruct (cleanup (hooks w)) as [[c m]|];
    rewrite ?update_nth_length; reflexivity.
Qed.

Lemma run_session_effect_live (w : World) :
  Inv w -> live_store_mid w -> live_store (run_session_effect w).
Proof.
  intros HI ((C1 & C2 & C3) & L & U & P & Q).
  unfold run_session_effect.
  destruct (effect_deps_eqb _ _) eqn:Ed.
  { apply effect_deps_eqb_eq in Ed.
    split; [repeat split; assumption|]. split; [exact L|].
    split; [|split; assumption].
    intros pid p Hp Hd.
    destruct (U pid p Hp Hd) as [H | (Hpr & Hne)]; [exact H|].
    exfalso. apply (Hne (userDeps (hooks w))). rewrite Ed, Hpr. reflexivity. }
  clear Ed.
  destruct (run_cleanup_detaches HI) as (Hdet & _).
  destruct (hooks_run_cleanup w) as (K1 & K2 & K3 & K4 & K5 & K6 & K7 & K8).
  destruct (hooks_session_effect (run_cleanup w))
    as (S1 & S2 & S3 & S4 & S5 & S6 & S7).
  rewrite K4, K8 in S1.
  destruct HI as (_ & _ & M1 & M2 & M3).
  split; [split; [|split]|split; [|split; [|split]]].
  - intros pid n H. cbn in H. rewrite S1 in H. cbn.
    destruct (provider (hooks w)) as [q|]; [|discriminate].
    inversion H; subst. eauto.
  - intros pid u H. cbn in H.
    inversion H as [[Hq Hu]]. cbn. rewrite S1, Hq. eauto.
  - intros pid u H. cbn in H.
    inversion H as [[Hq Hu]]. cbn. rewrite session_effect_length.
    apply M2. exact Hq.
  - intros pid n H. cbn in H. rewrite S1 in H. cbn.
    destruct (provider (hooks w)) as [q|] eqn:Eq; [|discriminate].
    inversion H; subst q n. clear H.
    rewrite nth_error_session_effect, K4, Nat.eqb_refl.
    pose proof (M2 pid eq_refl) as Hlt.
    assert (Hlt' : (pid < length (providers (run_cleanup w)))%nat).
    { rewrite providers_run_cleanup.
      destruct (cleanup (hooks w)) as [[c n]|];
        rewrite ?update_nth_length; exact Hlt. }
    destruct (nth_error (providers (run_cleanup w)) pid) as [pc|] eqn:Epc.
    2:{ apply nth_error_None in Epc. lia. }
    destruct (Hdet pid pc Epc) as (D1 & D2).
    eexists. split; [reflexivity|].
    cbn. rewrite D1, D2, K8. split; reflexivity.
  - intros pid p' Hp' Hd. cbn in Hp'. cbn. rewrite S1.
    rewrite nth_error_session_effect, K4, nth_error_run_cleanup in Hp'.
    assert (Hsrc : exists p, nth_error (providers w) pid = Some p
                             /\ destroyed p = false
                             /\ forall n, cleanup (hooks w) <> Some (pid, n)).
    { destruct (cleanup (hooks w)) as [[c n]|] eqn:Ec.
      - destruct (Nat.eqb c pid) eqn:Ecp.
        + exfalso.
          destruct (nth_error (providers w) pid) as [p|]; cbn in Hp'.
          * destruct (provider (hooks w)) as [q|];
              [destruct (Nat.eqb q pid)|];
              cbn in Hp'; inversion Hp'; subst p'; cbn in Hd; discriminate.
          * destruct (provider (hooks w)) as [q|];
              [destruct (Nat.eqb q pid)|]; cbn in Hp'; discriminate.
        + apply Nat.eqb_neq in Ecp.
          destruct (nth_error (providers w) pid) as [p|]; cbn in Hp'.
          * exists p. split; [reflexivity|]. split.
            -- destruct (provider (hooks w)) as [q|];
                 [destruct (Nat.eqb q pid)|];
                 cbn in Hp'; inversion Hp'; subst p'; exact Hd.
            -- intros m Hm. inversion Hm. congruence.
          * destruct (provider (hooks w)) as [q|];
              [destruct (Nat.eqb q pid)|]; cbn in Hp'; discriminate.
      - destruct (nth_error (providers w) pid) as [p|]; cbn in Hp'.
        + exists p. split; [reflexivity|]. split; [|discriminate].
          destruct (provider (hooks w)) as [q|];
            [destruct (Nat.eqb q pid)|];
            cbn in Hp'; inversion Hp'; subst p'; exact Hd.
        + destruct (provider (hooks w)) as [q|];
            [destruct (Nat.eqb q pid)|]; cbn in Hp'; discriminate. }
    destruct Hsrc as (p & Hp & Hdp & Hnc).
    destruct (U pid p Hp Hdp) as [(n & Hn) | (Hpr & _)];
      [now elim (Hnc n)|].
    rewrite Hpr. eauto.
  - intros pid H. cbn in H. rewrite S4, K4 in H.
    destruct (P pid H) as (p & r & t & Hp & Hd & Hr & Ht & Tr & Tt).
    cbn. rewrite S5, K5, nth_error_session_effect, K4, H, Nat.eqb_refl.
    rewrite nth_error_run_cleanup, Hp.
    destruct (cleanup (hooks w)) as [[c n]|];
      [destruct (Nat.eqb c pid)|]; cbn;
      (eexists; exists r, t; split; [reflexivity|];
       split; [exact Hd|]; cbn; repeat split; assumption).
  - intros r t H. cbn in H. rewrite S5, K5 in H. cbn. rewrite S4, K4.
    exact (Q r t H).
Qed.

(** *** A connection that has just been opened *)

Lemma users_session_effect (pid : nat) (p : WebsocketProvider) (w : World) :
  provider (hooks w) = Some pid -> nth_error (providers w) pid = Some p ->
  users (react (session_effect w))
  = users_of_states
      (states (subscribed (effectRuns (hooks w)) (user (hooks w)) p)).
Proof.
  intros Hp Hn.
  pose proof (nth_error_session_effect w pid) as H.
  rewrite Hp, Nat.eqb_refl, Hn in H. cbn [option_map] in H.
  unfold session_effect in *. rewrite Hp in *.
  cbn [providers react set_cleanup with_hooks] in *.
  rewrite (proj1 (handleAwareness_cells _ _)) in H.
  unfold handleAwareness. rewrite H. reflexivity.
Qed.

Lemma run_session_effect_length (w : World) :
  length (providers (run_session_effect w)) = length (providers w).
Proof.
  unfold run_session_effect. destruct (effect_deps_eqb _ _); [reflexivity|].
  apply session_effect_length.
Qed.

Lemma render_user_cells (i : Inputs) (w : World) :
  same_cells w (render_user i w) /\ react (render_user i w) = react w.
Proof.
  unfold render_user. destruct (opt_nat_eqb _ _); repeat split.
Qed.

Section Shape.

Variable ucd_upper : N -> list N.
Variable parse_url : jsstring -> option URL.

(** One render with its effects either changes nothing of the form, or
    is the join of the invite effect, made for a signed-in principal with
    the pending invite. *)
Lemma commit_shape (i : Inputs) (w : World) :
  same_form w (commit ucd_upper i w)
  \/ exists w0 s,
       same_form w w0 /\ session (react w0) = Some s
       /\ supabase w0 = supabase w
       /\ truthy (inviteKey (react w0)) = true
       /\ commit ucd_upper i w
          = joinRoomByKey ucd_upper (inviteKey (react w0)) i 2 w0.
Proof.
  unfold commit.
  assert (H3 : same_form w (run_session_effect
                              (render_provider i (render_user i w)))).
  { eapply same_form_trans; [apply render_user_form|].
    eapply same_form_trans; [apply render_provider_form|].
    apply run_session_effect_form. }
  set (w3 := run_session_effect (render_provider i (render_user i w))) in *.
  unfold run_invite_effect.
  destruct (invite_deps_eqb _ _); [now left|].
  set (w0 := set_inviteDeps _ w3).
  assert (H0 : same_form w w0)
    by (eapply same_form_trans; [exact H3 | repeat split]).
  unfold invite_effect.
  destruct (truthy (inviteKey (react w0))) eqn:Et; cbn [negb]; [|now left].
  destruct (session (react w0)) as [s|] eqn:Es; [|now left].
  right. exists w0, s.
  split; [exact H0|]. split; [exact Es|]. split; [|split; [exact Et|]].
  - destruct H0 as (_ & _ & _ & _ & _ & _ & _ & _ & H9 & _). exact H9.
  - reflexivity.
Qed.

Lemma joinRoomByKey_form_cases (keyValue : jsstring) (i : Inputs) (n : nat)
    (w : World) :
  (roomLoading (react w) = false ->
   roomLoading (react (joinRoomByKey ucd_upper keyValue i n w)) = false)
  /\ (inviteKey (react (joinRoomByKey ucd_upper keyValue i n w))
      = inviteKey (react w)
      \/ inviteKey (react (joinRoomByKey ucd_upper keyValue i n w)) = [])
  /\ session (react (joinRoomByKey ucd_upper keyValue i n w))
     = session (react w)
  /\ supabase (joinRoomByKey ucd_upper keyValue i n w) = supabase w
  /\ ((supabase w = false \/ session (react w) = None) ->
      joinRoomByKey ucd_upper keyValue i n w = w).
Proof.
  destruct (joinRoomByKey_inv ucd_upper keyValue i n w)
    as [Hn -> | s Hs Hss _ -> | s e Hs Hss _ _ -> | s r d1 Hs Hss _ _ ->].
  - repeat split; auto.
  - repeat split; auto. intros [H | H]; congruence.
  - repeat split; auto. intros [H | H]; congruence.
  - split; [reflexivity|]. split; [now right|].
    repeat split. intros [H | H]; congruence.
Qed.

Lemma handleCreateRoom_form_cases (i : Inputs) (w : World) :
  (roomLoading (react w) = false ->
   roomLoading (react (handleCreateRoom ucd_upper i w)) = false)
  /\ (inviteKey (react (handleCreateRoom ucd_upper i w)) = inviteKey (react w)
      \/ inviteKey (react (handleCreateRoom ucd_upper i w)) = [])
  /\ supabase (handleCreateRoom ucd_upper i w) = supabase w
  /\ ((supabase w = false \/ session (react w) = None) ->
      handleCreateRoom ucd_upper i w = w).
Proof.
  unfold handleCreateRoom.
  destruct (supabase w) eqn:Es.
  2:{ destruct (session (react w)); repeat split; auto. }
  destruct (session (react w)) as [s|] eqn:Ess.
  2:{ repeat split; auto. }
  destruct (insert_room _ _ _ _ _) as [e|[x d1]].
  { repeat split; auto. intros [H | H]; discriminate. }
  destruct (upsert_room_member _ _ _ _ _).
  - repeat split; auto. intros [H | H]; discriminate.
  - split; [reflexivity|]. split; [now right|]. split; [exact Es|].
    intros [H | H]; discriminate.
Qed.

Lemma handle_form_cases (i : Inputs) (e : Event) (w : World) :
  (roomLoading (react w) = false ->
   roomLoading (react (handle ucd_upper parse_url i e w)) = false)
  /\ (inviteKey (react (handle ucd_upper parse_url i e w))
      = inviteKey (react w)
      \/ inviteKey (react (handle ucd_upper parse_url i e w)) = [])
  /\ supabase (handle ucd_upper parse_url i e w) = supabase w.
Proof.
  destruct e; cbn [handle].
  - destruct (supabase w) eqn:Es; [|rewrite Es; auto].
    split; [auto|]. split; [now left | exact Es].
  - repeat split; auto.
  - repeat split; auto.
  - unfold handleSignIn. destruct (negb (supabase w)), (auth_error i);
      repeat split; auto.
  - unfold handleSignUp. destruct (negb (supabase w)), (auth_error i);
      repeat split; auto.
  - repeat split; auto.
  - repeat split; auto.
  - destruct (handleCreateRoom_form_cases i w) as (H1 & H2 & H3 & _).
    auto.
  - destruct (joinRoomByKey_form_cases (roomKeyInput (react w)) i 0 w)
      as (H1 & H2 & _ & H3 & _). auto.
  - unfold handleJoinByInvite.
    destruct (negb (truthy (trim (inviteInput (react w)))));
      [repeat split; auto|].
    destruct (joinRoomByKey_form_cases
                (invite_keyValue parse_url (trim (inviteInput (react w)))) i 0 w)
      as (H1 & H2 & _ & H3 & _). auto.
  - unfold handleSignOut. destruct (negb (supabase w)); [repeat split; auto|].
    destruct (auth_error i); (split; [auto|]; split; [now right | reflexivity]).
  - destruct (emit_status_form pid event_status w)
      as (_ & _ & _ & _ & _ & _ & H7 & H8 & H9 & _).
    rewrite H7, H8, H9. auto.
  - match goal with
    | |- context [emit_change pid ?x] =>
        destruct (emit_change_form pid x)
          as (_ & _ & _ & _ & _ & _ & H7 & H8 & H9 & _)
    end.
    rewrite H7, H8, H9. auto.
Qed.

Lemma commit_form_cases (i : Inputs) (w : World) :
  (roomLoading (react w) = false ->
   roomLoading (react (commit ucd_upper i w)) = false)
  /\ (inviteKey (react (commit ucd_upper i w)) = inviteKey (react w)
      \/ inviteKey (react (commit ucd_upper i w)) = [])
  /\ supabase (commit ucd_upper i w) = supabase w.
Proof.
  destruct (commit_shape i w)
    as [(_ & _ & _ & _ & _ & _ & H7 & H8 & H9 & _) |
        (w0 & s & (_ & _ & _ & _ & _ & _ & H7 & H8 & _) & _ & H9 & _ & ->)].
  - rewrite H7, H8, H9. auto.
  - destruct (joinRoomByKey_form_cases (inviteKey (react w0)) i 2 w0)
      as (J1 & J2 & _ & J3 & _).
    rewrite J3, H9. split; [|split; [|reflexivity]].
    + intros H. apply J1. congruence.
    + destruct J2 as [J2 | J2]; [left; congruence | now right].
Qed.

Lemma step_form_cases (w : World) (ie : Inputs * Event) :
  (roomLoading (react w) = false ->
   roomLoading (react (step ucd_upper parse_url w ie)) = false)
  /\ (inviteKey (react (step ucd_upper parse_url w ie)) = inviteKey (react w)
      \/ inviteKey (react (step ucd_upper parse_url w ie)) = [])
  /\ supabase (step ucd_upper parse_url w ie) = supabase w.
Proof.
  unfold step, settle.
  destruct (handle_form_cases (fst ie) (snd ie) w) as (A1 & A2 & A3).
  set (w1 := handle ucd_upper parse_url (fst ie) (snd ie) w) in *.
  destruct (commit_form_cases (fst ie) w1) as (B1 & B2 & B3).
  set (w2 := commit ucd_upper (fst ie) w1) in *.
  destruct (commit_form_cases (fst ie) w2) as (C1 & C2 & C3).
  split; [auto | split; [|congruence]].
  destruct C2 as [C2 | C2]; [|now right]. rewrite C2.
  destruct B2 as [B2 | B2]; [|now right]. rewrite B2. exact A2.
Qed.

(** The spinner is never left on, and the pending invite only ever goes
    away.  A state of the page is taken when the handler of an event,
    with the request it awaits, has run to its end: in every such state
    [roomLoading] is [false], whichever way the handler returned, and
    the pending invite is the one the address had when the page was
    loaded, or it is empty; and once it is empty no event brings one
    back. *)
Theorem loading_flag_and_pending_invite
    (i0 : Inputs) (h : History) (c : bool) (d : Database)
    (trace : list (Inputs * Event)) :
  roomLoading (react (run ucd_upper parse_url (mount ucd_upper i0 h c d) trace))
  = false
  /\ (inviteKey (react (run ucd_upper parse_url (mount ucd_upper i0 h c d)
                          trace))
      = getInviteFromUrl h
      \/ inviteKey (react (run ucd_upper parse_url (mount ucd_upper i0 h c d)
                             trace))
         = [])
  /\ forall more : list (Inputs * Event),
       inviteKey (react (run ucd_upper parse_url (mount ucd_upper i0 h c d)
                           trace)) = [] ->
       inviteKey (react (run ucd_upper parse_url (mount ucd_upper i0 h c d)
                           (trace ++ more))) = [].
Proof.
  assert (Hrun : forall tr w,
            (roomLoading (react w) = false ->
             roomLoading (react (fold_left (step ucd_upper parse_url) tr w))
             = false)
            /\ (inviteKey (react (fold_left (step ucd_upper parse_url) tr w))
                = inviteKey (react w)
                \/ inviteKey (react (fold_left (step ucd_upper parse_url) tr w))
                   = [])).
  { induction tr as [|ie tr IH]; intros w; [auto|].
    rewrite fold_left_cons.
    destruct (step_form_cases w ie) as (A1 & A2 & _).
    destruct (IH (step ucd_upper parse_url w ie)) as (B1 & B2).
    split; [auto|].
    destruct B2 as [B2 | B2]; [|now right]. rewrite B2. exact A2. }
  assert (Hm : roomLoading (react (mount ucd_upper i0 h c d)) = false
               /\ (inviteKey (react (mount ucd_upper i0 h c d))
                   = getInviteFromUrl h
                   \/ inviteKey (react (mount ucd_upper i0 h c d)) = [])).
  { unfold mount, settle.
    destruct (commit_form_cases i0 (initial h c d)) as (A1 & A2 & _).
    destruct (commit_form_cases i0 (commit ucd_upper i0 (initial h c d)))
      as (B1 & B2 & _).
    split; [apply B1, A1; reflexivity|].
    destruct B2 as [B2 | B2]; [|now right]. rewrite B2.
    destruct A2 as [A2 | A2]; [left; rewrite A2; reflexivity | now right]. }
  destruct Hm as [Hm1 Hm2]. unfold run.
  destruct (Hrun trace (mount ucd_upper i0 h c d)) as (R1 & R2).
  split; [auto|]. split.
  - destruct R2 as [R2 | R2]; [|now right]. rewrite R2. exact Hm2.
  - intros more He. rewrite fold_left_app.
    destruct (Hrun more (fold_left (step ucd_upper parse_url) trace
                           (mount ucd_upper i0 h c d))) as (_ & [R3 | R3]);
      congruence.
Qed.

(** *** Nobody signed in *)

Lemma run_session_effect_provider (w : World) :
  provider (hooks (run_session_effect w)) = provider (hooks w)
  /\ providerDeps (hooks (run_session_effect w)) = providerDeps (hooks w)
  /\ userDeps (hooks (run_session_effect w)) = userDeps (hooks w)
  /\ user (hooks (run_session_effect w)) = user (hooks w).
Proof.
  unfold run_session_effect. destruct (effect_deps_eqb _ _);
    [repeat split|].
  destruct (hooks_session_effect (run_cleanup w))
    as (_ & S2 & S3 & S4 & S5 & _).
  destruct (hooks_run_cleanup w) as (_ & C2 & C3 & C4 & C5 & _).
  cbn [hooks set_effectDeps with_hooks provider providerDeps userDeps user].
  repeat split; congruence.
Qed.

Lemma commit_unconnected (i : Inputs) (w : World) :
  unconnected w -> unconnected (commit ucd_upper i w).
Proof.
  intros (Hs & Hp & Hh).
  assert (H1 : unconnected (render_user i w)).
  { unfold render_user. destruct (opt_nat_eqb _ _); repeat split; assumption. }
  assert (H2 : unconnected (render_provider i (render_user i w))).
  { destruct H1 as (Hs1 & Hp1 & Hh1).
    generalize dependent (render_user i w). intros w1 Hs1 Hp1 Hh1.
    unfold render_provider. destruct (provider_deps_eqb _ _);
      [repeat split; assumption|].
    unfold token. rewrite Hs1. cbn [truthy negb orb].
    repeat split; assumption. }
  assert (H3 : unconnected (run_session_effect
                              (render_provider i (render_user i w)))).
  { destruct H2 as (Hs2 & Hp2 & Hh2).
    generalize dependent (render_provider i (render_user i w)).
    intros w2 Hs2 Hp2 Hh2.
    split; [|split].
    - destruct (run_session_effect_form w2) as (E & _). congruence.
    - now apply providers_run_session_effect_nil.
    - rewrite (proj1 (run_session_effect_provider w2)). exact Hh2. }
  unfold commit.
  destruct H3 as (Hs3 & Hp3 & Hh3).
  generalize dependent (run_session_effect
                          (render_provider i (render_user i w))).
  intros w3 Hs3 Hp3 Hh3.
  unfold run_invite_effect. destruct (invite_deps_eqb _ _);
    [repeat split; assumption|].
  unfold invite_effect.
  destruct (negb (truthy _)); [repeat split; assumption|].
  cbn [session react set_inviteDeps with_hooks]. rewrite Hs3.
  repeat split; assumption.
Qed.

Lemma commit_signed_out_form (i : Inputs) (w : World) :
  session (react w) = None -> same_form w (commit ucd_upper i w).
Proof.
  intros Hs.
  destruct (commit_shape i w) as [H | (w0 & s & (E & _) & Es & _)];
    [exact H | congruence].
Qed.

Ltac nothing_sent :=
  exists []; rewrite app_nil_r;
  split; [reflexivity | split; [constructor | reflexivity]].

Ltac one_auth_request :=
  eexists; split; [reflexivity|];
  split; [repeat constructor | discriminate].

Lemma handle_unconnected (i : Inputs) (e : Event) (w : World) :
  unconnected w ->
  supabase w = false \/ (forall s, e <> AuthStateChange (Some s)) ->
  unconnected (handle ucd_upper parse_url i e w)
  /\ (exists rs,
        requests (handle ucd_upper parse_url i e w) = requests w ++ rs
        /\ Forall (fun r => to_identity_service r = true) rs
        /\ (supabase w = false -> rs = []))
  /\ db (handle ucd_upper parse_url i e w) = db w
  /\ (supabase w = false ->
      history (handle ucd_upper parse_url i e w) = history w
      /\ roomId (react (handle ucd_upper parse_url i e w)) = roomId (react w)).
Proof.
  intros (Hs & Hp & Hh) He.
  destruct e; cbn [handle].
  - destruct (supabase w) eqn:Ec.
    + destruct He as [He | He]; [discriminate|].
      destruct s as [s|]; [now elim (He s)|].
      split; [repeat split; assumption|]. split; [nothing_sent|].
      split; [reflexivity | discriminate].
    + split; [repeat split; assumption|]. split; [nothing_sent|].
      split; [reflexivity | split; reflexivity].
  - split; [repeat split; assumption|]. split; [nothing_sent|].
    split; [reflexivity | split; reflexivity].
  - split; [repeat split; assumption|]. split; [nothing_sent|].
    split; [reflexivity | split; reflexivity].
  - unfold handleSignIn. destruct (supabase w) eqn:Ec; cbn [negb].
    + destruct (auth_error i);
        (split; [repeat split; assumption|]; split; [one_auth_request|];
         split; [reflexivity | discriminate]).
    + split; [repeat split; assumption|]. split; [nothing_sent|].
      split; [reflexivity | split; reflexivity].
  - unfold handleSignUp. destruct (supabase w) eqn:Ec; cbn [negb].
    + destruct (auth_error i);
        (split; [repeat split; assumption|]; split; [one_auth_request|];
         split; [reflexivity | discriminate]).
    + split; [repeat split; assumption|]. split; [nothing_sent|].
      split; [reflexivity | split; reflexivity].
  - split; [repeat split; assumption|]. split; [nothing_sent|].
    split; [reflexivity | split; reflexivity].
  - split; [repeat split; assumption|]. split; [nothing_sent|].
    split; [reflexivity | split; reflexivity].
  - destruct (handleCreateRoom_form_cases i w) as (_ & _ & _ & E).
    rewrite (E (or_intror Hs)).
    split; [repeat split; assumption|]. split; [nothing_sent|].
    split; [reflexivity | split; reflexivity].
  - unfold handleJoinByKey.
    destruct (joinRoomByKey_form_cases (roomKeyInput (react w)) i 0 w)
      as (_ & _ & _ & _ & E).
    rewrite (E (or_intror Hs)).
    split; [repeat split; assumption|]. split; [nothing_sent|].
    split; [reflexivity | split; reflexivity].
  - unfold handleJoinByInvite.
    destruct (negb (truthy (trim (inviteInput (react w))))).
    { split; [repeat split; assumption|]. split; [nothing_sent|].
      split; [reflexivity | split; reflexivity]. }
    destruct (joinRoomByKey_form_cases
                (invite_keyValue parse_url (trim (inviteInput (react w)))) i 0 w)
      as (_ & _ & _ & _ & E).
    rewrite (E (or_intror Hs)).
    split; [repeat split; assumption|]. split; [nothing_sent|].
    split; [reflexivity | split; reflexivity].
  - unfold handleSignOut. destruct (supabase w) eqn:Ec; cbn [negb].
    + destruct (auth_error i);
        (split; [repeat split; assumption|]; split; [one_auth_request|];
         split; [reflexivity | discriminate]).
    + split; [repeat split; assumption|]. split; [nothing_sent|].
      split; [reflexivity | split; reflexivity].
  - unfold emit_status. rewrite Hp.
    replace (nth_error (@nil WebsocketProvider) pid) with (@None WebsocketProvider)
      by (destruct pid; reflexivity).
    split; [repeat split; assumption|]. split; [nothing_sent|].
    split; [reflexivity | split; reflexivity].
  - unfold emit_change. cbn [providers with_providers]. rewrite Hp.
    rewrite update_nth_nil.
    replace (nth_error (@nil WebsocketProvider) pid) with (@None WebsocketProvider)
      by (destruct pid; reflexivity).
    split.
    { split; [exact Hs|]. split; [|exact Hh].
      cbn. rewrite Hp. apply update_nth_nil. }
    split; [nothing_sent|]. split; [reflexivity | split; reflexivity].
Qed.

Lemma step_unconnected (w : World) (ie : Inputs * Event) :
  unconnected w ->
  supabase w = false \/ (forall s, snd ie <> AuthStateChange (Some s)) ->
  unconnected (step ucd_upper parse_url w ie)
  /\ (exists rs,
        requests (step ucd_upper parse_url w ie) = requests w ++ rs
        /\ Forall (fun r => to_identity_service r = true) rs
        /\ (supabase w = false -> rs = []))
  /\ db (step ucd_upper parse_url w ie) = db w
  /\ supabase (step ucd_upper parse_url w ie) = supabase w
  /\ (supabase w = false ->
      history (step ucd_upper parse_url w ie) = history w
      /\ roomId (react (step ucd_upper parse_url w ie)) = roomId (react w)).
Proof.
  intros Hu He. unfold step, settle.
  destruct (@handle_unconnected (fst ie) (snd ie) w Hu He)
    as (U1 & (rs & R1 & R1a & R1b) & D1 & H1).
  destruct (handle_form_cases (fst ie) (snd ie) w) as (_ & _ & S1).
  set (w1 := handle ucd_upper parse_url (fst ie) (snd ie) w) in *.
  pose proof (@commit_unconnected (fst ie) w1 U1) as U2.
  pose proof (@commit_signed_out_form (fst ie) w1 (proj1 U1)) as F2.
  set (w2 := commit ucd_upper (fst ie) w1) in *.
  pose proof (@commit_unconnected (fst ie) w2 U2) as U3.
  pose proof (@commit_signed_out_form (fst ie) w2 (proj1 U2)) as F3.
  set (w3 := commit ucd_upper (fst ie) w2) in *.
  destruct F2 as (_ & _ & A3 & _ & _ & _ & _ & _ & A9 & A10 & A11 & A12).
  destruct F3 as (_ & _ & B3 & _ & _ & _ & _ & _ & B9 & B10 & B11 & B12).
  split; [exact U3|].
  split.
  { exists rs. split; [congruence|]. split; assumption. }
  split; [congruence|]. split; [congruence|].
  intros Hc. destruct (H1 Hc) as (H1a & H1b). split; congruence.
Qed.

Lemma fold_step_unconnected (h : History) (d : Database)
    (trace : list (Inputs * Event)) (w : World) :
  supabase w = false
  \/ Forall (fun ie => forall s, snd ie <> AuthStateChange (Some s)) trace ->
  unconnected w ->
  Forall (fun r => to_identity_service r = true) (requests w) ->
  (supabase w = false -> requests w = []) ->
  db w = d ->
  (supabase w = false ->
   history w = h /\ roomId (react w) = getRoomFromUrl h) ->
  unconnected (fold_left (step ucd_upper parse_url) trace w)
  /\ Forall (fun r => to_identity_service r = true)
       (requests (fold_left (step ucd_upper parse_url) trace w))
  /\ db (fold_left (step ucd_upper parse_url) trace w) = d
  /\ (supabase w = false ->
      requests (fold_left (step ucd_upper parse_url) trace w) = []
      /\ history (fold_left (step ucd_upper parse_url) trace w) = h
      /\ roomId (react (fold_left (step ucd_upper parse_url) trace w))
         = getRoomFromUrl h).
Proof.
  revert w. induction trace as [|ie trace IH]; intros w Hyp U R R0 D Hh.
  - cbn [fold_left]. split; [exact U|]. split; [exact R|].
    split; [exact D|]. intros Hc. destruct (Hh Hc). auto.
  - rewrite fold_left_cons.
    assert (He : supabase w = false
                 \/ (forall s, snd ie <> AuthStateChange (Some s))).
    { destruct Hyp as [Hc | Hf]; [now left|]. right. now inversion Hf. }
    destruct (@step_unconnected w ie U He)
      as (U' & (rs & R' & Ra & Rb) & D' & S' & H').
    destruct (IH (step ucd_upper parse_url w ie)) as (I1 & I2 & I3 & I4).
    + destruct Hyp as [Hc | Hf]; [left; congruence|]. right. now inversion Hf.
    + exact U'.
    + rewrite R'. apply Forall_app. now split.
    + intros Hc. rewrite S' in Hc. rewrite R', (Rb Hc), (R0 Hc). reflexivity.
    + congruence.
    + intros Hc. rewrite S' in Hc. destruct (H' Hc) as (Ha & Hb).
      destruct (Hh Hc) as (Hc1 & Hc2). split; congruence.
    + split; [exact I1|]. split; [exact I2|]. split; [exact I3|].
      intros Hc. apply I4. congruence.
Qed.

(** Until somebody is signed in, the page talks to the identity service
    only.  If the client is not configured, or no session has arrived,
    then whatever else happens (the forms are filled in and submitted,
    buttons are clicked, the transport reports events) every request
    that has been sent is a call of [supabase.auth] (sign in, sign up or
    sign out), none went to the tables or the functions of the
    database, the database is as it was, no connection has been
    constructed and the memo holds no provider.  When the client is not
    configured no request at all has been sent, and the address and the
    room are as they were when the page was loaded. *)
Theorem signed_out_page_is_inert
    (i0 : Inputs) (h : History) (c : bool) (d : Database)
    (trace : list (Inputs * Event)) :
  c = false
  \/ Forall (fun ie => forall s, snd ie <> AuthStateChange (Some s)) trace ->
  session (react (run ucd_upper parse_url (mount ucd_upper i0 h c d) trace))
  = None
  /\ Forall (fun r => to_identity_service r = true)
       (requests (run ucd_upper parse_url (mount ucd_upper i0 h c d) trace))
  /\ db (run ucd_upper parse_url (mount ucd_upper i0 h c d) trace) = d
  /\ providers (run ucd_upper parse_url (mount ucd_upper i0 h c d) trace) = []
  /\ provider (hooks (run ucd_upper parse_url (mount ucd_upper i0 h c d)
                        trace)) = None
  /\ (c = false ->
      requests (run ucd_upper parse_url (mount ucd_upper i0 h c d) trace) = []
      /\ history (run ucd_upper parse_url (mount ucd_upper i0 h c d) trace) = h
      /\ roomId (react (run ucd_upper parse_url (mount ucd_upper i0 h c d)
                          trace))
         = getRoomFromUrl h).
Proof.
  intros Hyp.
  assert (Hm : unconnected (mount ucd_upper i0 h c d)
               /\ requests (mount ucd_upper i0 h c d) = []
               /\ db (mount ucd_upper i0 h c d) = d
               /\ supabase (mount ucd_upper i0 h c d) = c
               /\ history (mount ucd_upper i0 h c d) = h
               /\ roomId (react (mount ucd_upper i0 h c d))
                  = getRoomFromUrl h).
  { unfold mount, settle.
    assert (U0 : unconnected (initial h c d)) by (repeat split).
    pose proof (@commit_unconnected i0 _ U0) as U1.
    pose proof (@commit_signed_out_form i0 _ (proj1 U0)) as F1.
    set (w1 := commit ucd_upper i0 (initial h c d)) in *.
    pose proof (@commit_unconnected i0 _ U1) as U2.
    pose proof (@commit_signed_out_form i0 _ (proj1 U1)) as F2.
    set (w2 := commit ucd_upper i0 w1) in *.
    destruct F1 as (_ & _ & A3 & _ & _ & _ & _ & _ & A9 & A10 & A11 & A12).
    destruct F2 as (_ & _ & B3 & _ & _ & _ & _ & _ & B9 & B10 & B11 & B12).
    split; [exact U2|].
    split; [rewrite B12, A12; reflexivity|].
    split; [rewrite B10, A10; reflexivity|].
    split; [rewrite B9, A9; reflexivity|].
    split; [rewrite B11, A11; reflexivity|].
    rewrite B3, A3; reflexivity. }
  destruct Hm as (U & R & D & S & Hh & Hr).
  unfold run.
  destruct (@fold_step_unconnected h d trace (mount ucd_upper i0 h c d))
    as ((I1 & I2 & I3) & I4 & I5 & I6).
  - destruct Hyp as [Hc | Hf]; [left; congruence | now right].
  - exact U.
  - rewrite R. constructor.
  - intros _. exact R.
  - exact D.
  - intros _. split; assumption.
  - split; [exact I1|]. split; [exact I4|]. split; [exact I5|].
    split; [exact I2|]. split; [exact I3|].
    intros Hc. apply I6. congruence.
Qed.

(** *** The live connection in every state the page reaches *)

Lemma handle_live (i : Inputs) (e : Event) (w : World) :
  live_store w -> live_store (handle ucd_upper parse_url i e w).
Proof.
  intros H. destruct e; cbn [handle].
  - destruct (supabase w); [|exact H].
    eapply live_store_same_store; [|exact H]. split; reflexivity.
  - eapply live_store_same_store; [|exact H]. split; reflexivity.
  - eapply live_store_same_store; [|exact H]. split; reflexivity.
  - eapply live_store_same_store; [|exact H]. apply handleSignIn_store.
  - eapply live_store_same_store; [|exact H]. apply handleSignUp_store.
  - eapply live_store_same_store; [|exact H]. split; reflexivity.
  - eapply live_store_same_store; [|exact H]. split; reflexivity.
  - eapply live_store_same_store; [|exact H].
    apply (handleCreateRoom_frame ucd_upper i w).
  - eapply live_store_same_store; [|exact H].
    apply (joinRoomByKey_frame ucd_upper (roomKeyInput (react w)) i 0 w).
  - eapply live_store_same_store; [|exact H].
    apply (handleJoinByInvite_frame ucd_upper parse_url i w).
  - eapply live_store_same_store; [|exact H].
    apply handleSignOut_store.
  - eapply live_store_same_store; [|exact H].
    destruct (emit_status_cells pid event_status w). now split.
  - match goal with
    | |- live_store (emit_change pid ?x) =>
        destruct (emit_change_cells pid x) as (Ep & Eh);
        apply (@live_store_same_store x); [now split|]
    end.
    revert H. apply live_store_akin; try reflexivity.
    apply akin_update_states.
Qed.

Lemma run_invite_effect_live (i : Inputs) (w : World) :
  live_store w -> live_store (run_invite_effect ucd_upper i w).
Proof.
  intros H. unfold run_invite_effect.
  destruct (invite_deps_eqb _ _); [exact H|].
  match goal with
  | |- live_store (invite_effect _ i ?x) =>
      apply (@live_store_same_store x);
        [apply (invite_effect_frame ucd_upper i x)|]
  end.
  revert H. apply live_store_akin; try reflexivity.
  apply akin_store_refl.
Qed.

Lemma commit_Inv2 (i : Inputs) (w : World) :
  Inv2 w -> Inv2 (commit ucd_upper i w).
Proof.
  intros (HI & HL). split; [now apply commit_Inv|].
  unfold commit. apply run_invite_effect_live.
  apply run_session_effect_live.
  - apply render_provider_Inv, render_user_Inv, HI.
  - apply render_provider_mid.
    + apply render_user_Inv, HI.
    + apply render_user_live, HL.
Qed.

Lemma step_Inv2 (w : World) (ie : Inputs * Event) :
  Inv2 w -> Inv2 (step ucd_upper parse_url w ie).
Proof.
  intros (HI & HL). unfold step, settle.
  apply commit_Inv2, commit_Inv2. split.
  - apply handle_Inv, HI.
  - apply handle_live, HL.
Qed.

Lemma run_Inv2 (i0 : Inputs) (h : History) (c : bool) (d : Database)
    (trace : list (Inputs * Event)) :
  Inv2 (run ucd_upper parse_url (mount ucd_upper i0 h c d) trace).
Proof.
  assert (Hm : Inv2 (mount ucd_upper i0 h c d)).
  { unfold mount, settle. apply commit_Inv2, commit_Inv2.
    split.
    - split; [|split; [|split; [|split]]].
      + intros pid p Hp. destruct pid; discriminate.
      + intros u Hu. discriminate.
      + intros r t H. discriminate.
      + intros pid H. discriminate.
      + intros pid n H. discriminate.
    - split; [split; [|split]|split; [|split; [|split]]].
      + intros pid n H. discriminate.
      + intros pid u H. discriminate.
      + intros pid u H. discriminate.
      + intros pid n H. discriminate.
      + intros pid p Hp. destruct pid; discriminate.
      + intros pid H. discriminate.
      + intros r t H. discriminate. }
  unfold run. generalize dependent (mount ucd_upper i0 h c d).
  induction trace as [|ie trace IH]; intros w Hw; [exact Hw|].
  rewrite fold_left_cons. apply IH, step_Inv2, Hw.
Qed.

(** At most one connection is open, and it is the right one: in every
    state the page reaches, a provider that has not been destroyed is
    the provider of the memo, its listeners are those of the last run of
    the session effect, and it was constructed for the room id and the
    token of that state.  The memo holds a provider exactly when the
    token and the room id are both non-empty. *)
Theorem one_live_connection
    (i0 : Inputs) (h : History) (c : bool) (d : Database)
    (trace : list (Inputs * Event)) :
  (forall pid p,
     nth_error (providers (run ucd_upper parse_url (mount ucd_upper i0 h c d)
                             trace)) pid = Some p ->
     destroyed p = false ->
     provider (hooks (run ucd_upper parse_url (mount ucd_upper i0 h c d)
                        trace)) = Some pid
     /\ roomname p
        = roomId (react (run ucd_upper parse_url (mount ucd_upper i0 h c d)
                           trace))
     /\ params_token p
        = token (run ucd_upper parse_url (mount ucd_upper i0 h c d) trace)
     /\ exists n,
          cleanup (hooks (run ucd_upper parse_url (mount ucd_upper i0 h c d)
                            trace)) = Some (pid, n)
          /\ status_observers p = [n] /\ change_observers p = [n])
  /\ (provider (hooks (run ucd_upper parse_url (mount ucd_upper i0 h c d)
                          trace)) <> None
      <-> truthy (token (run ucd_upper parse_url (mount ucd_upper i0 h c d)
                           trace)) = true
          /\ truthy (roomId (react (run ucd_upper parse_url
                                      (mount ucd_upper i0 h c d) trace)))
             = true).
Proof.
  destruct (run_Inv2 i0 h c d trace)
    as (_ & (C1 & _ & _) & L & U & P & Q).
  destruct (run_Inv_stable ucd_upper parse_url i0 h c d trace)
    as (_ & (Hpd & Hed) & _).
  generalize dependent (run ucd_upper parse_url (mount ucd_upper i0 h c d)
                          trace).
  intros w C1 L U P Q Hpd Hed. split.
  - intros pid p Hp Hd.
    destruct (U pid p Hp Hd) as (n & Hn).
    destruct (C1 pid n Hn) as (u & Hu).
    assert (Hpr : provider (hooks w) = Some pid) by congruence.
    destruct (P pid Hpr) as (p' & r & t & Hp' & Hdeps & Hr & Ht & _).
    destruct (L pid n Hn) as (p'' & Hp'' & Hs & Hc).
    assert (p' = p) by congruence. assert (p'' = p) by congruence.
    subst p' p''.
    rewrite Hpd in Hdeps. inversion Hdeps as [[Er Et]].
    split; [exact Hpr|]. split; [congruence|]. split; [congruence|].
    exists n. split; [exact Hn|]. split; assumption.
  - split.
    + destruct (provider (hooks w)) as [pid|] eqn:Hpr;
        [|intros Hne; now elim Hne].
      intros _.
      destruct (P pid Hpr) as (p & r & t & _ & Hdeps & _ & _ & Tr & Tt).
      rewrite Hpd in Hdeps. inversion Hdeps as [[Er Et]].
      rewrite Er, Et. now split.
    + intros (Tt & Tr). exact (Q _ _ Hpd Tr Tt).
Qed.

(** *** The address and the state *)

Lemma joinRoomByKey_address (keyValue : jsstring) (i : Inputs) (n : nat)
    (w : World) :
  address_agrees w -> address_agrees (joinRoomByKey ucd_upper keyValue i n w).
Proof.
  intros (Hr & Hk).
  destruct (joinRoomByKey_inv ucd_upper keyValue i n w)
    as [_ -> | s _ _ _ -> | s e _ _ _ _ -> | s r d1 _ _ _ _ ->];
    try (split; assumption).
  split; cbn.
  - symmetry. apply updateRoomInUrl_read_back_room.
  - symmetry. apply updateRoomInUrl_invite_absent.
Qed.

Lemma handleCreateRoom_address (i : Inputs) (w : World) :
  address_agrees w -> address_agrees (handleCreateRoom ucd_upper i w).
Proof.
  intros (Hr & Hk). unfold handleCreateRoom.
  destruct (supabase w); [|split; assumption].
  destruct (session (react w)) as [s|]; [|split; assumption].
  destruct (insert_room _ _ _ _ _) as [e|[x d1]]; [split; assumption|].
  destruct (upsert_room_member _ _ _ _ _); [split; assumption|].
  split; cbn.
  - symmetry. apply updateRoomInUrl_read_back_room.
  - symmetry. apply updateRoomInUrl_invite_absent.
Qed.

Lemma address_agrees_form (w w' : World) :
  same_form w w' -> address_agrees w -> address_agrees w'.
Proof.
  intros (_ & _ & E3 & _ & _ & _ & _ & E8 & _ & _ & E11 & _) (Hr & Hk).
  split; congruence.
Qed.

Lemma handle_address (i : Inputs) (e : Event) (w : World) :
  address_agrees w -> address_agrees (handle ucd_upper parse_url i e w).
Proof.
  intros H. destruct e; cbn [handle].
  - destruct (supabase w); exact H.
  - exact H.
  - exact H.
  - unfold handleSignIn. destruct (negb (supabase w)), (auth_error i); exact H.
  - unfold handleSignUp. destruct (negb (supabase w)), (auth_error i); exact H.
  - exact H.
  - exact H.
  - now apply handleCreateRoom_address.
  - now apply joinRoomByKey_address.
  - unfold handleJoinByInvite.
    destruct (negb (truthy (trim (inviteInput (react w))))); [exact H|].
    now apply joinRoomByKey_address.
  - unfold handleSignOut. destruct (negb (supabase w)); [exact H|].
    destruct (auth_error i); (split; cbn;
      [symmetry; apply updateRoomInUrl_read_back_room
      |symmetry; apply updateRoomInUrl_invite_absent]).
  - eapply address_agrees_form; [apply emit_status_form | exact H].
  - eapply address_agrees_form; [apply emit_change_form | exact H].
Qed.

Lemma commit_address (i : Inputs) (w : World) :
  address_agrees w -> address_agrees (commit ucd_upper i w).
Proof.
  intros H.
  destruct (commit_shape i w) as [F | (w0 & s & F & _ & _ & _ & ->)].
  - exact (address_agrees_form F H).
  - apply joinRoomByKey_address. exact (address_agrees_form F H).
Qed.

(** The address always names what the page shows: in every state the
    page reaches, the selected room is the room the address names
    ([room], or the legacy [doc]) and the pending invite is the [invite]
    parameter of the address.  Loading the address again selects the
    same room and the same pending invite. *)
Theorem address_always_names_the_room
    (i0 : Inputs) (h : History) (c : bool) (d : Database)
    (trace : list (Inputs * Event)) :
  address_agrees (page_after ucd_upper parse_url i0 h c d trace)
  /\ roomId (react (initial
                      (history (page_after ucd_upper parse_url i0 h c d trace))
                      c d))
     = roomId (react (page_after ucd_upper parse_url i0 h c d trace))
  /\ inviteKey (react (initial
                         (history (page_after ucd_upper parse_url i0 h c d
                                     trace))
                         c d))
     = inviteKey (react (page_after ucd_upper parse_url i0 h c d trace)).
Proof.
  assert (H : address_agrees (page_after ucd_upper parse_url i0 h c d trace)).
  { unfold page_after, run.
    assert (Hm : address_agrees (mount ucd_upper i0 h c d)).
    { unfold mount, settle. apply commit_address, commit_address.
      split; reflexivity. }
    generalize dependent (mount ucd_upper i0 h c d).
    induction trace as [|ie trace IH]; intros w Hw; [exact Hw|].
    rewrite fold_left_cons. apply IH.
    unfold step, settle. apply commit_address, commit_address, handle_address.
    exact Hw. }
  split; [exact H|]. destruct H as (Hr & Hk).
  split; cbn [initial react roomId inviteKey]; congruence.
Qed.

(** *** Events of the transport *)

Lemma stable_view (w w' : World) :
  hooks w' = hooks w -> session (react w') = session (react w) ->
  sessionStamp (react w') = sessionStamp (react w) ->
  roomId (react w') = roomId (react w) ->
  inviteKey (react w') = inviteKey (react w) ->
  stable w -> stable w'.
Proof.
  intros Eh Es Et Er Ek ((S1 & S2) & S3 & S4).
  assert (Etok : token w' = token w) by (unfold token; now rewrite Es).
  unfold stable, synced. rewrite Eh, Et, Er, Ek, Etok.
  repeat split; assumption.
Qed.

Lemma step_of_stable (i : Inputs) (e : Event) (w : World) :
  stable (handle ucd_upper parse_url i e w) ->
  step ucd_upper parse_url w (i, e) = handle ucd_upper parse_url i e w.
Proof.
  intros H. unfold step, settle. cbn [fst snd].
  now rewrite !(@stable_commit ucd_upper i _ H).
Qed.

Lemma is_live_true (pid : nat) (w : World) :
  is_live pid w = true -> exists n, cleanup (hooks w) = Some (pid, n).
Proof.
  unfold is_live. destruct (cleanup (hooks w)) as [[q n]|]; [|discriminate].
  intros H. apply Nat.eqb_eq in H. subst q. eauto.
Qed.

Lemma is_live_false (pid : nat) (w : World) :
  is_live pid w = false -> forall n, cleanup (hooks w) <> Some (pid, n).
Proof.
  unfold is_live. intros H n Hc. rewrite Hc, Nat.eqb_refl in H. discriminate.
Qed.

(** An event of the transport in a settled state: it is handled by the
    listeners of the live session, and by nothing else. *)
Lemma events_of_stable (i : Inputs) (pid : nat) (s : jsstring)
    (sts : list (N * AwarenessState)) (w : World) :
  Inv2 w -> stable w ->
  status (react (step ucd_upper parse_url w (i, TransportStatus pid s)))
  = (if is_live pid w then s else status (react w))
  /\ users (react (step ucd_upper parse_url w (i, TransportStatus pid s)))
     = users (react w)
  /\ users (react (step ucd_upper parse_url w (i, AwarenessChange pid sts)))
     = (if is_live pid w then users_of_states sts else users (react w))
  /\ status (react (step ucd_upper parse_url w (i, AwarenessChange pid sts)))
     = status (react w).
Proof.
  intros ((Ho & _) & _ & L & _) Hst.
  assert (Hstatus : handle ucd_upper parse_url i (TransportStatus pid s) w
                    = if is_live pid w then setStatus s w else w).
  { cbn [handle]. destruct (is_live pid w) eqn:El.
    - destruct (@is_live_true _ _ El) as (n & Hn).
      destruct (L pid n Hn) as (p & Hp & Hs & _).
      unfold emit_status. rewrite Hp, Hs. reflexivity.
    - destruct (emit_status_cases pid s w) as [E | (p & n & Hp & Hin & _)];
        [exact E|].
      exfalso. apply (@is_live_false _ _ El n).
      apply (Ho pid p Hp). now left. }
  assert (Hchange : handle ucd_upper parse_url i (AwarenessChange pid sts) w
                    = if is_live pid w
                      then setUsers (users_of_states sts)
                             (with_providers
                                (update_nth pid (map_states (fun _ => sts))) w)
                      else with_providers
                             (update_nth pid (map_states (fun _ => sts))) w).
  { cbn [handle].
    set (x := with_providers (update_nth pid (map_states (fun _ => sts))) w).
    destruct (is_live pid w) eqn:El.
    - destruct (@is_live_true _ _ El) as (n & Hn).
      destruct (L pid n Hn) as (p & Hp & _ & Hc).
      assert (Hx : nth_error (providers x) pid
                   = Some (map_states (fun _ => sts) p)).
      { unfold x. cbn [providers with_providers].
        rewrite nth_error_update_nth, Nat.eqb_refl, Hp. reflexivity. }
      unfold emit_change. rewrite Hx. cbn [change_observers map_states].
      rewrite Hc. cbn [fold_left]. unfold handleAwareness. rewrite Hx.
      reflexivity.
    - destruct (emit_change_cases pid x) as [E | (p' & n & Hp' & Hin & _)];
        [exact E|].
      exfalso. apply (@is_live_false _ _ El n).
      destruct (@set_states_observers _ _ _ _ _ Hp') as (p & Hp & _ & Ec).
      apply (Ho pid p Hp). right. now rewrite <- Ec. }
  rewrite !step_of_stable.
  - rewrite Hstatus, Hchange. destruct (is_live pid w); repeat split.
  - rewrite Hchange.
    destruct (is_live pid w); revert Hst; apply stable_view; reflexivity.
  - rewrite Hstatus.
    destruct (is_live pid w); revert Hst; apply stable_view; reflexivity.
Qed.

Lemma run_snoc (w : World) (trace : list (Inputs * Event))
    (ie : Inputs * Event) :
  run ucd_upper parse_url w (trace ++ [ie])
  = step ucd_upper parse_url (run ucd_upper parse_url w trace) ie.
Proof. unfold run. now rewrite fold_left_app. Qed.

(** What the transport reports is shown for the live connection and for
    no other: in a state the page reaches, a status event of the
    provider whose session is live sets the status shown to the status
    reported, and a change of awareness of that provider sets the list
    of participants to the users among the awareness states; events of
    any other provider change neither.  A status event never changes the
    participants, a change of awareness never the status. *)
Theorem transport_events_reach_the_view
    (i0 : Inputs) (h : History) (c : bool) (d : Database)
    (trace : list (Inputs * Event)) (i : Inputs) (pid : nat)
    (s : jsstring) (sts : list (N * AwarenessState)) :
  status (react (step ucd_upper parse_url
                   (page_after ucd_upper parse_url i0 h c d trace)
                   (i, TransportStatus pid s)))
  = (if is_live pid (page_after ucd_upper parse_url i0 h c d trace)
     then s
     else status (react (page_after ucd_upper parse_url i0 h c d trace)))
  /\ users (react (step ucd_upper parse_url
                     (page_after ucd_upper parse_url i0 h c d trace)
                     (i, TransportStatus pid s)))
     = users (react (page_after ucd_upper parse_url i0 h c d trace))
  /\ users (react (step ucd_upper parse_url
                     (page_after ucd_upper parse_url i0 h c d trace)
                     (i, AwarenessChange pid sts)))
     = (if is_live pid (page_after ucd_upper parse_url i0 h c d trace)
        then users_of_states sts
        else users (react (page_after ucd_upper parse_url i0 h c d trace)))
  /\ status (react (step ucd_upper parse_url
                      (page_after ucd_upper parse_url i0 h c d trace)
                      (i, AwarenessChange pid sts)))
     = status (react (page_after ucd_upper parse_url i0 h c d trace)).
Proof.
  unfold page_after.
  apply events_of_stable; [apply run_Inv2 | apply run_Inv_stable].
Qed.

(** *** Signing out *)

Lemma page_after_supabase (i0 : Inputs) (h : History) (c : bool)
    (d : Database) (trace : list (Inputs * Event)) :
  supabase (page_after ucd_upper parse_url i0 h c d trace) = c.
Proof.
  unfold page_after, run.
  assert (Hm : supabase (mount ucd_upper i0 h c d) = c).
  { unfold mount, settle.
    destruct (commit_form_cases i0 (initial h c d)) as (_ & _ & A).
    destruct (commit_form_cases i0 (commit ucd_upper i0 (initial h c d)))
      as (_ & _ & B).
    rewrite B, A. reflexivity. }
  generalize dependent (mount ucd_upper i0 h c d).
  induction trace as [|ie trace IH]; intros w Hw; [exact Hw|].
  rewrite fold_left_cons. apply IH.
  destruct (step_form_cases w ie) as (_ & _ & A). congruence.
Qed.

Lemma closed_room_idle (w : World) :
  Inv2 w -> stable w -> roomId (react w) = [] ->
  status (react w) = js "disconnected" /\ users (react w) = []
  /\ provider (hooks w) = None
  /\ forall pid p, nth_error (providers w) pid = Some p ->
                   destroyed p = true /\ detached p.
Proof.
  intros ((Ho & Hi & M1 & _) & _ & _ & U & _) ((Hpd & Hed) & _) Hr.
  assert (Hp : provider (hooks w) = None).
  { apply (M1 _ _ Hpd). right. now rewrite Hr. }
  rewrite Hp in Hed. destruct (Hi _ Hed) as (H1 & H2 & H3).
  split; [exact H1|]. split; [exact H2|]. split; [exact Hp|].
  intros pid p Hpp. split.
  - destruct (destroyed p) eqn:Ed; [reflexivity|].
    destruct (U pid p Hpp Ed) as (n & Hn). congruence.
  - exact (owned_idle_detached Ho H3 pid Hpp).
Qed.

Lemma handleSignOut_fields (i : Inputs) (w : World) :
  supabase w = true ->
  session (react (handleSignOut i w))
  = match auth_error i with
    | None => None
    | Some _ => session (react w)
    end
  /\ roomId (react (handleSignOut i w)) = []
  /\ roomKeyInput (react (handleSignOut i w)) = []
  /\ inviteInput (react (handleSignOut i w)) = []
  /\ roomError (react (handleSignOut i w)) = []
  /\ inviteKey (react (handleSignOut i w)) = []
  /\ db (handleSignOut i w) = db w
  /\ requests (handleSignOut i w) = requests w ++ [AuthSignOut]
  /\ history (handleSignOut i w) = updateRoomInUrl [] (history w).
Proof.
  intros Hs. unfold handleSignOut. rewrite Hs.
  destruct (auth_error i); repeat split.
Qed.

Lemma commit_no_invite_form (i : Inputs) (w : World) :
  inviteKey (react w) = [] -> same_form w (commit ucd_upper i w).
Proof.
  intros Hk.
  destruct (commit_shape i w) as [H | (w0 & s & F & _ & _ & Et & _)];
    [exact H|].
  destruct F as (_ & _ & _ & _ & _ & _ & _ & F8 & _).
  rewrite F8, Hk in Et. discriminate.
Qed.

Lemma step_sign_out (i : Inputs) (w : World) :
  supabase w = true -> Inv2 w ->
  Inv2 (step ucd_upper parse_url w (i, ClickSignOut))
  /\ stable (step ucd_upper parse_url w (i, ClickSignOut))
  /\ same_form (handleSignOut i w)
       (step ucd_upper parse_url w (i, ClickSignOut)).
Proof.
  intros Hs HI2.
  split; [now apply step_Inv2|].
  split; [apply step_Inv_stable, HI2|].
  assert (E : step ucd_upper parse_url w (i, ClickSignOut)
              = commit ucd_upper i (commit ucd_upper i (handleSignOut i w)))
    by reflexivity.
  rewrite E.
  destruct (@handleSignOut_fields i w Hs) as (_ & _ & _ & _ & _ & H6 & _).
  pose proof (@commit_no_invite_form i _ H6) as F1.
  eapply same_form_trans; [exact F1|].
  apply commit_no_invite_form.
  destruct F1 as (_ & _ & _ & _ & _ & _ & _ & E8 & _). congruence.
Qed.

(* The statements below name the state after a step; implicit arguments
   are not inferred for them. *)
Unset Implicit Arguments.

(** Signing out closes the room, whatever the identity service answers.
    After a click on [Sign out] in any state the page reaches (with the
    client configured) one request has been sent, the call of
    [supabase.auth.signOut()], and none to the database, which is as it
    was; the session is gone when the call succeeded and is the one
    there was when it returned an error; in both cases no room is
    selected, the fields of the room forms, the error and the pending
    invite are empty, the address names no room and no invite, the
    status shown is [disconnected] with no participants, the memo holds
    no provider, and every provider ever constructed is destroyed and
    has no listener left. *)
Theorem sign_out_resets_the_page
    (i0 : Inputs) (h : History) (c : bool) (d : Database)
    (trace : list (Inputs * Event)) (i : Inputs) (w' : World) :
  c = true ->
  w' = step ucd_upper parse_url
         (page_after ucd_upper parse_url i0 h c d trace) (i, ClickSignOut) ->
  (session (react w')
   = match auth_error i with
     | None => None
     | Some _ =>
         session (react (page_after ucd_upper parse_url i0 h c d trace))
     end
   /\ roomId (react w') = []
   /\ roomKeyInput (react w') = [] /\ inviteInput (react w') = []
   /\ roomError (react w') = [] /\ inviteKey (react w') = [])
  /\ (getRoomFromUrl (history w') = [] /\ getInviteFromUrl (history w') = [])
  /\ (status (react w') = js "disconnected" /\ users (react w') = []
      /\ provider (hooks w') = None)
  /\ (forall pid p, nth_error (providers w') pid = Some p ->
                    destroyed p = true /\ detached p)
  /\ db w' = db (page_after ucd_upper parse_url i0 h c d trace)
  /\ requests w'
     = requests (page_after ucd_upper parse_url i0 h c d trace)
       ++ [AuthSignOut].
Proof.
  intros Hc Hw'. subst c w'.
  pose proof (page_after_supabase i0 h true d trace) as Hs.
  pose proof (run_Inv2 i0 h true d trace) as HI2.
  fold (page_after ucd_upper parse_url i0 h true d trace) in HI2.
  generalize dependent (page_after ucd_upper parse_url i0 h true d trace).
  intros w Hs HI2.
  destruct (@step_sign_out i w Hs HI2) as (HI2' & Hst' & F).
  destruct (@handleSignOut_fields i w Hs)
    as (G1 & G3 & G4 & G5 & G6 & G8 & G10 & G12 & G11).
  destruct F as (F1 & _ & F3 & F4 & F5 & F6 & _ & F8 & _ & F10 & F11 & F12).
  destruct (@closed_room_idle _ HI2' Hst') as (I1 & I2 & I3 & I4);
    [congruence|].
  split.
  { split; [congruence|]. split; [congruence|]. split; [congruence|].
    split; [congruence|]. split; congruence. }
  split.
  { rewrite F11, G11. split.
    - apply updateRoomInUrl_read_back_room.
    - apply updateRoomInUrl_invite_absent. }
  split; [split; [exact I1 | split; [exact I2 | exact I3]]|].
  split; [exact I4|]. split; congruence.
Qed.

(** *** A session that is replaced while a room is open *)

Lemma or_else_nil (v : jsstring) : or_else v [] = v.
Proof.
  unfold or_else. destruct (truthy v) eqn:E; [reflexivity|].
  symmetry. now apply truthy_false.
Qed.

Lemma invite_deps_eqb_eq (a : option (jsstring * nat)) (b : jsstring * nat) :
  invite_deps_eqb a b = true -> a = Some b.
Proof.
  destruct a as [[k n]|], b as [k' n']; cbn; [|discriminate].
  intros H. apply andb_true_iff in H as [H1 H2].
  apply eqb_eq in H1. apply Nat.eqb_eq in H2. now subst.
Qed.

Lemma emit_change_status (pid : nat) (w : World) :
  status (react (emit_change pid w)) = status (react w).
Proof.
  destruct (emit_change_cases pid w) as [-> | (p & n & _ & _ & ->)];
    reflexivity.
Qed.

Lemma status_session_effect (pid : nat) (w : World) :
  provider (hooks w) = Some pid ->
  status (react (session_effect w)) = js "connecting".
Proof.
  intros Hp. unfold session_effect. rewrite Hp.
  cbn [react set_cleanup with_hooks].
  unfold handleAwareness.
  match goal with
  | |- context [nth_error (providers ?x) pid] =>
      destruct (nth_error (providers x) pid)
  end;
    cbn [react setUsers with_react status on_change with_providers];
    unfold setLocalStateField_user; rewrite emit_change_status; reflexivity.
Qed.

Lemma run_session_effect_rerun (w : World) (pid n : nat)
    (p : WebsocketProvider) :
  effect_deps_eqb (effectDeps (hooks w))
    (provider (hooks w), userDeps (hooks w)) = false ->
  provider (hooks w) = Some pid -> cleanup (hooks w) = Some (pid, n) ->
  nth_error (providers w) pid = Some p ->
  nth_error (providers (run_session_effect w)) pid
  = Some (subscribed (effectRuns (hooks w)) (user (hooks w)) (torn_down n p))
  /\ status (react (run_session_effect w)) = js "connecting"
  /\ cleanup (hooks (run_session_effect w)) = Some (pid, effectRuns (hooks w))
  /\ length (providers (run_session_effect w)) = length (providers w).
Proof.
  intros He Hp Hc Hn. unfold run_session_effect. rewrite He.
  destruct (hooks_run_cleanup w) as (K1 & K2 & K3 & K4 & K5 & K6 & K7 & K8).
  destruct (hooks_session_effect (run_cleanup w)) as (S1 & _).
  cbn [providers react hooks set_effectDeps with_hooks cleanup].
  split; [|split; [|split]].
  - rewrite nth_error_session_effect, K4, Hp, Nat.eqb_refl.
    rewrite nth_error_run_cleanup, Hc, Nat.eqb_refl, Hn, K8, K2.
    reflexivity.
  - apply (@status_session_effect pid). congruence.
  - rewrite S1, K4, Hp, K8. reflexivity.
  - apply session_effect_length.
Qed.

Lemma commit_after_refresh (i : Inputs) (w : World) (pid n k : nat)
    (p : WebsocketProvider) :
  Inv w ->
  userDeps (hooks w) = Some k -> k <> sessionStamp (react w) ->
  providerDeps (hooks w) = Some (roomId (react w), token w) ->
  effectDeps (hooks w) = Some (Some pid, Some k) ->
  provider (hooks w) = Some pid -> cleanup (hooks w) = Some (pid, n) ->
  nth_error (providers w) pid = Some p ->
  inviteKey (react w) = [] ->
  stable (commit ucd_upper i w)
  /\ provider (hooks (commit ucd_upper i w)) = Some pid
  /\ is_live pid (commit ucd_upper i w) = true
  /\ status (react (commit ucd_upper i w)) = js "connecting"
  /\ (exists p', nth_error (providers (commit ucd_upper i w)) pid = Some p'
                 /\ destroyed p' = true)
  /\ length (providers (commit ucd_upper i w)) = length (providers w).
Proof.
  intros HI Hud Hk Hpd Hed Hp Hc Hn Hik. unfold commit.
  (* the user memo is computed again *)
  assert (Ha : render_user i w
               = set_user (compute_user i w) (Some (sessionStamp (react w))) w).
  { unfold render_user. rewrite Hud. cbn [opt_nat_eqb].
    apply Nat.eqb_neq in Hk. now rewrite Hk. }
  pose proof (@render_user_Inv i w HI) as HIa.
  rewrite Ha in *. clear Ha.
  set (wa := set_user (compute_user i w) (Some (sessionStamp (react w))) w)
    in *.
  (* the provider memo is not *)
  assert (Hb : render_provider i wa = wa).
  { unfold render_provider.
    change (providerDeps (hooks wa)) with (providerDeps (hooks w)).
    change (roomId (react wa)) with (roomId (react w)).
    change (token wa) with (token w).
    rewrite Hpd. cbn [provider_deps_eqb fst snd]. now rewrite !eqb_refl. }
  rewrite Hb. clear Hb.
  (* the session effect runs again, on the same provider *)
  assert (He : effect_deps_eqb (effectDeps (hooks wa))
                 (provider (hooks wa), userDeps (hooks wa)) = false).
  { change (effectDeps (hooks wa)) with (effectDeps (hooks w)).
    change (provider (hooks wa)) with (provider (hooks w)).
    change (userDeps (hooks wa)) with (Some (sessionStamp (react w))).
    rewrite Hed, Hp. cbn [effect_deps_eqb opt_nat_eqb fst snd].
    apply Nat.eqb_neq in Hk. rewrite Hk. apply andb_false_r. }
  destruct (@run_session_effect_rerun wa pid n p He Hp Hc Hn)
    as (R1 & R2 & R3 & R4).
  destruct (@run_session_effect_Inv wa HIa)
    as (HIc & Hedc & Hprc & Hpdc & Hin).
  destruct (run_session_effect_provider wa) as (_ & _ & Hudc & _).
  destruct Hin as (I1 & I2 & I3 & I4 & I5 & _).
  set (wc := run_session_effect wa) in *.
  assert (Htok : token wc = token w) by (apply token_same; exact I1).
  assert (Kr : roomId (react wc) = roomId (react w)) by exact I3.
  assert (Ks : sessionStamp (react wc) = sessionStamp (react w)) by exact I2.
  assert (Kk : inviteKey (react wc) = []) by (rewrite I4; exact Hik).
  assert (Kpd : providerDeps (hooks wc) = Some (roomId (react wc), token wc)).
  { rewrite Hpdc, Kr, Htok. exact Hpd. }
  assert (Kud : userDeps (hooks wc) = Some (sessionStamp (react wc))).
  { rewrite Hudc, Ks. reflexivity. }
  assert (Kpr : provider (hooks wc) = Some pid) by (rewrite Hprc; exact Hp).
  clear Hpdc Hudc Hprc I1 I2 I3 I4 I5.
  clearbody wc.
  (* the invite effect has nothing to do *)
  assert (Hd : stable (run_invite_effect ucd_upper i wc)
               /\ same_store_but_invite wc (run_invite_effect ucd_upper i wc)).
  { unfold run_invite_effect.
    destruct (invite_deps_eqb _ _) eqn:Ei.
    - apply invite_deps_eqb_eq in Ei. split; [|repeat split].
      split; [split; [exact Kpd | exact Hedc] | split; [exact Ei | exact Kud]].
    - unfold invite_effect.
      cbn [react set_inviteDeps with_hooks]. rewrite Kk.
      cbn [truthy negb]. split; [|repeat split].
      unfold stable, synced, token.
      cbn [hooks react set_inviteDeps with_hooks providerDeps effectDeps
           inviteDeps userDeps provider].
      fold (token wc). rewrite Kk.
      split; [split; [exact Kpd | exact Hedc] | split; [reflexivity | exact Kud]]. }
  destruct Hd as (Hst & Ep & Er & Ec & Epr).
  split; [exact Hst|]. split; [now rewrite Epr|].
  split; [unfold is_live; rewrite Ec, R3; apply Nat.eqb_refl|].
  split; [now rewrite Er|].
  split; [|now rewrite Ep].
  rewrite Ep, R1. eexists. split; reflexivity.
Qed.

Lemma setSession_frame (s : AuthSession) (w : World) :
  hooks (setSession (Some s) w) = hooks w
  /\ providers (setSession (Some s) w) = providers w
  /\ sessionStamp (react (setSession (Some s) w)) = S (sessionStamp (react w))
  /\ roomId (react (setSession (Some s) w)) = roomId (react w)
  /\ inviteKey (react (setSession (Some s) w)) = inviteKey (react w)
  /\ token (setSession (Some s) w) = or_else (session_access_token s) [].
Proof. repeat split. Qed.

Lemma step_auth (i : Inputs) (v : option AuthSession) (w : World) :
  supabase w = true ->
  step ucd_upper parse_url w (i, AuthStateChange v)
  = commit ucd_upper i (commit ucd_upper i (setSession v w))
  /\ (Inv w -> Inv (setSession v w)).
Proof.
  intros Hs. split.
  - unfold step, settle. cbn [fst snd handle]. now rewrite Hs.
  - intros HI.
    pose proof (@handle_Inv ucd_upper parse_url i (AuthStateChange v) w HI)
      as H.
    cbn [handle] in H. now rewrite Hs in H.
Qed.

Lemma refresh_of_stable (i : Inputs) (s' : AuthSession) (pid : nat)
    (w : World) :
  supabase w = true -> Inv2 w -> stable w ->
  provider (hooks w) = Some pid -> inviteKey (react w) = [] ->
  session_access_token s' = token w ->
  provider (hooks (step ucd_upper parse_url w (i, AuthStateChange (Some s'))))
  = Some pid
  /\ (exists p',
        nth_error (providers (step ucd_upper parse_url w
                                (i, AuthStateChange (Some s')))) pid = Some p'
        /\ destroyed p' = true)
  /\ is_live pid (step ucd_upper parse_url w (i, AuthStateChange (Some s')))
     = true
  /\ length (providers (step ucd_upper parse_url w
                          (i, AuthStateChange (Some s'))))
     = length (providers w)
  /\ status (react (step ucd_upper parse_url w
                      (i, AuthStateChange (Some s'))))
     = js "connecting".
Proof.
  intros Hs (HI & (_ & C2 & _) & L & _) ((Hpd & Hed) & _ & Hud) Hp Hik Htok.
  rewrite Hp, Hud in Hed.
  destruct (C2 _ _ Hed) as (n & Hn).
  destruct (L _ _ Hn) as (p & Hnth & _).
  destruct (@step_auth i (Some s') w Hs) as (E & HI1).
  specialize (HI1 HI). rewrite E. clear E.
  destruct (setSession_frame s' w) as (Fh & Fp & Fs & Fr & Fk & Ft).
  rewrite or_else_nil, Htok in Ft.
  assert (R : stable (commit ucd_upper i (setSession (Some s') w))
              /\ provider (hooks (commit ucd_upper i (setSession (Some s') w)))
                 = Some pid
              /\ is_live pid (commit ucd_upper i (setSession (Some s') w))
                 = true
              /\ status (react (commit ucd_upper i (setSession (Some s') w)))
                 = js "connecting"
              /\ (exists p',
                    nth_error (providers (commit ucd_upper i
                                            (setSession (Some s') w))) pid
                    = Some p' /\ destroyed p' = true)
              /\ length (providers (commit ucd_upper i
                                      (setSession (Some s') w)))
                 = length (providers (setSession (Some s') w))).
  { apply (@commit_after_refresh i (setSession (Some s') w) pid n
             (sessionStamp (react w)) p HI1).
    - rewrite Fh. exact Hud.
    - rewrite Fs. apply Nat.neq_succ_diag_r.
    - rewrite Fh, Fr, Ft. exact Hpd.
    - rewrite Fh. exact Hed.
    - rewrite Fh. exact Hp.
    - rewrite Fh. exact Hn.
    - rewrite Fp. exact Hnth.
    - rewrite Fk. exact Hik. }
  rewrite Fp in R. clear Fh Fp Fs Fr Fk Ft HI1.
  generalize dependent (setSession (Some s') w). intros w1 R.
  destruct R as (Hst & R1 & R2 & R3 & R4 & R5).
  rewrite (@stable_commit ucd_upper i _ Hst).
  split; [exact R1|]. split; [exact R4|]. split; [exact R2|].
  split; [exact R5 | exact R3].
Qed.

(** A new session object with the same access token costs the room its
    connection.  Take a state the page reaches in which a room is open
    (the memo holds a provider) and no invite is pending, and let the
    auth listener deliver a session whose access token is the token in
    use.  The [user] memo depends on the session object, so the session
    effect runs again; the [provider] memo depends on the token, so it
    keeps its value.  After the step the provider of the memo is the
    same one, it has been destroyed by the cleanup, the listeners of the
    new run are registered on it, no other provider has been
    constructed, and the status shown is [connecting]. *)
Theorem session_replaced_with_same_token
    (i0 : Inputs) (h : History) (c : bool) (d : Database)
    (trace : list (Inputs * Event)) (i : Inputs) (s' : AuthSession)
    (pid : nat) (w' : World) :
  c = true ->
  provider (hooks (page_after ucd_upper parse_url i0 h c d trace))
  = Some pid ->
  inviteKey (react (page_after ucd_upper parse_url i0 h c d trace)) = [] ->
  session_access_token s'
  = token (page_after ucd_upper parse_url i0 h c d trace) ->
  w' = step ucd_upper parse_url
         (page_after ucd_upper parse_url i0 h c d trace)
         (i, AuthStateChange (Some s')) ->
  provider (hooks w') = Some pid
  /\ (exists p', nth_error (providers w') pid = Some p'
                 /\ destroyed p' = true)
  /\ is_live pid w' = true
  /\ length (providers w')
     = length (providers (page_after ucd_upper parse_url i0 h c d trace))
  /\ status (react w') = js "connecting".
Proof.
  intros Hc Hp Hik Htok Hw'. subst c w'.
  apply refresh_of_stable.
  - apply page_after_supabase.
  - apply run_Inv2.
  - apply run_Inv_stable.
  - exact Hp.
  - exact Hik.
  - exact Htok.
Qed.

Lemma cleanup_of_stable (pid : nat) (w : World) :
  Inv2 w -> stable w -> provider (hooks w) = Some pid ->
  exists p,
    nth_error (providers (run_cleanup w)) pid = Some p
    /\ destroyed p = true /\ detached p.
Proof.
  intros (HI & (_ & C2 & _) & _) ((_ & Hed) & _ & Hud) Hp.
  rewrite Hp, Hud in Hed. destruct (C2 _ _ Hed) as (n & Hn).
  destruct (run_cleanup_detaches HI) as (Hd & _).
  destruct HI as (_ & _ & _ & _ & Hlen). specialize (Hlen pid n Hn).
  destruct (nth_error (providers w) pid) as [p|] eqn:Ep.
  2:{ apply nth_error_None in Ep. lia. }
  assert (Hp' : nth_error (providers (run_cleanup w)) pid
                = Some {| roomname := roomname p;
                          params_token := params_token p;
                          clientID := clientID p;
                          status_observers := [];
                          change_observers :=
                            remove_nat n (change_observers p);
                          states := states p; destroyed := true |}).
  { unfold run_cleanup. rewrite Hn. cbn.
    rewrite !nth_error_update_nth, Nat.eqb_refl, Ep. reflexivity. }
  eexists. split; [exact Hp' | split; [reflexivity|]].
  exact (Hd pid _ Hp').
Qed.

Lemma events_after_refresh (j : Inputs) (pid : nat) (st : jsstring)
    (sts : list (N * AwarenessState)) (w' : World) :
  Inv2 w' -> stable w' -> is_live pid w' = true ->
  status (react (step ucd_upper parse_url w' (j, TransportStatus pid st))) = st
  /\ users (react (step ucd_upper parse_url w' (j, AwarenessChange pid sts)))
     = users_of_states sts.
Proof.
  intros HI Hst Hl.
  destruct (@events_of_stable j pid st sts w' HI Hst) as (A & _ & B & _).
  rewrite Hl in A, B. split; assumption.
Qed.

(** C7: a teardown does not silence the session when the effect runs
    again on the same provider.  Take a state the page reaches in which
    a room is open and no invite is pending, and let the auth listener
    deliver a session object whose access token is the token in use.
    The cleanup of the session effect runs: it detaches the two
    listeners and destroys the provider.  The [provider] memo depends on
    the token and keeps the provider; the effect depends on [user],
    which depends on the session object, and runs again on the provider
    it has just destroyed.  After that step the provider of the session
    is destroyed, the status shown is [connecting], and an event of that
    provider is seen by the page: a status event sets the status shown
    to the status reported, an awareness event sets the participants to
    the users among the states. *)
Theorem events_of_torn_down_session_are_seen
    (i0 : Inputs) (h : History) (c : bool) (d : Database)
    (trace : list (Inputs * Event)) (i j : Inputs) (s' : AuthSession)
    (pid : nat) (st : jsstring) (sts : list (N * AwarenessState))
    (w' : World) :
  c = true ->
  provider (hooks (page_after ucd_upper parse_url i0 h c d trace))
  = Some pid ->
  inviteKey (react (page_after ucd_upper parse_url i0 h c d trace)) = [] ->
  session_access_token s'
  = token (page_after ucd_upper parse_url i0 h c d trace) ->
  w' = step ucd_upper parse_url
         (page_after ucd_upper parse_url i0 h c d trace)
         (i, AuthStateChange (Some s')) ->
  (exists p,
      nth_error
        (providers
           (run_cleanup (page_after ucd_upper parse_url i0 h c d trace)))
        pid = Some p
      /\ destroyed p = true /\ detached p)
  /\ (exists p', nth_error (providers w') pid = Some p'
                  /\ destroyed p' = true)
  /\ status (react w') = js "connecting"
  /\ status (react (step ucd_upper parse_url w' (j, TransportStatus pid st)))
     = st
  /\ users (react (step ucd_upper parse_url w' (j, AwarenessChange pid sts)))
     = users_of_states sts.
Proof.
  intros Hc Hp Hik Htok Hw'. subst c.
  assert (HI' : Inv2 w' /\ stable w').
  { subst w'. unfold page_after. rewrite <- run_snoc.
    split; [apply run_Inv2 | apply run_Inv_stable]. }
  destruct (refresh_of_stable i s' pid _
              (page_after_supabase i0 h true d trace)
              (run_Inv2 i0 h true d trace)
              (proj2 (run_Inv_stable ucd_upper parse_url i0 h true d trace))
              Hp Hik Htok) as (_ & R2 & R3 & _ & R5).
  rewrite <- Hw' in R2, R3, R5.
  pose proof (cleanup_of_stable pid _ (run_Inv2 i0 h true d trace)
                (proj2 (run_Inv_stable ucd_upper parse_url i0 h true d trace))
                Hp) as T.
  destruct HI' as (HI' & Hst').
  clear Hw' Hp Hik Htok.
  fold (page_after ucd_upper parse_url i0 h true d trace) in T.
  generalize dependent (page_after ucd_upper parse_url i0 h true d trace).
  intros w T.
  split; [exact T|]. split; [exact R2|]. split; [exact R5|].
  apply events_after_refresh; assumption.
Qed.

(** *** Opening a room *)

Lemma run_invite_effect_store (i : Inputs) (w : World) :
  providers (run_invite_effect ucd_upper i w) = providers w
  /\ provider (hooks (run_invite_effect ucd_upper i w)) = provider (hooks w)
  /\ providerDeps (hooks (run_invite_effect ucd_upper i w))
     = providerDeps (hooks w)
  /\ effectDeps (hooks (run_invite_effect ucd_upper i w))
     = effectDeps (hooks w)
  /\ userDeps (hooks (run_invite_effect ucd_upper i w)) = userDeps (hooks w)
  /\ cleanup (hooks (run_invite_effect ucd_upper i w)) = cleanup (hooks w)
  /\ user (hooks (run_invite_effect ucd_upper i w)) = user (hooks w)
  /\ status (react (run_invite_effect ucd_upper i w)) = status (react w)
  /\ users (react (run_invite_effect ucd_upper i w)) = users (react w).
Proof.
  unfold run_invite_effect. destruct (invite_deps_eqb _ _); [repeat split|].
  match goal with
  | |- context [invite_effect _ i ?x] =>
      destruct (invite_effect_frame ucd_upper i x)
        as ((Ep & Eh) & (Es & Eu) & _)
  end.
  rewrite Ep, Eh, Es, Eu. repeat split.
Qed.

Lemma announced_after_invite_effect (i : Inputs) (pid : nat) (w : World) :
  announced i pid w -> announced i pid (run_invite_effect ucd_upper i w).
Proof.
  intros (p & n & H1 & H2 & Hs & Hc & H3 & H4 & H5 & H6 & H7).
  destruct (run_invite_effect_store i w)
    as (E1 & _ & _ & _ & _ & E6 & E7 & E8 & E9).
  exists p, n. rewrite E1, E6, E7, E8, E9. repeat split; assumption.
Qed.

(** One render with its effects, seen from the [provider] memo. *)
Lemma commit_provider_cases (i : Inputs) (w : World) :
  Inv2 w ->
  (providerDeps (hooks w) = Some (roomId (react w), token w)
   /\ provider (hooks (commit ucd_upper i w)) = provider (hooks w)
   /\ length (providers (commit ucd_upper i w)) = length (providers w))
  \/ ((truthy (token w) = false \/ truthy (roomId (react w)) = false)
      /\ provider (hooks (commit ucd_upper i w)) = None
      /\ length (providers (commit ucd_upper i w)) = length (providers w))
  \/ (providerDeps (hooks w) <> Some (roomId (react w), token w)
      /\ truthy (token w) = true /\ truthy (roomId (react w)) = true
      /\ provider (hooks (commit ucd_upper i w))
         = Some (length (providers w))
      /\ length (providers (commit ucd_upper i w))
         = S (length (providers w))
      /\ announced i (length (providers w)) (commit ucd_upper i w)).
Proof.
  intros ((_ & _ & _ & _ & M3) & (_ & _ & C3) & _).
  unfold commit.
  destruct (run_invite_effect_store i
              (run_session_effect (render_provider i (render_user i w))))
    as (E1 & E2 & _).
  rewrite E1, E2. clear E1 E2.
  rewrite run_session_effect_length.
  rewrite (proj1 (run_session_effect_provider _)).
  destruct (render_user_cells i w) as ((A1 & A2 & A3 & A4 & A5) & A6).
  assert (Atok : token (render_user i w) = token w)
    by (unfold token; now rewrite A6).
  unfold render_provider at 1 2 3 4 5 6.
  rewrite A3, A6, Atok.
  destruct (provider_deps_eqb _ _) eqn:Ed.
  { left. apply provider_deps_eqb_eq in Ed.
    split; [exact Ed|]. split; [exact A2 | now rewrite A1]. }
  assert (Hne : providerDeps (hooks w) <> Some (roomId (react w), token w)).
  { intros H. rewrite H in Ed. cbn in Ed. rewrite !eqb_refl in Ed.
    discriminate. }
  destruct (negb (truthy (token w)) || negb (truthy (roomId (react w))))
    eqn:Et.
  { right. left. split.
    - apply orb_true_iff in Et. destruct Et as [Et | Et];
        apply negb_true_iff in Et; auto.
    - split; [reflexivity | cbn; now rewrite A1]. }
  right. right.
  apply orb_false_elim in Et. destruct Et as (Tt & Tr).
  apply negb_false_iff in Tt. apply negb_false_iff in Tr.
  split; [exact Hne|]. split; [exact Tt|]. split; [exact Tr|].
  cbn [hooks set_provider with_hooks provider providers with_providers].
  rewrite A1.
  split; [reflexivity|].
  split; [rewrite length_app; cbn; lia|].
  apply announced_after_invite_effect.
  (* the store between the render and the session effect *)
  unfold render_provider. rewrite A3, A6, Atok, Ed, Tt, Tr.
  cbn [negb orb]. rewrite A1.
  set (new := new_WebsocketProvider (roomId (react w)) (token w)
                (new_clientID i)).
  set (wb := set_provider (Some (length (providers w)))
               (Some (roomId (react w), token w))
               (with_providers (fun ps => ps ++ [new]) (render_user i w))).
  assert (Hpb : provider (hooks wb) = Some (length (providers w)))
    by reflexivity.
  assert (Hcb : cleanup (hooks wb) = cleanup (hooks w)) by exact A5.
  assert (Heb : effectDeps (hooks wb) = effectDeps (hooks w)) by exact A4.
  assert (Hnb : nth_error (providers wb) (length (providers w)) = Some new).
  { unfold wb. cbn [providers set_provider with_hooks with_providers].
    rewrite A1, nth_error_app2 by lia. now rewrite Nat.sub_diag. }
  clearbody wb.
  (* the effect runs for the new provider *)
  unfold run_session_effect.
  destruct (effect_deps_eqb _ _) eqn:Ee.
  { exfalso. apply effect_deps_eqb_eq in Ee. rewrite Heb, Hpb in Ee.
    pose proof (C3 _ _ Ee). lia. }
  destruct (hooks_run_cleanup wb) as (K1 & K2 & K3 & K4 & K5 & K6 & K7 & K8).
  assert (Hnc : nth_error (providers (run_cleanup wb)) (length (providers w))
                = Some new).
  { rewrite nth_error_run_cleanup, Hcb.
    destruct (cleanup (hooks w)) as [[q n]|] eqn:Ec; [|exact Hnb].
    pose proof (M3 _ _ eq_refl) as Hq.
    replace (Nat.eqb q (length (providers w))) with false
      by (symmetry; apply Nat.eqb_neq; lia).
    exact Hnb. }
  assert (Hpc : provider (hooks (run_cleanup wb))
                = Some (length (providers w))) by congruence.
  destruct (hooks_session_effect (run_cleanup wb)) as (S1 & S2 & _).
  rewrite Hpc in S1.
  exists (subscribed (effectRuns (hooks (run_cleanup wb)))
            (user (hooks (run_cleanup wb))) new),
         (effectRuns (hooks (run_cleanup wb))).
  cbn [providers react hooks set_effectDeps with_hooks cleanup user].
  split.
  { rewrite nth_error_session_effect, Hpc, Nat.eqb_refl, Hnc. reflexivity. }
  split; [exact S1|]. split; [reflexivity|]. split; [reflexivity|].
  split; [reflexivity|]. split; [reflexivity|].
  split.
  { rewrite S2. cbn. now rewrite N.eqb_refl. }
  split; [now apply (@status_session_effect (length (providers w)))|].
  rewrite (@users_session_effect _ _ _ Hpc Hnc), S2.
  cbn. now rewrite N.eqb_refl.
Qed.

Lemma commit_keeps_announced (i : Inputs) (pid : nat) (w : World) :
  announced i pid w ->
  provider (hooks w) = Some pid ->
  providerDeps (hooks w) = Some (roomId (react w), token w) ->
  userDeps (hooks w) = Some (sessionStamp (react w)) ->
  effectDeps (hooks w) = Some (provider (hooks w), userDeps (hooks w)) ->
  announced i pid (commit ucd_upper i w).
Proof.
  intros Ha Hp Hpd Hud Hed. unfold commit.
  assert (H1 : render_user i w = w).
  { unfold render_user. now rewrite Hud, opt_nat_eqb_refl. }
  rewrite H1.
  assert (H2 : render_provider i w = w).
  { unfold render_provider. rewrite Hpd. cbn [provider_deps_eqb fst snd].
    now rewrite !eqb_refl. }
  rewrite H2.
  assert (H3 : run_session_effect w = w).
  { unfold run_session_effect. rewrite Hed. cbn [effect_deps_eqb fst snd].
    now rewrite !opt_nat_eqb_refl. }
  rewrite H3. now apply announced_after_invite_effect.
Qed.

Lemma commit_deps (i : Inputs) (w : World) :
  Inv w ->
  providerDeps (hooks (commit ucd_upper i w))
  = Some (roomId (react w), token w)
  /\ effectDeps (hooks (commit ucd_upper i w))
     = Some (provider (hooks (commit ucd_upper i w)),
             userDeps (hooks (commit ucd_upper i w))).
Proof.
  intros HI. unfold commit.
  destruct (run_invite_effect_store i
              (run_session_effect (render_provider i (render_user i w))))
    as (_ & E2 & E3 & E4 & E5 & _).
  rewrite E2, E3, E4, E5.
  destruct (@run_session_effect_Inv (render_provider i (render_user i w)))
    as (_ & R2 & _ & R4 & _).
  { apply render_provider_Inv, render_user_Inv, HI. }
  split; [|exact R2].
  rewrite R4.
  destruct (render_provider_inputs i (render_user i w)) as (_ & P).
  rewrite P. destruct (render_user_cells i w) as (_ & A6).
  unfold token. now rewrite A6.
Qed.

Lemma handle_store_length (i : Inputs) (e : Event) (w : World) :
  length (providers (handle ucd_upper parse_url i e w)) = length (providers w)
  /\ providerDeps (hooks (handle ucd_upper parse_url i e w))
     = providerDeps (hooks w).
Proof.
  destruct e; cbn [handle].
  - destruct (supabase w); split; reflexivity.
  - split; reflexivity.
  - split; reflexivity.
  - destruct (handleSignIn_store i w) as ((Ep & Eh) & _). now rewrite Ep, Eh.
  - destruct (handleSignUp_store i w) as ((Ep & Eh) & _). now rewrite Ep, Eh.
  - split; reflexivity.
  - split; reflexivity.
  - destruct (handleCreateRoom_frame ucd_upper i w) as ((Ep & Eh) & _).
    now rewrite Ep, Eh.
  - destruct (joinRoomByKey_frame ucd_upper (roomKeyInput (react w)) i 0 w)
      as ((Ep & Eh) & _).
    unfold handleJoinByKey. now rewrite Ep, Eh.
  - destruct (handleJoinByInvite_frame ucd_upper parse_url i w)
      as ((Ep & Eh) & _).
    now rewrite Ep, Eh.
  - destruct (handleSignOut_store i w) as ((Ep & Eh) & _). now rewrite Ep, Eh.
  - destruct (emit_status_cells pid event_status w) as (Ep & Eh).
    now rewrite Ep, Eh.
  - match goal with
    | |- context [emit_change pid ?x] =>
        destruct (emit_change_cells pid x) as (Ep & Eh)
    end.
    rewrite Ep, Eh. cbn. now rewrite update_nth_length.
Qed.

Lemma two_commits_open (i : Inputs) (w1 : World) (r0 t0 : jsstring) :
  Inv2 w1 -> providerDeps (hooks w1) = Some (r0, t0) ->
  providerDeps (hooks (commit ucd_upper i (commit ucd_upper i w1)))
  = Some (roomId (react (commit ucd_upper i (commit ucd_upper i w1))),
          token (commit ucd_upper i (commit ucd_upper i w1))) ->
  truthy (token (commit ucd_upper i (commit ucd_upper i w1))) = true ->
  truthy (roomId (react (commit ucd_upper i (commit ucd_upper i w1)))) = true ->
  roomId (react (commit ucd_upper i (commit ucd_upper i w1))) <> r0
  \/ token (commit ucd_upper i (commit ucd_upper i w1)) <> t0 ->
  exists pid,
    provider (hooks (commit ucd_upper i (commit ucd_upper i w1))) = Some pid
    /\ (length (providers w1) <= pid)%nat
    /\ announced i pid (commit ucd_upper i (commit ucd_upper i w1)).
Proof.
  intros HI1 Hpd1.
  pose proof (@commit_Inv2 i w1 HI1) as HIc.
  destruct (@commit_deps i w1 (proj1 HI1)) as (D1 & D2).
  pose proof (commit_userDeps ucd_upper i w1) as U1.
  pose proof (@commit_provider_cases i w1 HI1) as Cases1.
  destruct (@commit_deps i (commit ucd_upper i w1) (proj1 HIc)) as (D3 & _).
  pose proof (@commit_provider_cases i (commit ucd_upper i w1) HIc) as Cases2.
  pose proof (@commit_keeps_announced i (length (providers w1))
                (commit ucd_upper i w1)) as Keep.
  clear HIc HI1.
  generalize dependent (commit ucd_upper i (commit ucd_upper i w1)).
  intros w' D3 Cases2 Keep.
  generalize dependent (commit ucd_upper i w1).
  intros wc D1 D2 U1 Cases1 D3 Cases2 Keep Hpd' Tt Tr Hch.
  rewrite Hpd' in D3. inversion D3 as [[Er Et]]. clear D3.
  destruct Cases2 as [(K1 & K2 & K3) | [(F1 & _) | (_ & _ & _ & N4 & _ & N6)]].
  - (* the second render keeps the memo *)
    rewrite D1 in K1. inversion K1 as [[Er1 Et1]]. clear K1.
    destruct Cases1
      as [(G1 & _) | [(F1 & _) | (_ & _ & _ & N4 & _ & N6)]].
    + exfalso. rewrite Hpd1 in G1. inversion G1 as [[Er0 Et0]].
      destruct Hch as [Hch | Hch]; apply Hch; congruence.
    + exfalso. rewrite Er1, Et1, <- Er, <- Et, Tt, Tr in F1.
      destruct F1; discriminate.
    + exists (length (providers w1)).
      split; [congruence|]. split; [apply Nat.le_refl|].
      apply Keep.
      * exact N6.
      * exact N4.
      * rewrite D1. congruence.
      * exact U1.
      * exact D2.
  - exfalso. rewrite <- Er, <- Et, Tt, Tr in F1. destruct F1; discriminate.
  - exists (length (providers wc)). split; [exact N4|]. split; [|exact N6].
    destruct Cases1
      as [(_ & _ & G3) | [(_ & _ & G3) | (_ & _ & _ & _ & G3 & _)]];
      rewrite G3; auto.
Qed.

(** Changing the room, or the token, opens a new connection.  Take a
    state the page reaches and any event; if after the step the token
    and the room id are non-empty and one of them is not what it was,
    then the provider of the memo has been constructed during the step,
    for that room id and that token; it is not destroyed, the listeners
    of the session effect are registered on it, its awareness holds the
    descriptor of the user, the status shown is [connecting] and the
    participants are that user alone. *)
Theorem room_or_token_change_opens_connection
    (i0 : Inputs) (h : History) (c : bool) (d : Database)
    (trace : list (Inputs * Event)) (i : Inputs) (e : Event) (w' : World) :
  w' = step ucd_upper parse_url
         (page_after ucd_upper parse_url i0 h c d trace) (i, e) ->
  truthy (token w') = true -> truthy (roomId (react w')) = true ->
  roomId (react w')
  <> roomId (react (page_after ucd_upper parse_url i0 h c d trace))
  \/ token w' <> token (page_after ucd_upper parse_url i0 h c d trace) ->
  exists pid p,
    provider (hooks w') = Some pid
    /\ (length (providers (page_after ucd_upper parse_url i0 h c d trace))
        <= pid)%nat
    /\ nth_error (providers w') pid = Some p
    /\ roomname p = roomId (react w') /\ params_token p = token w'
    /\ announced i pid w'.
Proof.
  intros Hw'. subst w'.
  pose proof (run_Inv2 i0 h c d trace) as HI2.
  pose proof (run_Inv_stable ucd_upper parse_url i0 h c d trace) as HIs.
  fold (page_after ucd_upper parse_url i0 h c d trace) in HI2, HIs.
  generalize dependent (page_after ucd_upper parse_url i0 h c d trace).
  intros w HI2 (_ & (Hpd & _) & _).
  pose proof (@step_Inv2 w (i, e) HI2) as HI2'.
  destruct (@step_Inv_stable ucd_upper parse_url w (i, e) (proj1 HI2))
    as (_ & (Hpd' & _) & _).
  destruct (handle_store_length i e w) as (Hlen1 & Hpd1).
  assert (HI1 : Inv2 (handle ucd_upper parse_url i e w)).
  { destruct HI2 as (HI & HL). split; [now apply handle_Inv|].
    now apply handle_live. }
  rewrite Hpd in Hpd1.
  pose proof (@two_commits_open i (handle ucd_upper parse_url i e w)
                (roomId (react w)) (token w) HI1 Hpd1) as Open.
  rewrite Hlen1 in Open.
  assert (E : step ucd_upper parse_url w (i, e)
              = commit ucd_upper i
                  (commit ucd_upper i (handle ucd_upper parse_url i e w)))
    by reflexivity.
  rewrite <- E in Open. clear E HI1 Hpd1 Hlen1.
  generalize dependent (step ucd_upper parse_url w (i, e)).
  intros w' HI2' Hpd' Open Tt Tr Hch.
  destruct (Open Hpd' Tt Tr Hch) as (pid & Hp & Hle & Ha).
  destruct HI2' as (_ & _ & _ & _ & P & _).
  destruct (P pid Hp) as (p & r & t & Hn & Hdeps & Hr & Htk & _).
  rewrite Hpd' in Hdeps. inversion Hdeps as [[Er' Et']].
  exists pid, p. split; [exact Hp|]. split; [exact Hle|].
  split; [exact Hn|]. split; [congruence|]. split; [congruence | exact Ha].
Qed.

End Shape.

Lemma loading_flag_and_pending_invite_witness :
  inviteKey (react (run ascii_only_upper parse_links
                      (mount ascii_only_upper (inputs 0%N) room_page true
                         Db.empty)
                      (live_trace ++ [(inputs 0%N, ClickSignOut)]))) = [].
Proof.
  destruct (@loading_flag_and_pending_invite ascii_only_upper parse_links
              (inputs 0%N) room_page true Db.empty live_trace)
    as (_ & _ & H).
  apply H. vm_compute. reflexivity.
Defined.

Lemma signed_out_page_is_inert_witness :
  Forall (fun r => to_identity_service r = true)
    (requests (run ascii_only_upper parse_links
                 (mount ascii_only_upper (inputs 0%N) invited_page true
                    Db.empty)
                 [(inputs 0%N, ChangeEmail (js "bob@example.com"));
                  (inputs 0%N, ChangePassword (js "secret"));
                  (inputs 0%N, SubmitSignIn);
                  (inputs 0%N, ClickCreateRoom);
                  (inputs 0%N, SubmitJoinByKey);
                  (inputs 0%N, TransportStatus 0 (js "connected"))]))
  /\ db (run ascii_only_upper parse_links
           (mount ascii_only_upper (inputs 0%N) invited_page true Db.empty)
           [(inputs 0%N, ChangeEmail (js "bob@example.com"));
            (inputs 0%N, ChangePassword (js "secret"));
            (inputs 0%N, SubmitSignIn);
            (inputs 0%N, ClickCreateRoom);
            (inputs 0%N, SubmitJoinByKey);
            (inputs 0%N, TransportStatus 0 (js "connected"))]) = Db.empty.
Proof.
  destruct (@signed_out_page_is_inert ascii_only_upper parse_links
              (inputs 0%N) invited_page true Db.empty
              [(inputs 0%N, ChangeEmail (js "bob@example.com"));
               (inputs 0%N, ChangePassword (js "secret"));
               (inputs 0%N, SubmitSignIn);
               (inputs 0%N, ClickCreateRoom);
               (inputs 0%N, SubmitJoinByKey);
               (inputs 0%N, TransportStatus 0 (js "connected"))])
    as (_ & H1 & H2 & _).
  - right. repeat constructor; intros s; discriminate.
  - split; assumption.
Defined.

Lemma one_live_connection_witness :
  provider (hooks (run ascii_only_upper parse_links
                     (mount ascii_only_upper (inputs 0%N) room_page true
                        Db.empty)
                     live_trace)) <> None.
Proof.
  destruct (@one_live_connection ascii_only_upper parse_links
              (inputs 0%N) room_page true Db.empty live_trace) as (_ & H).
  apply H. split; vm_compute; reflexivity.
Defined.

Lemma sign_out_resets_the_page_witness :
  status (react (step ascii_only_upper parse_links
                   (page_after ascii_only_upper parse_links (inputs 0%N)
                      room_page true Db.empty live_trace)
                   (inputs 0%N, ClickSignOut)))
  = js "disconnected"
  /\ getRoomFromUrl
       (history (step ascii_only_upper parse_links
                   (page_after ascii_only_upper parse_links (inputs 0%N)
                      room_page true Db.empty live_trace)
                   (inputs 0%N, ClickSignOut))) = [].
Proof.
  destruct (@sign_out_resets_the_page ascii_only_upper parse_links
              (inputs 0%N) room_page true Db.empty live_trace (inputs 0%N)
              (step ascii_only_upper parse_links
                 (page_after ascii_only_upper parse_links (inputs 0%N)
                    room_page true Db.empty live_trace)
                 (inputs 0%N, ClickSignOut))
              eq_refl eq_refl)
    as (_ & (H2 & _) & (H3 & _) & _).
  split; assumption.
Defined.

Lemma session_replaced_with_same_token_witness :
  exists p',
    nth_error
      (providers (step ascii_only_upper parse_links
                    (page_after ascii_only_upper parse_links (inputs 0%N)
                       room_page true Db.empty live_trace)
                    (inputs 0%N, AuthStateChange (Some bob)))) 0
    = Some p'
    /\ destroyed p' = true.
Proof.
  destruct (@session_replaced_with_same_token ascii_only_upper parse_links
              (inputs 0%N) room_page true Db.empty live_trace (inputs 0%N)
              bob 0
              (step ascii_only_upper parse_links
                 (page_after ascii_only_upper parse_links (inputs 0%N)
                    room_page true Db.empty live_trace)
                 (inputs 0%N, AuthStateChange (Some bob)))
              eq_refl)
    as (_ & H & _).
  - vm_compute. reflexivity.
  - vm_compute. reflexivity.
  - vm_compute. reflexivity.
  - reflexivity.
  - exact H.
Defined.

Lemma events_of_torn_down_session_are_seen_witness :
  status (react (step ascii_only_upper parse_links
                   (page_after ascii_only_upper parse_links (inputs 0%N)
                      room_page true Db.empty live_trace)
                   (inputs 0%N, AuthStateChange (Some bob))))
  = js "connecting"
  /\ status (react (step ascii_only_upper parse_links
                      (step ascii_only_upper parse_links
                         (page_after ascii_only_upper parse_links (inputs 0%N)
                            room_page true Db.empty live_trace)
                         (inputs 0%N, AuthStateChange (Some bob)))
                      (inputs 0%N, TransportStatus 0 (js "disconnected"))))
     = js "disconnected"
  /\ users (react (step ascii_only_upper parse_links
                     (step ascii_only_upper parse_links
                        (page_after ascii_only_upper parse_links (inputs 0%N)
                           room_page true Db.empty live_trace)
                        (inputs 0%N, AuthStateChange (Some bob)))
                     (inputs 0%N,
                      AwarenessChange 0
                        [(9%N, {| aw_user := Some {| name := js "eve";
                                                     color := None |} |})])))
     = users_of_states
         [(9%N, {| aw_user := Some {| name := js "eve"; color := None |} |})].
Proof.
  destruct (@events_of_torn_down_session_are_seen ascii_only_upper parse_links
              (inputs 0%N) room_page true Db.empty live_trace (inputs 0%N)
              (inputs 0%N) bob 0 (js "disconnected")
              [(9%N, {| aw_user := Some {| name := js "eve";
                                           color := None |} |})]
              (step ascii_only_upper parse_links
                 (page_after ascii_only_upper parse_links (inputs 0%N)
                    room_page true Db.empty live_trace)
                 (inputs 0%N, AuthStateChange (Some bob)))
              eq_refl)
    as (_ & _ & H3 & H4 & H5).
  - vm_compute. reflexivity.
  - vm_compute. reflexivity.
  - vm_compute. reflexivity.
  - reflexivity.
  - split; [exact H3 | split; [exact H4 | exact H5]].
Defined.

Lemma room_or_token_change_opens_connection_witness :
  exists pid p,
    provider (hooks (step ascii_only_upper parse_links
                       (page_after ascii_only_upper parse_links (inputs 0%N)
                          room_page true Db.empty [])
                       (inputs 0%N, AuthStateChange (Some bob)))) = Some pid
    /\ (length (providers (page_after ascii_only_upper parse_links
                             (inputs 0%N) room_page true Db.empty []))
        <= pid)%nat
    /\ nth_error
         (providers (step ascii_only_upper parse_links
                       (page_after ascii_only_upper parse_links (inputs 0%N)
                          room_page true Db.empty [])
                       (inputs 0%N, AuthStateChange (Some bob)))) pid
       = Some p
    /\ roomname p
       = roomId (react (step ascii_only_upper parse_links
                          (page_after ascii_only_upper parse_links
                             (inputs 0%N) room_page true Db.empty [])
                          (inputs 0%N, AuthStateChange (Some bob))))
    /\ params_token p
       = token (step ascii_only_upper parse_links
                  (page_after ascii_only_upper parse_links (inputs 0%N)
                     room_page true Db.empty [])
                  (inputs 0%N, AuthStateChange (Some bob)))
    /\ announced (inputs 0%N) pid
         (step ascii_only_upper parse_links
            (page_after ascii_only_upper parse_links (inputs 0%N)
               room_page true Db.empty [])
            (inputs 0%N, AuthStateChange (Some bob))).
Proof.
  apply (@room_or_token_change_opens_connection ascii_only_upper parse_links
           (inputs 0%N) room_page true Db.empty [] (inputs 0%N)
           (AuthStateChange (Some bob)) _ eq_refl).
  - vm_compute. reflexivity.
  - vm_compute. reflexivity.
  - right. vm_compute. discriminate.
Defined.

End MoreSession.

(** ** Links of the first version *)

Module LegacyFacts.

Import JS JSFacts Url Legacy.

(** Links made for the first version still open the same room.  The
    first version always has a room; at an address with no [room]
    parameter (or an empty one) and a non-empty [doc] parameter the
    current version selects the room the first version opened; with
    neither parameter the first version opens [doc-1] and the current
    one selects no room. *)
Theorem doc_links_open_the_same_room (h : History) :
  truthy (roomName h) = true
  /\ (getSearchParam (js "room") h = [] ->
      truthy (getSearchParam (js "doc") h) = true ->
      getRoomFromUrl h = roomName h)
  /\ (getSearchParam (js "room") h = [] ->
      getSearchParam (js "doc") h = [] ->
      getRoomFromUrl h = [] /\ roomName h = js "doc-1").
Proof.
  unfold getRoomFromUrl, roomName, getSearchParam.
  destruct (get (js "doc") (searchParams (current h))) as [v|].
  - rewrite !MoreSession.or_else_nil.
    split; [|split].
    + unfold or_else. destruct (truthy v) eqn:E; [exact E | reflexivity].
    + intros -> Hv. unfold or_else. rewrite Hv. reflexivity.
    + intros -> ->. split; reflexivity.
  - split; [reflexivity|]. split.
    + intros _ H. discriminate.
    + intros ->. split; reflexivity.
Qed.

Lemma doc_links_open_the_same_room_witness :
  getRoomFromUrl
    {| back := [];
       current := {| origin_and_path := js "http://localhost:5173/";
                     searchParams := [(js "doc", js "notes")];
                     fragment := [] |};
       forward := [] |}
  = js "notes".
Proof.
  destruct (doc_links_open_the_same_room
              {| back := [];
                 current := {| origin_and_path := js "http://localhost:5173/";
                               searchParams := [(js "doc", js "notes")];
                               fragment := [] |};
                 forward := [] |})
    as (_ & H & _).
  rewrite H; reflexivity.
Defined.

End LegacyFacts.
